(** * NotebookLM RAG backend ([backend/main.py]): shallow embedding

    The FastAPI handlers of [backend/main.py] are embedded as computations
    in a state-and-exception monad.  The libraries the handlers call
    (sentence-transformers, pymilvus, langchain, openai, json, uuid,
    datetime, tempfile, the text extractors) are black boxes: a [World]
    gives, for each call, its outcome and the next state of the outside.
    Every call to a black box is appended to a trace, so that "the store
    was searched" or "no model was loaded" are statements about the trace.

    Conventions: a Python [str] is kept as the [string] of the bytes of
    its UTF-8 encoding, so a character is one byte or, for an accented
    letter, a leading byte followed by continuation bytes; what Python
    counts in characters ([s[:n]]) is counted in characters here, not in
    bytes.  Python [int] is [Z] where it may be negative and [nat] for
    lengths and indices; floating-point numbers are an uninterpreted type
    of the world (the handlers only pass them around). *)

From Stdlib Require Import Ascii String ZArith QArith Lia.
From stdpp Require Import base option list strings gmap pretty.

Local Open Scope string_scope.
Local Open Scope list_scope.
Set Warnings "-register-all".

(** ** Python values *)

Definition nl : string := String (ascii_of_nat 10) EmptyString.
Definition dq : string := String (ascii_of_nat 34) EmptyString.

(** [sep.join(parts)] *)
Fixpoint join (sep : string) (parts : list string) : string :=
  match parts with
  | [] => ""
  | [p] => p
  | p :: rest => p +:+ sep +:+ join sep rest
  end.

(** A byte [10xxxxxx] continues the character begun before it. *)
Definition is_continuation (c : ascii) : bool :=
  let n := nat_of_ascii c in (128 <=? n)%nat && (n <? 192)%nat.

(** [len(s)]: the number of characters, one per byte that is not a
    continuation. *)
Fixpoint py_len (s : string) : nat :=
  match s with
  | EmptyString => 0
  | String c s' => if is_continuation c then py_len s' else S (py_len s')
  end.

(** [s[:n]] for [n >= 0]: the first [n] characters, each with all its
    bytes. *)
Fixpoint str_take (n : nat) (s : string) : string :=
  match s with
  | EmptyString => EmptyString
  | String c s' =>
      if is_continuation c then String c (str_take n s')
      else match n with
           | O => EmptyString
           | S n' => String c (str_take n' s')
           end
  end.

(** [s] is empty or begins with the first byte of a character. *)
Definition at_boundary (s : string) : Prop :=
  match s with
  | EmptyString => True
  | String c _ => is_continuation c = false
  end.

(** [s.split(".")[-1]] *)
Fixpoint last_dot_segment_aux (acc s : string) : string :=
  match s with
  | EmptyString => acc
  | String c s' =>
      if Ascii.eqb c "."%char then last_dot_segment_aux s' s'
      else last_dot_segment_aux acc s'
  end.

Definition last_dot_segment (s : string) : string := last_dot_segment_aux s s.

Definition ascii_lower (c : ascii) : ascii :=
  let n := nat_of_ascii c in
  if (65 <=? n)%nat && (n <=? 90)%nat then ascii_of_nat (n + 32) else c.

(** [s.lower()] *)
Fixpoint lower (s : string) : string :=
  match s with
  | EmptyString => EmptyString
  | String c s' => String (ascii_lower c) (lower s')
  end.

(** [needle in hay] on two [str] *)
Fixpoint str_contains (needle hay : string) : bool :=
  String.prefix needle hay ||
  match hay with
  | EmptyString => false
  | String _ hay' => str_contains needle hay'
  end.

(** What [json.loads] can return ([float] left out). *)
Inductive Json : Type :=
| JNull
| JBool (b : bool)
| JInt (z : Z)
| JStr (s : string)
| JList (l : list Json)
| JDict (d : list (string * Json)).

(** The hashable values among them, the members of a Python [set]. *)
Inductive Hashable : Type :=
| HNone
| HBool (b : bool)
| HInt (z : Z)
| HStr (s : string).

Definition as_hashable (j : Json) : option Hashable :=
  match j with
  | JNull => Some HNone
  | JBool b => Some (HBool b)
  | JInt z => Some (HInt z)
  | JStr s => Some (HStr s)
  | JList _ | JDict _ => None
  end.

(** Python [==] on hashable values: [True == 1] and [False == 0]. *)
Definition py_eqb (a b : Hashable) : bool :=
  match a, b with
  | HNone, HNone => true
  | HStr s, HStr t => String.eqb s t
  | HBool x, HBool y => Bool.eqb x y
  | HInt x, HInt y => (x =? y)%Z
  | HBool x, HInt y | HInt y, HBool x => (Z.b2z x =? y)%Z
  | _, _ => false
  end.

(** [s.add(x)]: a set is kept as the list of its members in insertion
    order; a member equal to [x] keeps its place.  This list is the
    history of the set, not the order in which Python iterates over it:
    see [list_of_set]. *)
Definition set_add (x : Hashable) (s : list Hashable) : list Hashable :=
  if existsb (py_eqb x) s then s else s ++ [x].

(** [list(s)] for a set [s]: the members in the order of the slots of
    the hash table, which depends on the hashes and is not decided by the
    program.  [slot] gives the place of each member; members given the
    same place stay in insertion order.  Whatever [slot] is, the result
    has the members of [s], each once. *)
Fixpoint insert_by (slot : Hashable -> nat) (x : Hashable) (l : list Hashable)
    : list Hashable :=
  match l with
  | [] => [x]
  | y :: rest =>
      if (slot x <=? slot y)%nat then x :: y :: rest
      else y :: insert_by slot x rest
  end.

Definition list_of_set (slot : Hashable -> nat) (s : list Hashable) : list Hashable :=
  fold_right (insert_by slot) [] s.

(** [d[k]] / [d.get(k)] on a dict kept as an association list. *)
Fixpoint dict_get {V} (k : string) (d : list (string * V)) : option V :=
  match d with
  | [] => None
  | (k', v) :: d' => if String.eqb k k' then Some v else dict_get k d'
  end.

(** ** Exceptions

    [HTTPException] is FastAPI's, a subclass of [Exception]: an
    [except Exception] clause catches it like any other.  Every other
    exception is kept as its class name and its text. *)

Inductive exn : Type :=
| HTTPException (status_code : Z) (detail : string)
| PyException (cls : string) (msg : string).

Inductive result (A : Type) : Type :=
| Ok (a : A)
| Raise (e : exn).
Arguments Ok {A} a.
Arguments Raise {A} e.

(** ** Data passed to the collaborators *)

Inductive DataType := VARCHAR | FLOAT_VECTOR.

Record FieldSchema := {
  fs_name : string;
  fs_dtype : DataType;
  fs_max_length : option N;
  fs_dim : option nat;
  fs_is_primary : bool
}.

Record CollectionSchema := {
  cs_fields : list FieldSchema;
  cs_description : string
}.

Record IndexParams := {
  ip_metric_type : string;
  ip_index_type : string;
  ip_nlist : nat
}.

(** A [Collection] object is a handle on the collection of that name. *)
Definition Collection := string.

(** [SentenceTransformer(name)] builds a new object at each call;
    [model_id] is its identity. *)
Record Model := {
  model_id : nat;
  model_name : string
}.

Record ChatRequest := {
  cr_base_url : string;
  cr_api_key : string;
  cr_model : string;
  cr_messages : list (string * string);
  cr_max_tokens : nat;
  cr_temperature : Q
}.

(** [response.choices]: the [message.content] of each choice. *)
Record ChatCompletion := {
  choices : list (option string)
}.

Section Payloads.
Variable F : Type.

(** The five columns given to [collection.insert]. *)
Record Entities := {
  en_ids : list string;
  en_document_ids : list string;
  en_contents : list string;
  en_embeddings : list (list F);
  en_metadata : list string
}.

Record SearchRequest := {
  sr_data : list (list F);
  sr_anns_field : string;
  sr_metric_type : string;
  sr_nprobe : nat;
  sr_limit : Z;
  sr_output_fields : list string
}.
End Payloads.
Arguments en_ids {F}. Arguments en_document_ids {F}. Arguments en_contents {F}.
Arguments en_embeddings {F}. Arguments en_metadata {F}.
Arguments sr_data {F}. Arguments sr_anns_field {F}. Arguments sr_metric_type {F}.
Arguments sr_nprobe {F}. Arguments sr_limit {F}. Arguments sr_output_fields {F}.

(** A search hit or a query row: its fields by name. *)
Definition Row := list (string * string).

(** ** The collaborators *)

Record World := {
  float : Type;
  ext : Type;
  (* Python library *)
  uuid4_str : ext -> string * ext;
  now_isoformat : ext -> string * ext;
  json_dumps : Json -> string;
  json_loads : string -> result Json;
  http_exception_str : Z -> string -> string;
  set_slot : list Hashable -> Hashable -> nat;
  write_temp_file : string -> string -> ext -> result string * ext;
  os_unlink : string -> ext -> result unit * ext;
  (* PyPDF2, open().read(), python-docx *)
  pdf_page_texts : string -> ext -> result (list string) * ext;
  read_text_utf8 : string -> ext -> result string * ext;
  docx_paragraph_texts : string -> ext -> result (list string) * ext;
  (* RecursiveCharacterTextSplitter(chunk_size, chunk_overlap).split_text *)
  split_text : nat -> nat -> string -> result (list string);
  (* sentence-transformers *)
  load_model : string -> ext -> result unit * ext;
  model_encode : Model -> list string -> ext -> result (list (list float)) * ext;
  (* pymilvus *)
  milvus_connect : string -> string -> string -> ext -> result unit * ext;
  has_collection : string -> ext -> result bool * ext;
  create_collection : string -> CollectionSchema -> ext -> result unit * ext;
  open_collection : string -> ext -> result unit * ext;
  has_index : Collection -> ext -> result bool * ext;
  create_index : Collection -> string -> IndexParams -> ext -> result unit * ext;
  load_collection : Collection -> ext -> result unit * ext;
  insert : Collection -> Entities float -> ext -> result unit * ext;
  flush : Collection -> ext -> result unit * ext;
  search : Collection -> SearchRequest float -> ext -> result (list (list Row)) * ext;
  query : Collection -> string -> list string -> Z -> ext -> result (list Row) * ext;
  delete : Collection -> string -> ext -> result unit * ext;
  (* openai *)
  chat_completions_create : ChatRequest -> ext -> result ChatCompletion * ext
}.

(** [str(e)] *)
Definition str_exn (W : World) (e : exn) : string :=
  match e with
  | HTTPException c d => http_exception_str W c d
  | PyException _ m => m
  end.

Inductive LogLevel := INFO | ERROR.

Inductive EventOf (F : Type) : Type :=
| EvLog (level : LogLevel) (msg : string)
| EvUuid4
| EvNow
| EvWriteTemp (suffix content : string)
| EvUnlink (path : string)
| EvPdf (path : string)
| EvReadText (path : string)
| EvDocx (path : string)
| EvLoadModel (name : string)
| EvEncode (m : Model) (texts : list string)
| EvConnect (alias host port : string)
| EvHasCollection (name : string)
| EvCreateCollection (name : string) (schema : CollectionSchema)
| EvOpenCollection (name : string)
| EvHasIndex (c : Collection)
| EvCreateIndex (c : Collection) (field : string) (params : IndexParams)
| EvLoadCollection (c : Collection)
| EvInsert (c : Collection) (entities : Entities F)
| EvFlush (c : Collection)
| EvSearch (c : Collection) (req : SearchRequest F)
| EvQuery (c : Collection) (expr : string) (output_fields : list string) (limit : Z)
| EvDelete (c : Collection) (expr : string)
| EvChat (req : ChatRequest).
Arguments EvLog {F}. Arguments EvUuid4 {F}. Arguments EvNow {F}.
Arguments EvWriteTemp {F}. Arguments EvUnlink {F}. Arguments EvPdf {F}.
Arguments EvReadText {F}. Arguments EvDocx {F}. Arguments EvLoadModel {F}.
Arguments EvEncode {F}. Arguments EvConnect {F}. Arguments EvHasCollection {F}.
Arguments EvCreateCollection {F}. Arguments EvOpenCollection {F}.
Arguments EvHasIndex {F}. Arguments EvCreateIndex {F}. Arguments EvLoadCollection {F}.
Arguments EvInsert {F}. Arguments EvFlush {F}. Arguments EvSearch {F}.
Arguments EvQuery {F}. Arguments EvDelete {F}. Arguments EvChat {F}.

(** The events and the states of a world. *)
Abbreviation Event W := (EventOf (float W)).

(** ** Process state and the monad of the handlers *)

Record ProcessState (F X : Type) := {
  embedding_models : gmap string Model;   (* the module-level cache *)
  next_id : nat;                          (* identity of the next object built *)
  outside : X;                            (* state of the collaborators *)
  trace : list (EventOf F)                (* calls made so far, oldest first *)
}.
Arguments embedding_models {F X}. Arguments next_id {F X}.
Arguments outside {F X}. Arguments trace {F X}.

Abbreviation State W := (ProcessState (float W) (ext W)).

Definition M (W : World) (A : Type) : Type := State W -> result A * State W.

Section Monad.
Context {W : World}.

Definition ret {A} (a : A) : M W A := fun s => (Ok a, s).

Definition raise {A} (e : exn) : M W A := fun s => (Raise e, s).

Definition bind {A B} (m : M W A) (k : A -> M W B) : M W B :=
  fun s =>
    match m s with
    | (Ok a, s') => k a s'
    | (Raise e, s') => (Raise e, s')
    end.

(** [try: body  except Exception as e: handler] *)
Definition try_except {A} (body : M W A) (handler : exn -> M W A) : M W A :=
  fun s =>
    match body s with
    | (Ok a, s') => (Ok a, s')
    | (Raise e, s') => handler e s'
    end.

(** A value that was computed without touching the state. *)
Definition lift {A} (r : result A) : M W A := fun s => (r, s).

(** One call to a collaborator, recorded in the trace. *)
Definition call {A} (ev : Event W) (f : ext W -> result A * ext W) : M W A :=
  fun s =>
    let '(r, x) := f (outside s) in
    (r, {| embedding_models := embedding_models s;
           next_id := next_id s;
           outside := x;
           trace := trace s ++ [ev] |}).

(** The same for a call that cannot raise. *)
Definition call_total {A} (ev : Event W) (f : ext W -> A * ext W) : M W A :=
  call ev (fun x => let '(a, x') := f x in (Ok a, x')).

Definition log (level : LogLevel) (msg : string) : M W unit :=
  fun s =>
    (Ok tt, {| embedding_models := embedding_models s;
               next_id := next_id s;
               outside := outside s;
               trace := trace s ++ [EvLog level msg] |}).
End Monad.

Notation "x <- m ;; k" := (bind m (fun x => k))
  (at level 100, m at next level, right associativity).
Notation "m ;;; k" := (bind m (fun _ => k))
  (at level 100, right associativity).

(** ** Module-level configuration *)

Definition CHUNK_SIZE : nat := 1000.
Definition CHUNK_OVERLAP : nat := 200.
Definition MILVUS_HOST : string := "localhost".
Definition MILVUS_PORT : string := "19530".
Definition COLLECTION_NAME : string := "documents".
Definition LLM_ENDPOINT : string := "http://localhost:8000/v1".
Definition DEFAULT_EMBEDDING_MODEL : string := "sentence-transformers/all-MiniLM-L6-v2".

(** ** Requests and responses *)

Record AskRequest := {
  question : string;
  embedding_model : string;
  top_k : Z
}.

Record AskResponse := {
  answer : option string;          (* [None] when the choice has no content *)
  sources : list Hashable;         (* [list(sources)], in no specified order *)
  context_chunks : nat;
  ar_question : string
}.

Record UploadFile := {
  filename : string;
  file_content : string
}.

Record UploadResponse := {
  ur_status : string;
  ur_document_id : string;
  ur_filename : string;
  chunks_count : nat;
  ur_message : string
}.

Record DocumentInfo := {
  di_id : string;
  di_name : Json;
  di_upload_date : Json;
  di_chunks : nat
}.

Record DeleteResponse := {
  dr_status : string;
  dr_message : string
}.

(** ** Pure parts of the handlers *)

(** [type(obj).__name__] *)
Definition py_type_name (obj : Json) : string :=
  match obj with
  | JNull => "NoneType"
  | JBool _ => "bool"
  | JInt _ => "int"
  | JStr _ => "str"
  | JList _ => "list"
  | JDict _ => "dict"
  end.

(** [KeyError(key)], whose text is the key between quotes. *)
Definition key_error (key : string) : exn :=
  PyException "KeyError" ("'" +:+ key +:+ "'").

(** [key in obj] for a [str] key *)
Definition py_contains (key : string) (obj : Json) : result bool :=
  match obj with
  | JDict d => Ok (bool_decide (is_Some (dict_get key d)))
  | JList l =>
      Ok (existsb (fun j => match j with JStr s => String.eqb s key | _ => false end) l)
  | JStr s => Ok (str_contains key s)
  | JNull | JBool _ | JInt _ =>
      Raise (PyException "TypeError"
               ("argument of type '" +:+ py_type_name obj +:+ "' is not iterable"))
  end.

(** [obj[key]] for a [str] key *)
Definition py_getitem (obj : Json) (key : string) : result Json :=
  match obj with
  | JDict d =>
      match dict_get key d with
      | Some v => Ok v
      | None => Raise (key_error key)
      end
  | JList _ =>
      Raise (PyException "TypeError" "list indices must be integers or slices, not str")
  | JStr _ => Raise (PyException "TypeError" "string indices must be integers")
  | JNull | JBool _ | JInt _ =>
      Raise (PyException "TypeError"
               ("'" +:+ py_type_name obj +:+ "' object is not subscriptable"))
  end.

(** [obj.get(key, dflt)] *)
Definition py_get (obj : Json) (key : string) (dflt : Json) : result Json :=
  match obj with
  | JDict d => Ok (default dflt (dict_get key d))
  | _ =>
      Raise (PyException "AttributeError"
               ("'" +:+ py_type_name obj +:+ "' object has no attribute 'get'"))
  end.

(** [sep.join(parts)] where a part may be [None]; [i] is the index of
    the first part. *)
Fixpoint py_join_all (i : nat) (parts : list (option string)) : result (list string) :=
  match parts with
  | [] => Ok []
  | None :: _ =>
      Raise (PyException "TypeError"
               ("sequence item " +:+ pretty i +:+ ": expected str instance, NoneType found"))
  | Some p :: rest =>
      match py_join_all (S i) rest with
      | Ok ps => Ok (p :: ps)
      | Raise e => Raise e
      end
  end.

Definition py_join (sep : string) (parts : list (option string)) : result string :=
  match py_join_all 0 parts with
  | Ok ps => Ok (join sep ps)
  | Raise e => Raise e
  end.

(** [d[k] = v]: a present key keeps its place, a new one goes last. *)
Fixpoint dict_set {V} (k : string) (v : V) (d : list (string * V)) : list (string * V) :=
  match d with
  | [] => [(k, v)]
  | (k', v') :: d' =>
      if String.eqb k k' then (k', v) :: d' else (k', v') :: dict_set k v d'
  end.

Definition schema_fields : list FieldSchema :=
  [ {| fs_name := "id"; fs_dtype := VARCHAR; fs_max_length := Some 100%N;
       fs_dim := None; fs_is_primary := true |};
    {| fs_name := "document_id"; fs_dtype := VARCHAR; fs_max_length := Some 100%N;
       fs_dim := None; fs_is_primary := false |};
    {| fs_name := "content"; fs_dtype := VARCHAR; fs_max_length := Some 65535%N;
       fs_dim := None; fs_is_primary := false |};
    {| fs_name := "embedding"; fs_dtype := FLOAT_VECTOR; fs_max_length := None;
       fs_dim := Some 384; fs_is_primary := false |};
    {| fs_name := "metadata"; fs_dtype := VARCHAR; fs_max_length := Some 1000%N;
       fs_dim := None; fs_is_primary := false |} ].

Definition collection_schema : CollectionSchema :=
  {| cs_fields := schema_fields;
     cs_description := "Colección de documentos para RAG" |}.

Definition index_params : IndexParams :=
  {| ip_metric_type := "COSINE"; ip_index_type := "IVF_FLAT"; ip_nlist := 128 |}.

(** The dimension a schema gives to its vector field. *)
Definition schema_dim (schema : CollectionSchema) : option nat :=
  match filter (fun f => fs_name f = "embedding") (cs_fields schema) with
  | f :: _ => fs_dim f
  | [] => None
  end.

Definition build_prompt (context question : string) : string :=
  "Basándote en el siguiente contexto, responde la pregunta de manera precisa y completa."
  +:+ nl +:+ nl +:+ "Contexto:" +:+ nl +:+ context +:+ nl +:+ nl
  +:+ "Pregunta: " +:+ question +:+ nl +:+ nl +:+ "Respuesta:".

Definition chat_request (prompt : string) : ChatRequest :=
  {| cr_base_url := LLM_ENDPOINT;
     cr_api_key := "dummy";
     cr_model := "gemma";
     cr_messages :=
       [ ("system", "Eres un asistente útil que responde preguntas basándose en el contexto proporcionado.");
         ("user", prompt) ];
     cr_max_tokens := 1000;
     cr_temperature := 7 # 10 |}.

Definition FALLBACK_PREFIX : string :=
  "Error conectando al LLM. Contexto encontrado:" +:+ nl +:+ nl.

(** The answer given when the call to the LLM raised (line 324). *)
Definition fallback_answer (context : string) : string :=
  FALLBACK_PREFIX +:+ str_take 500 context +:+ "...".

(** ** The handlers *)

Section Handlers.
Context (W : World).

Local Abbreviation str := (str_exn W).

Definition get_cache : M W (gmap string Model) :=
  fun s => (Ok (embedding_models s), s).

(** [embedding_models[model_name] = m] *)
Definition cache_store (model_name : string) (m : Model) : M W unit :=
  fun s =>
    (Ok tt, {| embedding_models := <[model_name := m]> (embedding_models s);
               next_id := next_id s;
               outside := outside s;
               trace := trace s |}).

(** A new Python object, with an identity never given before. *)
Definition new_model (model_name : string) : M W Model :=
  fun s =>
    (Ok {| model_id := next_id s; model_name := model_name |},
     {| embedding_models := embedding_models s;
        next_id := S (next_id s);
        outside := outside s;
        trace := trace s |}).

Definition SentenceTransformer (model_name : string) : M W Model :=
  call (EvLoadModel model_name) (load_model W model_name) ;;;
  new_model model_name.

(** Lines 71-76. *)
Definition get_embedding_model (model_name : string) : M W Model :=
  cache <- get_cache ;;
  match cache !! model_name with
  | None =>
      log INFO ("Cargando modelo de embeddings: " +:+ model_name) ;;;
      m <- SentenceTransformer model_name ;;
      cache_store model_name m
  | Some _ => ret tt
  end ;;;
  cache <- get_cache ;;
  match cache !! model_name with
  | Some m => ret m
  | None => raise (key_error model_name)
  end.

(** Lines 78-118. *)
Definition connect_milvus (host port : string) : M W Collection :=
  try_except
    (call (EvConnect "default" host port) (milvus_connect W "default" host port) ;;;
     log INFO ("Conectado a Milvus en " +:+ host +:+ ":" +:+ port) ;;;
     let schema := collection_schema in
     present <- call (EvHasCollection COLLECTION_NAME) (has_collection W COLLECTION_NAME) ;;
     collection <-
       (if negb present then
          call (EvCreateCollection COLLECTION_NAME schema)
               (create_collection W COLLECTION_NAME schema) ;;;
          log INFO ("Colección " +:+ COLLECTION_NAME +:+ " creada") ;;;
          ret COLLECTION_NAME
        else
          call (EvOpenCollection COLLECTION_NAME) (open_collection W COLLECTION_NAME) ;;;
          log INFO ("Colección " +:+ COLLECTION_NAME +:+ " ya existe") ;;;
          ret COLLECTION_NAME) ;;
     indexed <- call (EvHasIndex collection) (has_index W collection) ;;
     (if negb indexed then
        call (EvCreateIndex collection "embedding" index_params)
             (create_index W collection "embedding" index_params) ;;;
        log INFO "Índice creado"
      else ret tt) ;;;
     call (EvLoadCollection collection) (load_collection W collection) ;;;
     ret collection)
    (fun e =>
       log ERROR ("Error conectando a Milvus: " +:+ str e) ;;;
       raise (HTTPException 500 ("Error conectando a Milvus: " +:+ str e))).

(** Lines 120-147. *)
Definition extract_text_from_file (file_path file_type : string) : M W string :=
  try_except
    (if String.eqb file_type "pdf" then
       pages <- call (EvPdf file_path) (pdf_page_texts W file_path) ;;
       ret (fold_left (fun text page => text +:+ page) pages "")
     else if String.eqb file_type "txt" then
       call (EvReadText file_path) (read_text_utf8 W file_path)
     else if String.eqb file_type "docx" then
       paragraphs <- call (EvDocx file_path) (docx_paragraph_texts W file_path) ;;
       ret (fold_left (fun text paragraph => text +:+ paragraph +:+ nl) paragraphs "")
     else
       raise (PyException "ValueError" ("Tipo de archivo no soportado: " +:+ file_type)))
    (fun e =>
       log ERROR ("Error extrayendo texto: " +:+ str e) ;;;
       raise (HTTPException 400 ("Error extrayendo texto: " +:+ str e))).

(** The four lists filled by the loop of lines 204-215. *)
Record ChunkColumns := {
  chunk_ids : list string;
  chunk_contents : list string;
  chunk_embeddings : list (list (float W));
  chunk_metadata : list string
}.

Definition chunk_metadata_of (name : string) (i : nat) (upload_date : string) : Json :=
  JDict [ ("document_name", JStr name);
          ("chunk_index", JInt (Z.of_nat i));
          ("upload_date", JStr upload_date) ].

(** [for i, (chunk, embedding) in enumerate(zip(documents, embeddings))] *)
Fixpoint prepare_chunks (document_id name : string) (i : nat)
    (pairs : list (string * list (float W))) (cols : ChunkColumns) : M W ChunkColumns :=
  match pairs with
  | [] => ret cols
  | (chunk, embedding) :: rest =>
      let chunk_id := document_id +:+ "_chunk_" +:+ pretty i in
      upload_date <- call_total EvNow (now_isoformat W) ;;
      let metadata := chunk_metadata_of name i upload_date in
      prepare_chunks document_id name (S i) rest
        {| chunk_ids := chunk_ids cols ++ [chunk_id];
           chunk_contents := chunk_contents cols ++ [chunk];
           chunk_embeddings := chunk_embeddings cols ++ [embedding];
           chunk_metadata := chunk_metadata cols ++ [json_dumps W metadata] |}
  end.

Definition SUPPORTED_EXTENSIONS : list string := ["pdf"; "txt"; "docx"; "md"].

(** Lines 183-240: the body of the [try] once the temporary file exists. *)
Definition process_upload (file : UploadFile) (embedding_model : string)
    (temp_file_path file_extension : string) : M W UploadResponse :=
  let file_extension :=
    if String.eqb file_extension "md" then "txt" else file_extension in
  text <- extract_text_from_file temp_file_path file_extension ;;
  documents <- lift (split_text W CHUNK_SIZE CHUNK_OVERLAP text) ;;
  model <- get_embedding_model embedding_model ;;
  embeddings <- call (EvEncode model documents) (model_encode W model documents) ;;
  collection <- connect_milvus MILVUS_HOST MILVUS_PORT ;;
  document_id <- call_total EvUuid4 (uuid4_str W) ;;
  cols <- prepare_chunks document_id (filename file) 0 (zip documents embeddings)
            {| chunk_ids := []; chunk_contents := [];
               chunk_embeddings := []; chunk_metadata := [] |} ;;
  let entities :=
    {| en_ids := chunk_ids cols;
       en_document_ids := replicate (length (chunk_ids cols)) document_id;
       en_contents := chunk_contents cols;
       en_embeddings := chunk_embeddings cols;
       en_metadata := chunk_metadata cols |} in
  call (EvInsert collection entities) (insert W collection entities) ;;;
  call (EvFlush collection) (flush W collection) ;;;
  call (EvUnlink temp_file_path) (os_unlink W temp_file_path) ;;;
  log INFO ("Documento " +:+ filename file +:+ " procesado: "
            +:+ pretty (length documents) +:+ " chunks") ;;;
  ret {| ur_status := "success";
         ur_document_id := document_id;
         ur_filename := filename file;
         chunks_count := length documents;
         ur_message := "Documento procesado e indexado con "
                       +:+ pretty (length documents) +:+ " chunks" |}.

(** Lines 160-250.  The handler of line 242 removes the temporary file
    only when [temp_file_path] was bound, that is when line 174-177
    succeeded. *)
Definition upload_document (file : UploadFile) (embedding_model : string)
    : M W UploadResponse :=
  let file_extension := lower (last_dot_segment (filename file)) in
  if negb (bool_decide (file_extension ∈ SUPPORTED_EXTENSIONS)) then
    raise (HTTPException 400 "Tipo de archivo no soportado")
  else
    temp_file_path <-
      try_except
        (call (EvWriteTemp ("." +:+ file_extension) (file_content file))
              (write_temp_file W ("." +:+ file_extension) (file_content file)))
        (fun e =>
           log ERROR ("Error procesando documento: " +:+ str e) ;;;
           raise (HTTPException 500 ("Error procesando documento: " +:+ str e))) ;;
    try_except
      (process_upload file embedding_model temp_file_path file_extension)
      (fun e =>
         log ERROR ("Error procesando documento: " +:+ str e) ;;;
         try_except
           (call (EvUnlink temp_file_path) (os_unlink W temp_file_path))
           (fun _ => ret tt) ;;;
         raise (HTTPException 500 ("Error procesando documento: " +:+ str e))).

(** The loop of lines 283-287. *)
Fixpoint collect_hits (hits : list Row) (relevant_chunks : list (option string))
    (sources : list Hashable) : result (list (option string) * list Hashable) :=
  match hits with
  | [] => Ok (relevant_chunks, sources)
  | hit :: rest =>
      let relevant_chunks := (relevant_chunks ++ [dict_get "content" hit])%list in
      match json_loads W (default "{}" (dict_get "metadata" hit)) with
      | Raise e => Raise e
      | Ok metadata =>
          match py_contains "document_name" metadata with
          | Raise e => Raise e
          | Ok false => collect_hits rest relevant_chunks sources
          | Ok true =>
              match py_getitem metadata "document_name" with
              | Raise e => Raise e
              | Ok v =>
                  match as_hashable v with
                  | None =>
                      Raise (PyException "TypeError"
                               ("unhashable type: '" +:+ py_type_name v +:+ "'"))
                  | Some h => collect_hits rest relevant_chunks (set_add h sources)
                  end
              end
          end
      end
  end.

Definition search_request (request : AskRequest) (data : list (list (float W)))
    : SearchRequest (float W) :=
  {| sr_data := data;
     sr_anns_field := "embedding";
     sr_metric_type := "COSINE";
     sr_nprobe := 10;
     sr_limit := top_k request;
     sr_output_fields := ["content"; "metadata"; "document_id"] |}.

(** Lines 301-324. *)
Definition call_llm (context prompt : string) : M W (option string) :=
  try_except
    (response <- call (EvChat (chat_request prompt))
                      (chat_completions_create W (chat_request prompt)) ;;
     match choices response with
     | content :: _ => ret content
     | [] => raise (PyException "IndexError" "list index out of range")
     end)
    (fun llm_error =>
       log ERROR ("Error llamando al LLM: " +:+ str llm_error) ;;;
       ret (Some (fallback_answer context))).

(** Lines 252-335. *)
Definition ask_question (request : AskRequest) : M W AskResponse :=
  try_except
    (model <- get_embedding_model (embedding_model request) ;;
     question_embedding <- call (EvEncode model [question request])
                                (model_encode W model [question request]) ;;
     collection <- connect_milvus MILVUS_HOST MILVUS_PORT ;;
     results <- call (EvSearch collection (search_request request question_embedding))
                     (search W collection (search_request request question_embedding)) ;;
     match results with
     | [] | [] :: _ =>
         raise (HTTPException 404 "No se encontraron documentos relevantes")
     | hits :: _ =>
         collected <- lift (collect_hits hits [] []) ;;
         let '(relevant_chunks, sources) := collected in
         context <- lift (py_join (nl +:+ nl) relevant_chunks) ;;
         let prompt := build_prompt context (question request) in
         answer <- call_llm context prompt ;;
         ret {| answer := answer;
                sources := list_of_set (set_slot W sources) sources;
                context_chunks := length relevant_chunks;
                ar_question := question request |}
     end)
    (fun e =>
       log ERROR ("Error procesando pregunta: " +:+ str e) ;;;
       raise (HTTPException 500 ("Error procesando pregunta: " +:+ str e))).

(** The loop of lines 353-363. *)
Fixpoint group_documents (results : list Row) (documents : list (string * DocumentInfo))
    : result (list (string * DocumentInfo)) :=
  match results with
  | [] => Ok documents
  | row :: rest =>
      match dict_get "document_id" row with
      | None => Raise (key_error "document_id")
      | Some doc_id =>
          let added :=
            match dict_get doc_id documents with
            | Some _ => Ok documents
            | None =>
                match json_loads W (default "{}" (dict_get "metadata" row)) with
                | Raise e => Raise e
                | Ok metadata =>
                    match py_get metadata "document_name" (JStr "Documento desconocido") with
                    | Raise e => Raise e
                    | Ok name =>
                        match py_get metadata "upload_date" (JStr "") with
                        | Raise e => Raise e
                        | Ok upload_date =>
                            Ok (dict_set doc_id
                                  {| di_id := doc_id; di_name := name;
                                     di_upload_date := upload_date; di_chunks := 0 |}
                                  documents)
                        end
                    end
                end
            end in
          match added with
          | Raise e => Raise e
          | Ok documents =>
              match dict_get doc_id documents with
              | None => Raise (key_error doc_id)
              | Some d =>
                  group_documents rest
                    (dict_set doc_id
                       {| di_id := di_id d; di_name := di_name d;
                          di_upload_date := di_upload_date d;
                          di_chunks := di_chunks d + 1 |}
                       documents)
              end
          end
      end
  end.

Definition LIST_EXPR : string := "document_id != ''".
Definition LIST_LIMIT : Z := 1000.

(** Lines 337-369. *)
Definition list_documents : M W (list DocumentInfo) :=
  try_except
    (collection <- connect_milvus MILVUS_HOST MILVUS_PORT ;;
     results <- call (EvQuery collection LIST_EXPR ["document_id"; "metadata"] LIST_LIMIT)
                     (query W collection LIST_EXPR ["document_id"; "metadata"] LIST_LIMIT) ;;
     documents <- lift (group_documents results []) ;;
     ret (map snd documents))
    (fun e =>
       log ERROR ("Error listando documentos: " +:+ str e) ;;;
       raise (HTTPException 500 ("Error listando documentos: " +:+ str e))).

Definition delete_expr (document_id : string) : string :=
  "document_id == " +:+ dq +:+ document_id +:+ dq.

(** Lines 371-387. *)
Definition delete_document (document_id : string) : M W DeleteResponse :=
  try_except
    (collection <- connect_milvus MILVUS_HOST MILVUS_PORT ;;
     call (EvDelete collection (delete_expr document_id))
          (delete W collection (delete_expr document_id)) ;;;
     log INFO ("Documento " +:+ document_id +:+ " eliminado") ;;;
     ret {| dr_status := "success";
            dr_message := "Documento " +:+ document_id +:+ " eliminado" |})
    (fun e =>
       log ERROR ("Error eliminando documento: " +:+ str e) ;;;
       raise (HTTPException 500 ("Error eliminando documento: " +:+ str e))).
End Handlers.

(** ** A reference world: everything in memory

    Used to run the handlers on concrete requests.  The store keeps its
    rows in insertion order and answers a search with the first [limit]
    rows (all similarities equal, ties in insertion order). *)

Module Mem.

Record StoredRow := {
  r_id : string;
  r_document_id : string;
  r_content : string;
  r_embedding : list nat;
  r_metadata : string
}.

Record Outside := {
  collection_dim : option nat;      (* dimension of "documents", when it exists *)
  indexed : bool;
  rows : list StoredRow;
  counter : nat;                    (* source of fresh document identifiers *)
  files : list (string * string);   (* temporary files *)
  llm_up : bool;                    (* is the LLM endpoint reachable *)
  strict_dim : bool;                (* does the store check vector dimensions *)
  rejects_empty_batch : bool        (* does the store refuse an empty insert *)
}.

Definition with_rows (rs : list StoredRow) (x : Outside) : Outside :=
  {| collection_dim := collection_dim x; indexed := indexed x; rows := rs;
     counter := counter x; files := files x; llm_up := llm_up x;
     strict_dim := strict_dim x; rejects_empty_batch := rejects_empty_batch x |}.

Definition with_files (fs : list (string * string)) (x : Outside) : Outside :=
  {| collection_dim := collection_dim x; indexed := indexed x; rows := rows x;
     counter := counter x; files := fs; llm_up := llm_up x;
     strict_dim := strict_dim x; rejects_empty_batch := rejects_empty_batch x |}.

(** *** A serializer and a reader for the JSON the handlers write *)

Fixpoint dumps (j : Json) : string :=
  match j with
  | JNull => "null"
  | JBool b => if b then "true" else "false"
  | JInt z => pretty z
  | JStr s => dq +:+ s +:+ dq
  | JList l => "[" +:+ join ", " (map dumps l) +:+ "]"
  | JDict d =>
      "{" +:+ join ", " (map (fun kv => dq +:+ fst kv +:+ dq +:+ ": " +:+ dumps (snd kv)) d)
      +:+ "}"
  end.

(** The text up to the next double quote, and what follows the quote. *)
Fixpoint until_quote (s : string) : option (string * string) :=
  match s with
  | EmptyString => None
  | String c s' =>
      if Ascii.eqb c (ascii_of_nat 34) then Some ("", s')
      else match until_quote s' with
           | Some (w, r) => Some (String c w, r)
           | None => None
           end
  end.

Definition digit_of (c : ascii) : option nat :=
  let n := nat_of_ascii c in
  if (48 <=? n)%nat && (n <=? 57)%nat then Some (n - 48) else None.

Fixpoint digits (acc : nat) (s : string) : nat * string :=
  match s with
  | EmptyString => (acc, s)
  | String c s' =>
      match digit_of c with
      | Some d => digits (10 * acc + d) s'
      | None => (acc, s)
      end
  end.

Definition strip (p s : string) : option string :=
  if String.prefix p s
  then Some (String.substring (String.length p) (String.length s - String.length p) s)
  else None.

(** One scalar: a quoted string without escapes or a natural number. *)
Definition scalar (s : string) : option (Json * string) :=
  match s with
  | EmptyString => None
  | String c s' =>
      if Ascii.eqb c (ascii_of_nat 34) then
        match until_quote s' with
        | Some (w, r) => Some (JStr w, r)
        | None => None
        end
      else
        match digit_of c with
        | Some _ => let '(n, r) := digits 0 s in Some (JInt (Z.of_nat n), r)
        | None => None
        end
  end.

(** The members of a flat object, after the opening brace. *)
Fixpoint members (fuel : nat) (s : string) (acc : list (string * Json))
    : option (list (string * Json)) :=
  match fuel with
  | O => None
  | S fuel' =>
      match strip dq s with
      | None => None
      | Some s1 =>
          match until_quote s1 with
          | None => None
          | Some (k, s2) =>
              match strip ": " s2 with
              | None => None
              | Some s3 =>
                  match scalar s3 with
                  | None => None
                  | Some (v, s4) =>
                      if String.eqb s4 "}" then Some (acc ++ [(k, v)])%list
                      else match strip ", " s4 with
                           | Some s5 => members fuel' s5 (acc ++ [(k, v)])%list
                           | None => None
                           end
                  end
              end
          end
      end
  end.

Definition loads (s : string) : result Json :=
  let bad := Raise (PyException "JSONDecodeError" "Expecting value") in
  if String.eqb s "{}" then Ok (JDict [])
  else match strip "{" s with
       | Some s1 =>
           match members (String.length s) s1 [] with
           | Some d => Ok (JDict d)
           | None => bad
           end
       | None =>
           match scalar s with
           | Some (v, EmptyString) => Ok v
           | _ => bad
           end
       end.

(** *** A splitter by sliding window *)

(** [s[n:]], in characters. *)
Fixpoint str_drop (n : nat) (s : string) : string :=
  match s with
  | EmptyString => EmptyString
  | String c s' =>
      if is_continuation c then str_drop n s'
      else match n with
           | O => s
           | S n' => str_drop n' s'
           end
  end.

Fixpoint windows (fuel size step : nat) (s : string) : list string :=
  match fuel with
  | O => []
  | S fuel' =>
      if (py_len s <=? size)%nat then [s]
      else str_take size s :: windows fuel' size step (str_drop step s)
  end.

Definition split (size overlap : nat) (text : string) : result (list string) :=
  if String.eqb text "" then Ok []
  else Ok (windows (String.length text) size (size - overlap) text).

(** *** Sets: a table of eight slots, a text in the slot of its size *)

Definition hash_slot (history : list Hashable) (h : Hashable) : nat :=
  match h with
  | HStr s => Nat.modulo (String.length s) 8
  | HInt z => Nat.modulo (Z.to_nat (Z.abs z)) 8
  | HBool b => if b then 1 else 0
  | HNone => 0
  end.

(** *** Embedding models: a dimension per model name *)

Definition TINY_MODEL : string := "tiny-2d".
Definition MPNET_MODEL : string := "sentence-transformers/all-mpnet-base-v2".

Definition dim_of (name : string) : nat :=
  if String.eqb name DEFAULT_EMBEDDING_MODEL then 384
  else if String.eqb name TINY_MODEL then 2
  else 768.

Definition encode (m : Model) (texts : list string) : list (list nat) :=
  map (fun _ => replicate (dim_of (model_name m)) 0) texts.

(** *** The vector store *)

Definition wrong_dim (x : Outside) (vectors : list (list nat)) : bool :=
  strict_dim x &&
  existsb (fun v => negb (bool_decide (Some (length v) = collection_dim x))) vectors.

Fixpoint stored_rows (ids dids contents : list string) (embs : list (list nat))
    (metas : list string) : list StoredRow :=
  match ids, dids, contents, embs, metas with
  | i :: ids', d :: dids', c :: contents', e :: embs', m :: metas' =>
      {| r_id := i; r_document_id := d; r_content := c;
         r_embedding := e; r_metadata := m |}
      :: stored_rows ids' dids' contents' embs' metas'
  | _, _, _, _, _ => []
  end.

Definition row_of (r : StoredRow) : Row :=
  [ ("content", r_content r); ("metadata", r_metadata r);
    ("document_id", r_document_id r) ].

Definition do_insert (entities : Entities nat) (x : Outside) : result unit * Outside :=
  if rejects_empty_batch x && bool_decide (en_ids entities = []) then
    (Raise (PyException "ParamError" "empty batch"), x)
  else if wrong_dim x (en_embeddings entities) then
    (Raise (PyException "MilvusException" "vector dimension mismatch"), x)
  else
    (Ok tt,
     with_rows (rows x ++ stored_rows (en_ids entities) (en_document_ids entities)
                            (en_contents entities) (en_embeddings entities)
                            (en_metadata entities)) x).

Definition do_search (req : SearchRequest nat) (x : Outside)
    : result (list (list Row)) * Outside :=
  if wrong_dim x (sr_data req) then
    (Raise (PyException "MilvusException" "vector dimension mismatch"), x)
  else
    (Ok (map (fun _ => map row_of (take (Z.to_nat (sr_limit req)) (rows x)))
             (sr_data req)), x).

Definition do_query (limit : Z) (x : Outside) : result (list Row) * Outside :=
  (Ok (map row_of
         (take (Z.to_nat limit)
            (filter (fun r => r_document_id r ≠ "") (rows x)))), x).

(** The identifier between the quotes of [document_id == "..."]. *)
Definition deleted_id (expr : string) : option string :=
  match strip ("document_id == " +:+ dq) expr with
  | Some rest => Some (String.substring 0 (String.length rest - 1) rest)
  | None => None
  end.

Definition do_delete (expr : string) (x : Outside) : result unit * Outside :=
  match deleted_id expr with
  | Some id => (Ok tt, with_rows (filter (fun r => r_document_id r ≠ id) (rows x)) x)
  | None => (Raise (PyException "MilvusException" "cannot parse expression"), x)
  end.

Definition do_create (schema : CollectionSchema) (x : Outside) : result unit * Outside :=
  (Ok tt,
   {| collection_dim := Some (default 0 (schema_dim schema)); indexed := false;
      rows := []; counter := counter x; files := files x; llm_up := llm_up x;
      strict_dim := strict_dim x; rejects_empty_batch := rejects_empty_batch x |}).

Definition do_create_index (x : Outside) : result unit * Outside :=
  (Ok tt,
   {| collection_dim := collection_dim x; indexed := true;
      rows := rows x; counter := counter x; files := files x; llm_up := llm_up x;
      strict_dim := strict_dim x; rejects_empty_batch := rejects_empty_batch x |}).

Definition do_uuid4 (x : Outside) : string * Outside :=
  ("doc-" +:+ pretty (counter x),
   {| collection_dim := collection_dim x; indexed := indexed x;
      rows := rows x; counter := S (counter x); files := files x; llm_up := llm_up x;
      strict_dim := strict_dim x; rejects_empty_batch := rejects_empty_batch x |}).

Definition do_write_temp (suffix content : string) (x : Outside)
    : result string * Outside :=
  let path := "/tmp/upload" +:+ suffix in
  (Ok path, with_files ((path, content) :: files x) x).

Definition do_read (path : string) (x : Outside) : result string * Outside :=
  match dict_get path (files x) with
  | Some content => (Ok content, x)
  | None => (Raise (PyException "FileNotFoundError" path), x)
  end.

Definition do_read_parts (path : string) (x : Outside) : result (list string) * Outside :=
  match dict_get path (files x) with
  | Some content => (Ok [content], x)
  | None => (Raise (PyException "FileNotFoundError" path), x)
  end.

Definition do_unlink (path : string) (x : Outside) : result unit * Outside :=
  (Ok tt, with_files (filter (fun kv => fst kv ≠ path) (files x)) x).

Definition do_chat (req : ChatRequest) (x : Outside) : result ChatCompletion * Outside :=
  if llm_up x then (Ok {| choices := [Some "Respuesta generada"] |}, x)
  else (Raise (PyException "APIConnectionError" "Connection error."), x).

Definition world : World :=
  {| float := nat;
     ext := Outside;
     uuid4_str := do_uuid4;
     now_isoformat := fun x : Outside => ("2024-01-01T00:00:00", x);
     json_dumps := dumps;
     json_loads := loads;
     http_exception_str := fun code detail => pretty code +:+ ": " +:+ detail;
     set_slot := hash_slot;
     write_temp_file := do_write_temp;
     os_unlink := do_unlink;
     pdf_page_texts := do_read_parts;
     read_text_utf8 := do_read;
     docx_paragraph_texts := do_read_parts;
     split_text := split;
     load_model := fun _ (x : Outside) => (Ok tt, x);
     model_encode := fun m texts (x : Outside) => (Ok (encode m texts), x);
     milvus_connect := fun _ _ _ (x : Outside) => (Ok tt, x);
     has_collection :=
       fun _ (x : Outside) => (Ok (bool_decide (is_Some (collection_dim x))), x);
     create_collection := fun _ => do_create;
     open_collection := fun _ (x : Outside) => (Ok tt, x);
     has_index := fun _ (x : Outside) => (Ok (indexed x), x);
     create_index := fun _ _ _ => do_create_index;
     load_collection := fun _ (x : Outside) => (Ok tt, x);
     insert := fun _ => do_insert;
     flush := fun _ (x : Outside) => (Ok tt, x);
     search := fun _ => do_search;
     query := fun _ _ _ => do_query;
     delete := fun _ => do_delete;
     chat_completions_create := do_chat |}.

(** A freshly started process in front of a given outside. *)
Definition boot (x : Outside) : State world :=
  {| embedding_models := ∅; next_id := 0; outside := x; trace := [] |}.

(** No collection yet, the LLM reachable, a store that checks nothing. *)
Definition fresh : Outside :=
  {| collection_dim := None; indexed := false; rows := []; counter := 0;
     files := []; llm_up := true; strict_dim := false;
     rejects_empty_batch := false |}.

(** The row that ingestion writes for chunk [i] of document [did]. *)
Definition chunk_row (did name : string) (i : nat) (content : string) (dim : nat)
    : StoredRow :=
  {| r_id := did +:+ "_chunk_" +:+ pretty i;
     r_document_id := did;
     r_content := content;
     r_embedding := replicate dim 0;
     r_metadata := dumps (chunk_metadata_of name i "2024-01-01T00:00:00") |}.

(** A collection of dimension 384 holding the given rows. *)
Definition holding (rs : list StoredRow) : Outside :=
  {| collection_dim := Some 384; indexed := true; rows := rs; counter := 0;
     files := []; llm_up := true; strict_dim := false;
     rejects_empty_batch := false |}.

Definition llm_down (x : Outside) : Outside :=
  {| collection_dim := collection_dim x; indexed := indexed x; rows := rows x;
     counter := counter x; files := files x; llm_up := false;
     strict_dim := strict_dim x; rejects_empty_batch := rejects_empty_batch x |}.

Definition strict (x : Outside) : Outside :=
  {| collection_dim := collection_dim x; indexed := indexed x; rows := rows x;
     counter := counter x; files := files x; llm_up := llm_up x;
     strict_dim := true; rejects_empty_batch := rejects_empty_batch x |}.

End Mem.

(** * The vocabulary of the statements

    The predicates, the named parts of the handlers and the constants
    that the theorems below speak about. *)

Section Vocabulary.
Context (W : World).

(** ** How a computation moves the state

    [evolves P s s']: every cache entry of [s] is still in [s'], and the
    trace of [s'] is the trace of [s] followed by events that all satisfy
    [P].  [runs P m]: the computation [m] moves every state that way. *)

Definition kept_cache (s s' : State W) : Prop :=
  forall k v, embedding_models s !! k = Some v -> embedding_models s' !! k = Some v.

Definition evolves (P : Event W -> Prop) (s s' : State W) : Prop :=
  kept_cache s s' /\ exists t, trace s' = trace s ++ t /\ Forall P t.

Definition runs (P : Event W -> Prop) {A} (m : M W A) : Prop :=
  forall s, evolves P s (m s).2.

(** The shape of the [except] clause that ends every endpoint. *)
Definition as_500 (prefix : string) {A} : exn -> M W A :=
  fun e =>
    log ERROR (prefix +:+ str_exn W e) ;;;
    raise (HTTPException 500 (prefix +:+ str_exn W e)).

(** ** Classes of events *)

(** Events of [connect_milvus]: a created collection always gets the
    module's schema. *)
Definition connect_event (ev : Event W) : Prop :=
  match ev with
  | EvLog _ _ | EvConnect _ _ _ | EvHasCollection _ | EvOpenCollection _
  | EvHasIndex _ | EvCreateIndex _ _ _ | EvLoadCollection _ => True
  | EvCreateCollection name schema =>
      name = COLLECTION_NAME /\ schema = collection_schema
  | _ => False
  end.

Definition creates_default (ev : Event W) : Prop :=
  match ev with
  | EvCreateCollection name schema =>
      name = COLLECTION_NAME /\ schema = collection_schema
  | _ => True
  end.

(** Events that read rows back from the store. *)
Definition is_lookup (ev : Event W) : Prop :=
  match ev with
  | EvSearch _ _ | EvQuery _ _ _ _ => True
  | _ => False
  end.

(** The state after the two lines logged and loaded by a miss. *)
Definition after_load (name : string) (x : ext W) (s : State W)
    (cache : gmap string Model) (next : nat) : State W :=
  {| embedding_models := cache;
     next_id := next;
     outside := x;
     trace := trace s ++ [EvLog INFO ("Cargando modelo de embeddings: " +:+ name);
                          EvLoadModel name] |}.

(** Events of [delete_document]. *)
Definition delete_event (document_id : string) (ev : Event W) : Prop :=
  connect_event ev \/ exists c, ev = EvDelete c (delete_expr document_id).

(** *** The process as a transition system

    Between two requests the outside may change on its own (other
    clients of the store, the LLM going down); the cache is touched by
    the handlers only. *)
Definition set_outside (x : ext W) (s : State W) : State W :=
  {| embedding_models := embedding_models s; next_id := next_id s;
     outside := x; trace := trace s |}.

Inductive step : State W -> State W -> Prop :=
| step_get name s : step s (get_embedding_model W name s).2
| step_upload file model s : step s (upload_document W file model s).2
| step_ask request s : step s (ask_question W request s).2
| step_list s : step s (list_documents W s).2
| step_delete document_id s : step s (delete_document W document_id s).2
| step_outside x s : step s (set_outside x s).

(** ** Retrieval *)

(** Line 261. *)
Definition encode_question (request : AskRequest) (m : Model)
    : M W (list (list (float W))) :=
  call (EvEncode m [question request]) (model_encode W m [question request]).

(** Lines 268-274. *)
Definition run_search (request : AskRequest) (c : Collection)
    (data : list (list (float W))) : M W (list (list Row)) :=
  call (EvSearch c (search_request W request data))
       (search W c (search_request W request data)).

(** Lines 258-264 went through from state [s]: the model [m] was
    obtained, the question encoded as [data], the collection [c]
    ensured, and the process is in state [s3] just before line 268. *)
Definition reaches_search (request : AskRequest) (s : State W) (m : Model)
    (data : list (list (float W))) (c : Collection) (s3 : State W) : Prop :=
  exists s1 s2,
    get_embedding_model W (embedding_model request) s = (Ok m, s1) /\
    encode_question request m s1 = (Ok data, s2) /\
    connect_milvus W MILVUS_HOST MILVUS_PORT s2 = (Ok c, s3).

(** Lines 276-331, what follows the search. *)
Definition after_search (request : AskRequest) (results : list (list Row))
    : M W AskResponse :=
  match results with
  | [] | [] :: _ =>
      raise (HTTPException 404 "No se encontraron documentos relevantes")
  | hits :: _ =>
      collected <- lift (collect_hits W hits [] []) ;;
      let '(relevant_chunks, sources) := collected in
      context <- lift (py_join (nl +:+ nl) relevant_chunks) ;;
      let prompt := build_prompt context (question request) in
      answer <- call_llm W context prompt ;;
      ret {| answer := answer;
             sources := list_of_set (set_slot W sources) sources;
             context_chunks := length relevant_chunks;
             ar_question := question request |}
  end.

Definition ASK_ERROR : string := "Error procesando pregunta: ".

Definition NO_MATCH : string := "No se encontraron documentos relevantes".

(** The generation collaborator raised, or answered without any choice. *)
Definition generation_fails (prompt : string) (x : ext W) : Prop :=
  match chat_completions_create W (chat_request prompt) x with
  | (Raise _, _) => True
  | (Ok response, _) => choices response = []
  end.

(** The [document_name] that the metadata of a match carries, if any. *)
Definition document_name_of (hit : Row) : option Hashable :=
  match json_loads W (default "{}" (dict_get "metadata" hit)) with
  | Ok (JDict d) =>
      match dict_get "document_name" d with
      | Some v => as_hashable v
      | None => None
      end
  | _ => None
  end.

(** No member is equal, in the sense of Python, to a later one. *)
Fixpoint py_distinct (l : list Hashable) : Prop :=
  match l with
  | [] => True
  | a :: rest => (forall b, In b rest -> py_eqb a b = false) /\ py_distinct rest
  end.

(** ** Listing and deleting *)

Definition DELETE_ERROR : string := "Error eliminando documento: ".

Definition LIST_ERROR : string := "Error listando documentos: ".
Definition LIST_FIELDS : list string := ["document_id"; "metadata"].

Definition total_chunks (docs : list DocumentInfo) : nat :=
  sum_list (map di_chunks docs).

(** Number of rows that carry the document identifier [k]. *)
Fixpoint rows_with (k : string) (results : list Row) : nat :=
  match results with
  | [] => 0
  | row :: rest =>
      match dict_get "document_id" row with
      | Some k' => if String.eqb k' k then S (rows_with k rest) else rows_with k rest
      | None => rows_with k rest
      end
  end.

Definition chunks_of (k : string) (docs : list (string * DocumentInfo)) : nat :=
  match dict_get k docs with
  | Some d => di_chunks d
  | None => 0
  end.

(** Keys are the identifiers of their entries, and occur once. *)
Definition keyed (docs : list (string * DocumentInfo)) : Prop :=
  NoDup (map fst docs) /\ forall k d, In (k, d) docs -> di_id d = k.

(** [documents[doc_id]["chunks"] += 1] *)
Definition bump (d : DocumentInfo) : DocumentInfo :=
  {| di_id := di_id d; di_name := di_name d;
     di_upload_date := di_upload_date d; di_chunks := di_chunks d + 1 |}.

(** ** Ingestion *)

Definition UPLOAD_ERROR : string := "Error procesando documento: ".

Definition extension_of (file : UploadFile) : string :=
  lower (last_dot_segment (filename file)).

(** Lines 174-177. *)
Definition write_upload (file : UploadFile) : M W string :=
  call (EvWriteTemp ("." +:+ extension_of file) (file_content file))
       (write_temp_file W ("." +:+ extension_of file) (file_content file)).

(** Lines 180-181. *)
Definition extraction_type (extension : string) : string :=
  if String.eqb extension "md" then "txt" else extension.


End Vocabulary.
Arguments kept_cache {W}.
Arguments evolves {W}.
Arguments runs {W} P {A} m.
Arguments as_500 {W} prefix {A}.

(** ** Concrete requests and stores for the reference world *)

Module Scenario.
Import Mem.

Definition run_before_search (request : AskRequest) : M world Collection :=
  m <- get_embedding_model world (embedding_model request) ;;
  _ <- encode_question world request m ;;
  connect_milvus world MILVUS_HOST MILVUS_PORT.

Definition first_model (name : string) : Model :=
  {| model_id := 0; model_name := name |}.

(** The state in which a request on a freshly started process reaches
    line 268. *)
Definition at_search (request : AskRequest) (x : Outside) : State world :=
  (run_before_search request (boot x)).2.


Definition facts_file : UploadFile :=
  {| filename := "facts.txt"; file_content := "X es la respuesta." |}.




Definition mpnet_upload : result UploadResponse * State world :=
  upload_document world facts_file MPNET_MODEL (boot fresh).

Definition default_model : Model := first_model DEFAULT_EMBEDDING_MODEL.

(** The vector of the reference encoder for one text, dimension 384. *)
Definition default_vector : list (list nat) := [replicate 384 0].

Definition default_question : AskRequest :=
  {| question := "What is X?"; embedding_model := DEFAULT_EMBEDDING_MODEL; top_k := 2 |}.

(** The same question with a model of dimension 2. *)
Definition tiny_question : AskRequest :=
  {| question := "What is X?"; embedding_model := TINY_MODEL; top_k := 2 |}.

Definition ask_tiny (x : Outside) : result AskResponse * State world :=
  ask_question world tiny_question (boot x).

Definition one_row : list StoredRow :=
  [chunk_row "doc-0" "facts.txt" 0 "X es la respuesta." 384].

Definition ask_default (x : Outside) : result AskResponse * State world :=
  ask_question world default_question (boot x).

Definition tiny_search : SearchRequest nat :=
  search_request world tiny_question [[0; 0]].

Definition zero_question : AskRequest :=
  {| question := "What is X?"; embedding_model := DEFAULT_EMBEDDING_MODEL; top_k := 0 |}.

Definition zero_search : SearchRequest nat :=
  search_request world zero_question default_vector.

Definition ask_zero : result AskResponse * State world :=
  ask_question world zero_question (boot (holding one_row)).

Definition negative_question : AskRequest :=
  {| question := "What is X?"; embedding_model := DEFAULT_EMBEDDING_MODEL; top_k := -3 |}.

Definition negative_search : SearchRequest nat :=
  search_request world negative_question default_vector.

Definition ask_negative : result AskResponse * State world :=
  ask_question world negative_question (boot (holding one_row)).

Definition ask_without_llm : result AskResponse * State world :=
  ask_default (llm_down (holding one_row)).

(** Two chunks of 300 characters; those of the first are accented and
    take two bytes each. *)
Definition accented_chunk : string := String.concat "" (repeat "é" 300).

Definition plain_chunk : string := string_of_list_ascii (repeat "x"%char 300).

Definition accented_rows : list StoredRow :=
  [ chunk_row "doc-0" "acentos.txt" 0 accented_chunk 384;
    chunk_row "doc-0" "acentos.txt" 1 plain_chunk 384 ].

(** The context of 602 characters made of them. *)
Definition accented_context : string := accented_chunk +:+ nl +:+ nl +:+ plain_chunk.

(** Its first 500 characters. *)
Definition accented_cut : string :=
  accented_chunk +:+ nl +:+ nl +:+ string_of_list_ascii (repeat "x"%char 198).

Definition ask_accented : result AskResponse * State world :=
  ask_default (llm_down (holding accented_rows)).

Definition wide_question : AskRequest :=
  {| question := "What is X?"; embedding_model := DEFAULT_EMBEDDING_MODEL; top_k := 5 |}.

Definition three_rows : list StoredRow :=
  [ chunk_row "doc-0" "a.txt" 0 "uno" 384;
    chunk_row "doc-1" "b.txt" 0 "dos" 384;
    chunk_row "doc-0" "a.txt" 1 "tres" 384 ].

Definition ask_wide : result AskResponse * State world :=
  ask_question world wide_question (boot (holding three_rows)).

(** The response of the reference world, in whose table the two names
    share a slot. *)
Definition wide_response : AskResponse :=
  {| answer := Some "Respuesta generada";
     sources := [HStr "a.txt"; HStr "b.txt"];
     context_chunks := 3;
     ar_question := "What is X?" |}.

Definition loaded : State world := (get_embedding_model world DEFAULT_EMBEDDING_MODEL (boot fresh)).2.

Definition uploaded : State world := (upload_document world facts_file DEFAULT_EMBEDDING_MODEL loaded).2.

Definition asked : State world := (ask_question world default_question uploaded).2.

(** 999 chunks of a first document, two of a second, one of a third. *)
Definition many_rows : list StoredRow :=
  map (fun i => chunk_row "doc-A" "a.txt" i "texto" 384) (seq 0 999)
  ++ [ chunk_row "doc-B" "b.txt" 0 "uno" 384;
       chunk_row "doc-B" "b.txt" 1 "dos" 384;
       chunk_row "doc-C" "c.txt" 0 "tres" 384 ].

Definition stored_chunks (document_id : string) (x : Outside) : nat :=
  length (filter (fun r => r_document_id r = document_id) (rows x)).

Definition listing : result (list DocumentInfo) * State world :=
  list_documents world (boot (holding many_rows)).

Definition returned_rows : list Row := map row_of (take 1000 many_rows).

Definition listed : list DocumentInfo :=
  [ {| di_id := "doc-A"; di_name := JStr "a.txt";
       di_upload_date := JStr "2024-01-01T00:00:00"; di_chunks := 999 |};
    {| di_id := "doc-B"; di_name := JStr "b.txt";
       di_upload_date := JStr "2024-01-01T00:00:00"; di_chunks := 1 |} ].

Definition delete_unknown : result DeleteResponse * State world :=
  delete_document world "never-ingested" (boot (holding one_row)).

End Scenario.

(** * The other endpoints (lines 149-158 and 394-412) *)

(** [s.split(sep)] for a separator of one character: never empty. *)
Fixpoint split_on (sep : ascii) (s : string) : list string :=
  match s with
  | EmptyString => [EmptyString]
  | String ch rest =>
      if Ascii.eqb ch sep then EmptyString :: split_on sep rest
      else match split_on sep rest with
           | part :: parts => String ch part :: parts
           | [] => [String ch EmptyString]
           end
  end.

(** [s.count(ch)] *)
Fixpoint count_char (ch : ascii) (s : string) : nat :=
  match s with
  | EmptyString => 0
  | String ch' rest =>
      if Ascii.eqb ch' ch then S (count_char ch rest) else count_char ch rest
  end.

(** [a, b = parts], with the messages of CPython 3.11. *)
Definition unpack_pair (parts : list string) : result (string * string) :=
  match parts with
  | [a; b] => Ok (a, b)
  | [] | [_] =>
      Raise (PyException "ValueError"
               ("not enough values to unpack (expected 2, got "
                +:+ pretty (length parts) +:+ ")"))
  | _ => Raise (PyException "ValueError" "too many values to unpack (expected 2)")
  end.

Record MilvusTestRequest := {
  milvus_host : string
}.

Record TestResponse := {
  tr_status : string;
  tr_message : string
}.

(** What [health_check] returns: the dictionary of line 406 or the one
    of line 412. *)
Inductive HealthResponse : Type :=
| Healthy (milvus : string) (embedding_models_loaded : list string)
| Unhealthy (error : string).

(** The calls that [test_milvus_connection] makes on [connections]. *)
Inductive ConnectionCall : Type :=
| CallConnect (alias host port : string)
| CallDisconnect (alias : string).

Section OtherEndpoints.
Context (W : World).

(** Lines 394-412.  [list(embedding_models.keys())] is given in the order
    of the map, which is not the insertion order of the Python
    dictionary: only its members are meant. *)
Definition health_check : M W HealthResponse :=
  try_except
    (milvus_status <-
       try_except
         (connect_milvus W MILVUS_HOST MILVUS_PORT ;;; ret "connected")
         (fun _ => ret "disconnected") ;;
     cache <- get_cache W ;;
     ret (Healthy milvus_status (map fst (map_to_list cache))))
    (fun e => ret (Unhealthy (str_exn W e))).

(** [connections.disconnect], which the other handlers never call. *)
Variable milvus_disconnect : string -> ext W -> result unit * ext W.

Definition TEST_ERROR : string := "Error conectando a Milvus: ".

(** Lines 149-158, on the state of the collaborators alone: the endpoint
    reads and writes nothing of the process, and logs nothing.  The third
    component is the list of the calls made, in order. *)
Definition test_milvus_connection (request : MilvusTestRequest) (x : ext W)
    : result TestResponse * ext W * list ConnectionCall :=
  match unpack_pair (split_on ":"%char (milvus_host request)) with
  | Raise e => (Raise (HTTPException 500 (TEST_ERROR +:+ str_exn W e)), x, [])
  | Ok (host, port) =>
      match milvus_connect W "test" host port x with
      | (Raise e, x1) =>
          (Raise (HTTPException 500 (TEST_ERROR +:+ str_exn W e)), x1,
           [CallConnect "test" host port])
      | (Ok _, x1) =>
          match milvus_disconnect "test" x1 with
          | (Raise e, x2) =>
              (Raise (HTTPException 500 (TEST_ERROR +:+ str_exn W e)), x2,
               [CallConnect "test" host port; CallDisconnect "test"])
          | (Ok _, x2) =>
              (Ok {| tr_status := "success";
                     tr_message := "Conexión a Milvus exitosa" |}, x2,
               [CallConnect "test" host port; CallDisconnect "test"])
          end
      end
  end.

End OtherEndpoints.

(** * More vocabulary *)

(** The identifier of chunk [i] of a document (line 205). *)
Definition chunk_id_of (document_id : string) (i : nat) : string :=
  document_id +:+ "_chunk_" +:+ pretty i.

(** The first row that carries the document identifier [k]. *)
Fixpoint first_row_with (k : string) (results : list Row) : option Row :=
  match results with
  | [] => None
  | row :: rest =>
      match dict_get "document_id" row with
      | Some k' => if String.eqb k' k then Some row else first_row_with k rest
      | None => first_row_with k rest
      end
  end.

Section MoreVocabulary.
Context (W : World).

(** The batch of lines 218-224 for the columns filled by the loop. *)
Definition entities_of (document_id : string) (cols : ChunkColumns W)
    : Entities (float W) :=
  {| en_ids := chunk_ids W cols;
     en_document_ids := replicate (length (chunk_ids W cols)) document_id;
     en_contents := chunk_contents W cols;
     en_embeddings := chunk_embeddings W cols;
     en_metadata := chunk_metadata W cols |}.

Definition no_columns : ChunkColumns W :=
  {| chunk_ids := []; chunk_contents := [];
     chunk_embeddings := []; chunk_metadata := [] |}.

(** The cache is keyed by the name of its models, every cached object
    was built before the next one to come, and no object is cached under
    two names. *)
Definition cache_inv (s : State W) : Prop :=
  (forall k m, embedding_models s !! k = Some m ->
               model_name m = k /\ model_id m < next_id s) /\
  (forall k1 k2 m1 m2,
     embedding_models s !! k1 = Some m1 ->
     embedding_models s !! k2 = Some m2 ->
     model_id m1 = model_id m2 -> k1 = k2).

(** [m] keeps the property [I] of the state. *)
Definition preserves (I : State W -> Prop) {A} (m : M W A) : Prop :=
  forall s, I s -> I (m s).2.

(** [I] looks at the cache and at the counter of identities only. *)
Definition process_only (I : State W -> Prop) : Prop :=
  forall s x t,
    I s ->
    I {| embedding_models := embedding_models s; next_id := next_id s;
         outside := x; trace := t |}.

(** Events that write to the collection or read from it. *)
Definition data_event (ev : Event W) : Prop :=
  match ev with
  | EvInsert _ _ | EvFlush _ | EvSearch _ _ | EvQuery _ _ _ _ | EvDelete _ _ => True
  | _ => False
  end.

Definition is_create (ev : Event W) : Prop :=
  match ev with
  | EvCreateCollection _ _ => True
  | _ => False
  end.

Definition CONNECT_ERROR : string := "Error conectando a Milvus: ".

Definition EXTRACT_ERROR : string := "Error extrayendo texto: ".

(** The name and the date that line 357-362 read in a metadata text. *)
Definition listed_as (metadata : string) (d : DocumentInfo) : Prop :=
  exists md,
    json_loads W metadata = Ok md /\
    py_get md "document_name" (JStr "Documento desconocido") = Ok (di_name d) /\
    py_get md "upload_date" (JStr "") = Ok (di_upload_date d).

End MoreVocabulary.
Arguments preserves {W} I {A} m.
Arguments process_only {W} I.

(** The types that [extract_text_from_file] reads (lines 123-140). *)
Definition SUPPORTED_TYPES : list string := ["pdf"; "txt"; "docx"].

Section MatchVocabulary.
Context (W : World).

(** A match that cannot be used: its metadata is not JSON, or it has no
    content. *)
Definition unusable (hit : Row) : Prop :=
  (exists e, json_loads W (default "{}" (dict_get "metadata" hit)) = Raise e) \/
  dict_get "content" hit = None.

End MatchVocabulary.

(** ** The reference world with faults

    The world of [Mem] in which some collaborators behave otherwise:
    the store refuses the connection, the model cannot be loaded, the PDF
    cannot be read, the rows of a query come without [document_id], or
    the LLM answers with two choices. *)

Module Faulty.
Import Mem.

Record Faults := {
  connect_refused : bool;
  loader_missing : bool;
  pdf_unreadable : bool;
  rows_without_id : bool;
  several_choices : bool
}.

Definition world (f : Faults) : World :=
  {| float := nat;
     ext := Outside;
     uuid4_str := do_uuid4;
     now_isoformat := fun x : Outside => ("2024-01-01T00:00:00", x);
     json_dumps := dumps;
     json_loads := loads;
     http_exception_str := fun code detail => pretty code +:+ ": " +:+ detail;
     set_slot := hash_slot;
     write_temp_file := do_write_temp;
     os_unlink := do_unlink;
     pdf_page_texts :=
       fun path (x : Outside) =>
         if pdf_unreadable f
         then (Raise (PyException "PdfReadError" "EOF marker not found"), x)
         else do_read_parts path x;
     read_text_utf8 := do_read;
     docx_paragraph_texts := do_read_parts;
     split_text := split;
     load_model :=
       fun name (x : Outside) =>
         if loader_missing f
         then (Raise (PyException "OSError"
                        (name +:+ " is not a valid model identifier")), x)
         else (Ok tt, x);
     model_encode := fun m texts (x : Outside) => (Ok (encode m texts), x);
     milvus_connect :=
       fun _ _ _ (x : Outside) =>
         if connect_refused f
         then (Raise (PyException "MilvusException" "Fail connecting to server"), x)
         else (Ok tt, x);
     has_collection :=
       fun _ (x : Outside) => (Ok (bool_decide (is_Some (collection_dim x))), x);
     create_collection := fun _ => do_create;
     open_collection := fun _ (x : Outside) => (Ok tt, x);
     has_index := fun _ (x : Outside) => (Ok (indexed x), x);
     create_index := fun _ _ _ => do_create_index;
     load_collection := fun _ (x : Outside) => (Ok tt, x);
     insert := fun _ => do_insert;
     flush := fun _ (x : Outside) => (Ok tt, x);
     search := fun _ => do_search;
     query :=
       fun _ _ _ limit (x : Outside) =>
         if rows_without_id f
         then (Ok [[("metadata", "{}")]], x)
         else do_query limit x;
     delete := fun _ => do_delete;
     chat_completions_create :=
       fun request (x : Outside) =>
         if several_choices f
         then (Ok {| choices := [Some "Respuesta generada"; Some "Otra respuesta"] |}, x)
         else do_chat request x |}.

Definition store_down : Faults :=
  {| connect_refused := true; loader_missing := false;
     pdf_unreadable := false; rows_without_id := false;
     several_choices := false |}.

Definition no_model : Faults :=
  {| connect_refused := false; loader_missing := true;
     pdf_unreadable := false; rows_without_id := false;
     several_choices := false |}.

Definition bad_pdf : Faults :=
  {| connect_refused := false; loader_missing := false;
     pdf_unreadable := true; rows_without_id := false;
     several_choices := false |}.

Definition odd_rows : Faults :=
  {| connect_refused := false; loader_missing := false;
     pdf_unreadable := false; rows_without_id := true;
     several_choices := false |}.

Definition verbose : Faults :=
  {| connect_refused := false; loader_missing := false;
     pdf_unreadable := false; rows_without_id := false;
     several_choices := true |}.

Definition boot (f : Faults) (x : Outside) : State (world f) :=
  {| embedding_models := ∅; next_id := 0; outside := x; trace := [] |}.

End Faulty.

Module MoreScenario.
Import Mem Scenario.

Definition disconnect_ok (alias : string) (x : Outside) : result unit * Outside :=
  (Ok tt, x).

Definition test_address (address : string)
    : result TestResponse * Outside * list ConnectionCall :=
  test_milvus_connection world disconnect_ok {| milvus_host := address |} fresh.

Definition connect_error : exn :=
  HTTPException 500 "Error conectando a Milvus: Fail connecting to server".

Definition after_refusal : State (Faulty.world Faulty.store_down) :=
  (connect_milvus (Faulty.world Faulty.store_down) MILVUS_HOST MILVUS_PORT
     (Faulty.boot Faulty.store_down fresh)).2.

(** Two models obtained one after the other. *)
Definition one_model : State world :=
  (get_embedding_model world DEFAULT_EMBEDDING_MODEL (boot fresh)).2.

Definition two_models : State world :=
  (get_embedding_model world TINY_MODEL one_model).2.

Definition loader_error : exn :=
  PyException "OSError"
    (DEFAULT_EMBEDDING_MODEL +:+ " is not a valid model identifier").

Definition program_file : UploadFile :=
  {| filename := "setup.EXE"; file_content := "MZ" |}.

Definition report_file : UploadFile :=
  {| filename := "Informe.PDF"; file_content := "%PDF-1.4" |}.

Definition pdf_error : exn :=
  HTTPException 400 "Error extrayendo texto: EOF marker not found".

Definition report_written : State (Faulty.world Faulty.bad_pdf) :=
  (write_upload (Faulty.world Faulty.bad_pdf) report_file
     (Faulty.boot Faulty.bad_pdf fresh)).2.

Definition report_extracted : State (Faulty.world Faulty.bad_pdf) :=
  (extract_text_from_file (Faulty.world Faulty.bad_pdf) "/tmp/upload.pdf" "pdf"
     report_written).2.

Definition facts_written : State world :=
  (write_upload world facts_file (boot fresh)).2.

Definition facts_upload : result UploadResponse * State world :=
  upload_document world facts_file DEFAULT_EMBEDDING_MODEL (boot fresh).

(** A text of 2500 characters, which the reference splitter cuts in
    three chunks. *)
Definition long_file : UploadFile :=
  {| filename := "largo.txt";
     file_content := string_of_list_ascii (repeat "x"%char 2500) |}.

Definition long_upload : result UploadResponse * State world :=
  upload_document world long_file DEFAULT_EMBEDDING_MODEL (boot fresh).

Definition long_response : UploadResponse :=
  {| ur_status := "success";
     ur_document_id := "doc-0";
     ur_filename := "largo.txt";
     chunks_count := 3;
     ur_message := "Documento procesado e indexado con 3 chunks" |}.

(** A good match followed by one whose metadata is not JSON. *)
Definition mixed_rows : list StoredRow :=
  [ chunk_row "doc-0" "a.txt" 0 "uno" 384;
    {| r_id := "doc-1_chunk_0"; r_document_id := "doc-1"; r_content := "dos";
       r_embedding := replicate 384 0; r_metadata := "no json" |} ].

Definition bad_row : Row :=
  [("content", "dos"); ("metadata", "no json"); ("document_id", "doc-1")].

(** Three matches from two documents whose names fall in different
    slots of the table, put to an LLM that answers with two choices. *)
Definition varied_rows : list StoredRow :=
  [ chunk_row "doc-0" "a.txt" 0 "uno" 384;
    chunk_row "doc-1" "notas.txt" 0 "dos" 384;
    chunk_row "doc-0" "a.txt" 1 "tres" 384 ].

Definition varied_at_search : State (Faulty.world Faulty.verbose) :=
  (connect_milvus (Faulty.world Faulty.verbose) MILVUS_HOST MILVUS_PORT
     (encode_question (Faulty.world Faulty.verbose) wide_question default_model
        (get_embedding_model (Faulty.world Faulty.verbose) DEFAULT_EMBEDDING_MODEL
           (Faulty.boot Faulty.verbose (holding varied_rows))).2).2).2.

Definition ask_varied : result AskResponse * State (Faulty.world Faulty.verbose) :=
  ask_question (Faulty.world Faulty.verbose) wide_question
    (Faulty.boot Faulty.verbose (holding varied_rows)).

Definition three_listed : list DocumentInfo :=
  [ {| di_id := "doc-0"; di_name := JStr "a.txt";
       di_upload_date := JStr "2024-01-01T00:00:00"; di_chunks := 2 |};
    {| di_id := "doc-1"; di_name := JStr "b.txt";
       di_upload_date := JStr "2024-01-01T00:00:00"; di_chunks := 1 |} ].

Definition connected (x : Outside) : State world :=
  (connect_milvus world MILVUS_HOST MILVUS_PORT (boot x)).2.

End MoreScenario.

(** * Lemmas and theorems *)

(** ** Laws of [evolves] and of the monad *)

Section Laws.
Context {W : World}.

Lemma evolves_refl (P : Event W -> Prop) s : evolves P s s.
Proof.
  split; [intros k v H; exact H |].
  exists []. rewrite app_nil_r. split; [reflexivity | constructor].
Qed.

Lemma evolves_trans (P : Event W -> Prop) s1 s2 s3 :
  evolves P s1 s2 -> evolves P s2 s3 -> evolves P s1 s3.
Proof.
  intros [K1 (t1 & E1 & F1)] [K2 (t2 & E2 & F2)]. split.
  - intros k v H. apply K2, K1, H.
  - exists (t1 ++ t2). rewrite E2, E1, app_assoc. split; [reflexivity |].
    apply Forall_app; split; assumption.
Qed.

Lemma evolves_weaken (P Q : Event W -> Prop) s s' :
  (forall ev, P ev -> Q ev) -> evolves P s s' -> evolves Q s s'.
Proof.
  intros HPQ [K (t & E & F)]. split; [exact K |].
  exists t. split; [exact E |]. eapply Forall_impl; eauto.
Qed.

Lemma evolves_event (P : Event W -> Prop) s s' ev :
  evolves P s s' -> In ev (trace s') -> In ev (trace s) \/ P ev.
Proof.
  intros [_ (t & E & F)] Hin. rewrite E in Hin.
  apply in_app_or in Hin as [Hin | Hin]; [left; exact Hin | right].
  rewrite Forall_forall in F. apply F, list_elem_of_In, Hin.
Qed.

Lemma evolves_keeps_event (P : Event W -> Prop) s s' ev :
  evolves P s s' -> In ev (trace s) -> In ev (trace s').
Proof.
  intros [_ (t & E & _)] Hin. rewrite E. apply in_or_app. left. exact Hin.
Qed.

Lemma runs_weaken (P Q : Event W -> Prop) {A} (m : M W A) :
  (forall ev, P ev -> Q ev) -> runs P m -> runs Q m.
Proof. intros HPQ Hm s. eapply evolves_weaken; eauto. Qed.

Lemma runs_ret (P : Event W -> Prop) {A} (a : A) : runs P (ret a).
Proof. intros s. apply evolves_refl. Qed.

Lemma runs_raise (P : Event W -> Prop) {A} (e : exn) : runs P (@raise W A e).
Proof. intros s. apply evolves_refl. Qed.

Lemma runs_lift (P : Event W -> Prop) {A} (r : result A) : runs P (@lift W A r).
Proof. intros s. apply evolves_refl. Qed.

Lemma runs_bind (P : Event W -> Prop) {A B} (m : M W A) (k : A -> M W B) :
  runs P m -> (forall a, runs P (k a)) -> runs P (bind m k).
Proof.
  intros Hm Hk s. unfold bind. specialize (Hm s).
  destruct (m s) as [[a | e] s']; simpl in *; [| exact Hm].
  eapply evolves_trans; [exact Hm | apply Hk].
Qed.

Lemma runs_try (P : Event W -> Prop) {A} (body : M W A) (handler : exn -> M W A) :
  runs P body -> (forall e, runs P (handler e)) -> runs P (try_except body handler).
Proof.
  intros Hm Hk s. unfold try_except. specialize (Hm s).
  destruct (body s) as [[a | e] s']; simpl in *; [exact Hm |].
  eapply evolves_trans; [exact Hm | apply Hk].
Qed.

Lemma runs_call (P : Event W -> Prop) {A} ev (f : ext W -> result A * ext W) :
  P ev -> runs P (call ev f).
Proof.
  intros HP s. unfold call. destruct (f (outside s)) as [r x]; simpl.
  split; [intros k v H; exact H |].
  exists [ev]. split; [reflexivity | repeat constructor; exact HP].
Qed.

Lemma runs_call_total (P : Event W -> Prop) {A} ev (f : ext W -> A * ext W) :
  P ev -> runs P (call_total ev f).
Proof. intros HP. apply runs_call, HP. Qed.

Lemma runs_log (P : Event W -> Prop) level msg :
  P (EvLog level msg) -> runs P (log level msg).
Proof.
  intros HP s. unfold log; simpl.
  split; [intros k v H; exact H |].
  exists [EvLog level msg]. split; [reflexivity | repeat constructor; exact HP].
Qed.

(** What happened before a run is still in the trace after it. *)
Lemma runs_keeps_event (P : Event W -> Prop) {A} (m : M W A) s ev :
  runs P m -> In ev (trace s) -> In ev (trace (m s).2).
Proof. intros Hm. apply (evolves_keeps_event P), Hm. Qed.

(** A call leaves its event in the trace, whatever its outcome. *)
Lemma call_event {A} ev (f : ext W -> result A * ext W) s :
  In ev (trace (call ev f s).2).
Proof.
  unfold call. destruct (f (outside s)); simpl.
  apply in_or_app. right. left. reflexivity.
Qed.

Lemma try_as_500 prefix {A} (body : M W A) s e :
  (try_except body (as_500 prefix) s).1 = Raise e ->
  exists cause, (body s).1 = Raise cause /\
                e = HTTPException 500 (prefix +:+ str_exn W cause).
Proof.
  unfold try_except, as_500, bind, log, raise.
  destruct (body s) as [[a | cause] s']; simpl; intros H; [discriminate |].
  injection H as <-. exists cause. split; reflexivity.
Qed.

Lemma try_as_500_ok prefix {A} (body : M W A) s a :
  (body s).1 = Ok a -> try_except body (as_500 prefix) s = body s.
Proof.
  unfold try_except. destruct (body s) as [[a' | e] s']; simpl; intros H;
    [reflexivity | discriminate].
Qed.

Lemma try_as_500_raise prefix {A} (body : M W A) s cause :
  (body s).1 = Raise cause ->
  (try_except body (as_500 prefix) s).1
  = Raise (HTTPException 500 (prefix +:+ str_exn W cause)).
Proof.
  unfold try_except, as_500, bind, log, raise.
  destruct (body s) as [[a' | e] s']; simpl; intros H; [discriminate |].
  injection H as ->. reflexivity.
Qed.
End Laws.

Ltac runs_step :=
  first
    [ apply runs_ret | apply runs_raise | apply runs_lift
    | apply runs_log | apply runs_call_total | apply runs_call
    | apply runs_bind; [| intros ?] | apply runs_try; [| intros ?]
    | match goal with
      | |- runs _ (if ?b then _ else _) => destruct b
      | |- runs _ (match ?x with _ => _ end) => destruct x
      | |- runs _ (let '(_, _) := ?x in _) => destruct x
      end ].

Ltac runs_all := repeat runs_step; simpl; auto.

(** ** What each handler does to the state *)

Section Runs.
Context (W : World).

Lemma connect_event_creates_default ev : connect_event W ev -> creates_default W ev.
Proof. destruct ev; simpl; tauto. Qed.

Lemma connect_event_no_lookup ev : connect_event W ev -> ~ is_lookup W ev.
Proof. destruct ev; simpl; tauto. Qed.

Lemma get_embedding_model_hit name (s : State W) m :
  embedding_models s !! name = Some m ->
  get_embedding_model W name s = (Ok m, s).
Proof.
  intros H. unfold get_embedding_model, bind, get_cache, ret.
  rewrite H. simpl. rewrite H. reflexivity.
Qed.

Lemma get_embedding_model_miss name (s : State W) :
  embedding_models s !! name = None ->
  get_embedding_model W name s =
  match load_model W name (outside s) with
  | (Ok _, x) =>
      let m := {| model_id := next_id s; model_name := name |} in
      (Ok m, after_load W name x s (<[name := m]> (embedding_models s)) (S (next_id s)))
  | (Raise e, x) =>
      (Raise e, after_load W name x s (embedding_models s) (next_id s))
  end.
Proof.
  intros E. unfold get_embedding_model, bind, get_cache, ret, raise. rewrite E.
  unfold log, SentenceTransformer, bind, call, new_model, cache_store, after_load.
  simpl. destruct (load_model W name (outside s)) as [[[] | e] x]; simpl.
  - rewrite lookup_insert_eq, <- app_assoc. reflexivity.
  - rewrite <- app_assoc. reflexivity.
Qed.

Lemma get_embedding_model_ok name (s s1 : State W) m :
  get_embedding_model W name s = (Ok m, s1) ->
  embedding_models s1 !! name = Some m.
Proof.
  destruct (embedding_models s !! name) as [m0 |] eqn:E.
  - rewrite (get_embedding_model_hit _ _ _ E). intros H. injection H as <- <-. exact E.
  - rewrite (get_embedding_model_miss _ _ E).
    destruct (load_model W name (outside s)) as [[[] | e] x]; [| discriminate].
    intros H. injection H as <- <-. simpl. apply lookup_insert_eq.
Qed.

Lemma get_embedding_model_runs name :
  runs (fun ev => ev = EvLog INFO ("Cargando modelo de embeddings: " +:+ name)
                  \/ ev = EvLoadModel name)
       (get_embedding_model W name).
Proof.
  intros s. destruct (embedding_models s !! name) as [m0 |] eqn:E.
  - rewrite (get_embedding_model_hit _ _ _ E). apply evolves_refl.
  - rewrite (get_embedding_model_miss _ _ E).
    destruct (load_model W name (outside s)) as [[[] | e] x]; simpl.
    + split.
      * intros k v Hk. simpl. rewrite lookup_insert_ne; [exact Hk | congruence].
      * eexists. split; [reflexivity |].
        constructor; [left; reflexivity |].
        constructor; [right; reflexivity | constructor].
    + split; [intros k v Hk; exact Hk |].
      eexists. split; [reflexivity |].
      constructor; [left; reflexivity |].
      constructor; [right; reflexivity | constructor].
Qed.

Lemma connect_milvus_runs host port : runs (connect_event W) (connect_milvus W host port).
Proof. unfold connect_milvus. runs_all. Qed.

Lemma get_embedding_model_creates_default name :
  runs (creates_default W) (get_embedding_model W name).
Proof.
  eapply runs_weaken; [| apply get_embedding_model_runs].
  intros ev [-> | ->]; exact I.
Qed.

Lemma connect_milvus_creates_default host port :
  runs (creates_default W) (connect_milvus W host port).
Proof.
  eapply runs_weaken; [apply connect_event_creates_default | apply connect_milvus_runs].
Qed.

Lemma extract_text_from_file_runs path ty :
  runs (creates_default W) (extract_text_from_file W path ty).
Proof. unfold extract_text_from_file. runs_all. Qed.

Lemma prepare_chunks_runs document_id name pairs :
  forall i cols, runs (creates_default W) (prepare_chunks W document_id name i pairs cols).
Proof.
  induction pairs as [| [chunk embedding] rest IH]; intros i cols; simpl.
  - apply runs_ret.
  - apply runs_bind; [apply runs_call_total; exact I | intros upload_date; apply IH].
Qed.

Lemma process_upload_runs file model path extension :
  runs (creates_default W) (process_upload W file model path extension).
Proof.
  unfold process_upload.
  apply runs_bind; [apply extract_text_from_file_runs | intros text].
  apply runs_bind; [apply runs_lift | intros documents].
  apply runs_bind; [apply get_embedding_model_creates_default | intros model'].
  apply runs_bind; [apply runs_call; exact I | intros embeddings].
  apply runs_bind; [apply connect_milvus_creates_default | intros collection].
  apply runs_bind; [apply runs_call_total; exact I | intros document_id].
  apply runs_bind; [apply prepare_chunks_runs | intros cols].
  runs_all.
Qed.

Lemma upload_document_runs file model :
  runs (creates_default W) (upload_document W file model).
Proof.
  unfold upload_document.
  destruct (negb _); [apply runs_raise |].
  apply runs_bind; [runs_all | intros path].
  apply runs_try; [apply process_upload_runs | intros e; runs_all].
Qed.

Lemma call_llm_runs context prompt : runs (creates_default W) (call_llm W context prompt).
Proof. unfold call_llm. runs_all. Qed.

Lemma ask_question_runs request : runs (creates_default W) (ask_question W request).
Proof.
  unfold ask_question.
  apply runs_try; [| intros e; runs_all].
  apply runs_bind; [apply get_embedding_model_creates_default | intros model].
  apply runs_bind; [apply runs_call; exact I | intros embedding].
  apply runs_bind; [apply connect_milvus_creates_default | intros collection].
  apply runs_bind; [apply runs_call; exact I | intros results].
  destruct results as [| [| hit hits] more]; try apply runs_raise.
  apply runs_bind; [apply runs_lift | intros [chunks srcs]].
  apply runs_bind; [apply runs_lift | intros context].
  apply runs_bind; [apply call_llm_runs | intros ans]. apply runs_ret.
Qed.

Lemma list_documents_runs : runs (creates_default W) (list_documents W).
Proof.
  unfold list_documents.
  apply runs_try; [| intros e; runs_all].
  apply runs_bind; [apply connect_milvus_creates_default | intros collection].
  runs_all.
Qed.

Lemma delete_document_runs document_id :
  runs (delete_event W document_id) (delete_document W document_id).
Proof.
  unfold delete_document.
  apply runs_try; [| intros e; runs_all; left; exact I].
  apply runs_bind.
  - eapply runs_weaken; [| apply connect_milvus_runs]. intros ev H. left. exact H.
  - intros collection. runs_all; [right; eexists; reflexivity | left; exact I].
Qed.

Lemma delete_event_no_lookup document_id ev :
  delete_event W document_id ev -> ~ is_lookup W ev.
Proof.
  intros [H | [c ->]]; [apply connect_event_no_lookup, H | simpl; tauto].
Qed.

Lemma delete_event_creates_default document_id ev :
  delete_event W document_id ev -> creates_default W ev.
Proof.
  intros [H | [c ->]]; [apply connect_event_creates_default, H | exact I].
Qed.

Lemma step_evolves s s' : step W s s' -> evolves (creates_default W) s s'.
Proof.
  intros H. destruct H.
  - apply get_embedding_model_creates_default.
  - apply upload_document_runs.
  - apply ask_question_runs.
  - apply list_documents_runs.
  - eapply evolves_weaken;
      [apply delete_event_creates_default | apply delete_document_runs].
  - split; [intros k v Hk; exact Hk |].
    exists []. simpl. rewrite app_nil_r. split; [reflexivity | constructor].
Qed.

Lemma steps_evolve s s' : rtc (step W) s s' -> evolves (creates_default W) s s'.
Proof.
  induction 1 as [s | s1 s2 s3 H12 _ IH].
  - apply evolves_refl.
  - eapply evolves_trans; [apply step_evolves, H12 | exact IH].
Qed.
End Runs.

(** ** The embedding cache (lines 71-76) *)

Section EmbeddingCache.
Context (W : World).

(** C7.  Once [get_embedding_model name] has returned a model, every
    later call for the same name, after any sequence of requests and of
    changes of the outside, returns the very same object (same
    [model_id]) and leaves the state as it is: nothing is loaded,
    nothing is logged, and the entry is never removed from the cache. *)
Theorem get_embedding_model_same_instance (name : string) (s s1 s2 : State W) (m : Model) :
  get_embedding_model W name s = (Ok m, s1) ->
  rtc (step W) s1 s2 ->
  embedding_models s2 !! name = Some m /\
  get_embedding_model W name s2 = (Ok m, s2).
Proof.
  intros Hfirst Hlater.
  apply get_embedding_model_ok in Hfirst.
  apply steps_evolve in Hlater as [Hkept _].
  apply Hkept in Hfirst.
  split; [exact Hfirst | apply get_embedding_model_hit, Hfirst].
Qed.
End EmbeddingCache.

(** ** Retrieval and answer synthesis (lines 252-335) *)

Section Retrieval.
Context (W : World).

Lemma ask_question_from_search request s m data c s3 :
  reaches_search W request s m data c s3 ->
  ask_question W request s =
  try_except (results <- run_search W request c data ;; after_search W request results)
             (as_500 ASK_ERROR) s3.
Proof.
  intros (s1 & s2 & H1 & H2 & H3).
  unfold ask_question, try_except, bind.
  rewrite H1. unfold encode_question in H2. rewrite H2, H3. reflexivity.
Qed.

Lemma after_search_runs request results :
  runs (creates_default W) (after_search W request results).
Proof.
  unfold after_search.
  destruct results as [| [| hit hits] more]; try apply runs_raise.
  apply runs_bind; [apply runs_lift | intros [chunks srcs]].
  apply runs_bind; [apply runs_lift | intros context].
  apply runs_bind; [apply call_llm_runs | intros ans]. apply runs_ret.
Qed.

Lemma reaches_search_encoded request s m data c s3 :
  reaches_search W request s m data c s3 ->
  In (EvEncode m [question request]) (trace s3).
Proof.
  intros (s1 & s2 & H1 & H2 & H3).
  pose proof (connect_milvus_runs W MILVUS_HOST MILVUS_PORT s2) as Hc.
  rewrite H3 in Hc. simpl in Hc.
  eapply evolves_keeps_event; [exact Hc |].
  pose proof (call_event (EvEncode m [question request])
                (model_encode W m [question request]) s1) as He.
  unfold encode_question in H2. rewrite H2 in He. exact He.
Qed.

(** Once line 264 is passed, the store is searched with the encoded
    question as it is and with [limit = top_k]. *)
Lemma ask_question_searches request s m data c s3 :
  reaches_search W request s m data c s3 ->
  In (EvEncode m [question request]) (trace (ask_question W request s).2) /\
  In (EvSearch c (search_request W request data)) (trace (ask_question W request s).2).
Proof.
  intros Hreach. rewrite (ask_question_from_search _ _ _ _ _ _ Hreach).
  assert (Hruns : runs (creates_default W)
            (try_except (results <- run_search W request c data ;;
                         after_search W request results) (as_500 ASK_ERROR))).
  { apply runs_try; [| intros e; unfold as_500; runs_all].
    apply runs_bind; [apply runs_call; exact I | intros r; apply after_search_runs]. }
  split.
  - eapply evolves_keeps_event; [apply Hruns |].
    eapply reaches_search_encoded, Hreach.
  - unfold try_except, bind.
    pose proof (call_event (EvSearch c (search_request W request data))
                  (search W c (search_request W request data)) s3) as Hev.
    unfold run_search.
    destruct (call _ _ s3) as [[results | e] s4]; simpl in Hev.
    + pose proof (after_search_runs request results s4) as Ha.
      destruct (after_search W request results s4) as [[resp | e] s5]; simpl in *.
      * eapply evolves_keeps_event; eauto.
      * unfold as_500, bind, log, raise; simpl.
        apply in_or_app. left. eapply evolves_keeps_event; eauto.
    + unfold as_500, bind, log, raise; simpl. apply in_or_app. left. exact Hev.
Qed.

(** Whatever goes wrong in [ask_question] reaches the caller as HTTP 500. *)
Lemma ask_question_raises_500 request s e :
  (ask_question W request s).1 = Raise e ->
  exists cause, e = HTTPException 500 (ASK_ERROR +:+ str_exn W cause).
Proof.
  intros H. apply (try_as_500 ASK_ERROR) in H as (cause & _ & ->).
  exists cause. reflexivity.
Qed.

(** [s[:n]] has [n] characters, or all of them when [s] has fewer. *)
Lemma str_take_length n context :
  py_len (str_take n context) = Nat.min n (py_len context).
Proof.
  revert n. induction context as [| ch rest IH]; intros n; simpl.
  - rewrite Nat.min_0_r. reflexivity.
  - destruct (is_continuation ch) eqn:E; simpl.
    + rewrite E. apply IH.
    + destruct n as [| n]; simpl; [reflexivity |]. rewrite E, IH. reflexivity.
Qed.

Lemma str_take_prefix n context :
  String.prefix (str_take n context) context = true.
Proof.
  revert n. induction context as [| ch rest IH]; intros n; simpl; [reflexivity |].
  destruct (is_continuation ch); simpl.
  - rewrite IH. destruct (ascii_dec ch ch); [reflexivity | contradiction].
  - destruct n as [| n]; simpl; [reflexivity |].
    rewrite IH. destruct (ascii_dec ch ch); [reflexivity | contradiction].
Qed.

(** The cut falls between two characters, never inside one. *)
Lemma str_take_cut n context :
  exists rest, context = str_take n context +:+ rest /\ at_boundary rest.
Proof.
  revert n. induction context as [| ch tail IH]; intros n.
  - exists "". split; [reflexivity | exact I].
  - simpl. destruct (is_continuation ch) eqn:E.
    + destruct (IH n) as (rest & Hcut & Hrest). exists rest.
      split; [| exact Hrest].
      change (String ch tail = String ch (str_take n tail +:+ rest)).
      rewrite <- Hcut. reflexivity.
    + destruct n as [| n].
      * exists (String ch tail). split; [reflexivity | exact E].
      * destruct (IH n) as (rest & Hcut & Hrest). exists rest.
        split; [| exact Hrest].
        change (String ch tail = String ch (str_take n tail +:+ rest)).
        rewrite <- Hcut. reflexivity.
Qed.

(** A text of at most [n] characters is not cut. *)
Lemma str_take_all n context :
  py_len context <= n -> str_take n context = context.
Proof.
  revert n. induction context as [| ch tail IH]; intros n; simpl; [reflexivity |].
  destruct (is_continuation ch).
  - intros H. rewrite (IH n H). reflexivity.
  - destruct n as [| n]; [lia |]. intros H. rewrite (IH n); [reflexivity | lia].
Qed.

Lemma ask_question_search_failed request s m data c s3 cause x :
  reaches_search W request s m data c s3 ->
  search W c (search_request W request data) (outside s3) = (Raise cause, x) ->
  (ask_question W request s).1
  = Raise (HTTPException 500 (ASK_ERROR +:+ str_exn W cause)).
Proof.
  intros Hreach Hsearch. rewrite (ask_question_from_search _ _ _ _ _ _ Hreach).
  apply try_as_500_raise. unfold bind, run_search, call. rewrite Hsearch. reflexivity.
Qed.

(** C2, as the code has it.  [ask_question] never compares dimensions:
    whatever the dimension of the collection, and also when a vector of
    the encoded question has another length, the store is searched with
    the encoded question unchanged (not cut, not padded).  An exception
    of the store reaches the caller as HTTP 500 with the store's own
    message; the handler raises no dimension error of its own. *)
Theorem ask_question_searches_whatever_the_dimension
    request s m data c s3 (collection_dimension : nat) :
  reaches_search W request s m data c s3 ->
  Exists (fun v => length v <> collection_dimension) data ->
  In (EvSearch c (search_request W request data)) (trace (ask_question W request s).2) /\
  sr_data (search_request W request data) = data /\
  (forall cause x,
     search W c (search_request W request data) (outside s3) = (Raise cause, x) ->
     (ask_question W request s).1
     = Raise (HTTPException 500 (ASK_ERROR +:+ str_exn W cause))).
Proof.
  intros Hreach _. split; [apply (ask_question_searches _ _ _ _ _ _ Hreach) |].
  split; [reflexivity |].
  intros cause x Hraised. eapply ask_question_search_failed; eauto.
Qed.

(** C4, as the code has it.  [top_k] is not validated: with
    [top_k <= 0] the request is not turned away before the store is
    asked.  The question is encoded, and the store is searched with
    [limit = top_k]. *)
Theorem ask_question_nonpositive_top_k request s m data c s3 :
  (top_k request <= 0)%Z ->
  reaches_search W request s m data c s3 ->
  In (EvEncode m [question request]) (trace (ask_question W request s).2) /\
  In (EvSearch c (search_request W request data)) (trace (ask_question W request s).2) /\
  sr_limit (search_request W request data) = top_k request.
Proof.
  intros _ Hreach.
  destruct (ask_question_searches _ _ _ _ _ _ Hreach) as [Henc Hsearch].
  split; [exact Henc |]. split; [exact Hsearch | reflexivity].
Qed.

(** C6, what the code does.  When the search returns no match, line 277
    raises [HTTPException(404)] inside the [try] of line 256, the
    [except Exception] of line 333 catches it, and the caller gets HTTP
    500 whose detail is the text of the 404. *)
Theorem ask_question_no_match_is_500 request s m data c s3 results x :
  reaches_search W request s m data c s3 ->
  search W c (search_request W request data) (outside s3) = (Ok results, x) ->
  results = [] \/ (exists more, results = [] :: more) ->
  (ask_question W request s).1
  = Raise (HTTPException 500 (ASK_ERROR +:+ http_exception_str W 404 NO_MATCH)).
Proof.
  intros Hreach Hsearch Hnone. rewrite (ask_question_from_search _ _ _ _ _ _ Hreach).
  apply (try_as_500_raise ASK_ERROR _ _ (HTTPException 404 NO_MATCH)).
  unfold bind, run_search, call. rewrite Hsearch.
  destruct Hnone as [-> | [more ->]]; reflexivity.
Qed.

(** C5, as the code has it.  When retrieval succeeded and generation
    fails, the request succeeds and its answer is the fixed prefix, then
    the first 500 characters of the context (all of it when it has no
    more), then three dots.  Characters are counted, not bytes: the cut
    falls between two characters of the context. *)
Theorem ask_question_fallback request s m data c s3 hit hits more x chunks srcs context :
  reaches_search W request s m data c s3 ->
  search W c (search_request W request data) (outside s3) = (Ok ((hit :: hits) :: more), x) ->
  collect_hits W (hit :: hits) [] [] = Ok (chunks, srcs) ->
  py_join (nl +:+ nl) chunks = Ok context ->
  generation_fails W (build_prompt context (question request)) x ->
  (exists response,
     (ask_question W request s).1 = Ok response /\
     answer response = Some (FALLBACK_PREFIX +:+ str_take 500 context +:+ "...")) /\
  py_len (str_take 500 context) = Nat.min 500 (py_len context) /\
  (exists rest, context = str_take 500 context +:+ rest /\ at_boundary rest) /\
  (py_len context <= 500 -> str_take 500 context = context).
Proof.
  intros Hreach Hsearch Hcollect Hjoin Hfail.
  split; [| split; [apply str_take_length | split; [apply str_take_cut | apply str_take_all]]].
  rewrite (ask_question_from_search _ _ _ _ _ _ Hreach).
  unfold try_except, bind, run_search, call. rewrite Hsearch.
  unfold after_search, bind, lift. rewrite Hcollect, Hjoin.
  unfold call_llm, try_except, bind, call. simpl.
  unfold generation_fails in Hfail.
  destruct (chat_completions_create W _ x) as [[response | e] x'].
  - rewrite Hfail. eexists. split; reflexivity.
  - eexists. split; reflexivity.
Qed.
End Retrieval.

(** ** Context and sources of a successful retrieval (lines 279-290) *)

Section ContextAndSources.
Context (W : World).

Lemma py_eqb_refl a : py_eqb a a = true.
Proof.
  destruct a as [| b | z | t]; simpl.
  - reflexivity.
  - destruct b; reflexivity.
  - apply Z.eqb_refl.
  - apply String.eqb_refl.
Qed.

Lemma py_eqb_sym a b : py_eqb a b = py_eqb b a.
Proof.
  destruct a as [| x | x | x], b as [| y | y | y]; simpl; try reflexivity.
  - destruct x, y; reflexivity.
  - apply Z.eqb_sym.
  - apply String.eqb_sym.
Qed.

Lemma set_add_keeps x s h : In h s -> In h (set_add x s).
Proof.
  unfold set_add. destruct (existsb (py_eqb x) s); [auto |].
  intros H. apply in_or_app. left. exact H.
Qed.

Lemma set_add_has x s : exists h, In h (set_add x s) /\ py_eqb x h = true.
Proof.
  unfold set_add. destruct (existsb (py_eqb x) s) eqn:E.
  - apply existsb_exists in E as (h & Hin & Heq). exists h. split; assumption.
  - exists x. split; [apply in_or_app; right; left; reflexivity | apply py_eqb_refl].
Qed.

Lemma set_add_from x s h : In h (set_add x s) -> In h s \/ h = x.
Proof.
  unfold set_add. destruct (existsb (py_eqb x) s); [auto |].
  intros H. apply in_app_or in H as [H | [H | []]]; auto.
Qed.

Lemma py_distinct_snoc s x :
  py_distinct s -> (forall a, In a s -> py_eqb x a = false) -> py_distinct (s ++ [x]).
Proof.
  induction s as [| a rest IH]; simpl; intros Hd Hx.
  - split; [intros b [] | exact I].
  - destruct Hd as [Ha Hrest]. split.
    + intros b Hb. apply in_app_or in Hb as [Hb | [<- | []]]; [apply Ha, Hb |].
      rewrite py_eqb_sym. apply Hx. left. reflexivity.
    + apply IH; [exact Hrest |]. intros b Hb. apply Hx. right. exact Hb.
Qed.

Lemma set_add_distinct x s : py_distinct s -> py_distinct (set_add x s).
Proof.
  intros Hd. unfold set_add. destruct (existsb (py_eqb x) s) eqn:E; [exact Hd |].
  apply py_distinct_snoc; [exact Hd |]. intros a Ha.
  destruct (py_eqb x a) eqn:Exa; [| reflexivity].
  assert (existsb (py_eqb x) s = true) as Hex
    by (apply existsb_exists; exists a; split; assumption).
  congruence.
Qed.

(** [list(s)] has the members of the set [s], each once, in an order
    that the program does not decide. *)
Lemma insert_by_perm slot x l : insert_by slot x l ≡ₚ x :: l.
Proof.
  induction l as [| y rest IH]; simpl; [reflexivity |].
  destruct (slot x <=? slot y)%nat; [reflexivity |].
  rewrite IH. apply Permutation_swap.
Qed.

Lemma list_of_set_perm slot s : list_of_set slot s ≡ₚ s.
Proof.
  induction s as [| x rest IH]; simpl; [reflexivity |].
  rewrite insert_by_perm, IH. reflexivity.
Qed.

Lemma list_of_set_In slot s h : In h (list_of_set slot s) <-> In h s.
Proof.
  rewrite <- !list_elem_of_In. rewrite (list_of_set_perm slot s). reflexivity.
Qed.

Lemma py_distinct_insert slot x l :
  (forall b, In b l -> py_eqb x b = false) ->
  py_distinct l -> py_distinct (insert_by slot x l).
Proof.
  induction l as [| y rest IH]; simpl; intros Hx Hd.
  - split; [intros b [] | exact I].
  - destruct Hd as [Hy Hrest].
    destruct (slot x <=? slot y)%nat; simpl.
    + split; [exact Hx |]. split; assumption.
    + split.
      * intros b Hb. apply list_elem_of_In in Hb. rewrite insert_by_perm in Hb.
        apply list_elem_of_In in Hb as [<- | Hb]; [| apply Hy, Hb].
        rewrite py_eqb_sym. apply Hx. left. reflexivity.
      * apply IH; [| exact Hrest]. intros b Hb. apply Hx. right. exact Hb.
Qed.

Lemma list_of_set_distinct slot s : py_distinct s -> py_distinct (list_of_set slot s).
Proof.
  induction s as [| x rest IH]; simpl; [intros _; exact I |].
  intros [Hx Hrest]. apply py_distinct_insert; [| apply IH, Hrest].
  intros b Hb. apply Hx, (list_of_set_In slot), Hb.
Qed.

Lemma collect_hits_spec hits :
  forall chunks0 srcs0 chunks srcs,
    collect_hits W hits chunks0 srcs0 = Ok (chunks, srcs) ->
    chunks = chunks0 ++ map (dict_get "content") hits /\
    (forall h, In h srcs ->
       In h srcs0 \/ exists hit, In hit hits /\ document_name_of W hit = Some h) /\
    (forall h, In h srcs0 -> In h srcs) /\
    (forall hit h, In hit hits -> document_name_of W hit = Some h ->
       exists h', In h' srcs /\ py_eqb h h' = true) /\
    (py_distinct srcs0 -> py_distinct srcs).
Proof.
  induction hits as [| hit rest IH]; intros chunks0 srcs0 chunks srcs; simpl.
  - intros H. injection H as <- <-. rewrite app_nil_r.
    repeat split; auto. intros hit h [].
  - pose proof (eq_refl (document_name_of W hit)) as Hname.
    unfold document_name_of at 2 in Hname.
    destruct (json_loads W (default "{}" (dict_get "metadata" hit)))
      as [metadata | e]; [| discriminate].
    destruct (py_contains "document_name" metadata) as [[|] | e] eqn:Hin;
      [| | discriminate].
    + (* the key is there *)
      destruct (py_getitem metadata "document_name") as [v | e] eqn:Hget;
        [| discriminate].
      destruct (as_hashable v) as [h0 |] eqn:Hh; [| discriminate].
      destruct metadata as [| | | | | d]; try discriminate. simpl in Hget.
      destruct (dict_get "document_name" d) as [v' |]; [| discriminate].
      injection Hget as ->. rewrite Hh in Hname.
      intros H. apply IH in H as (Hc & Hfrom & Hkeep & Hall & Hdist).
      split; [rewrite Hc, <- app_assoc; reflexivity |].
      split; [| split; [| split]].
      * intros h Hh'. apply Hfrom in Hh' as [Hh' | (hit' & Hhit' & Hn)].
        -- apply set_add_from in Hh' as [Hh' | ->]; [left; exact Hh' |].
           right. exists hit. split; [left; reflexivity | exact Hname].
        -- right. exists hit'. split; [right; exact Hhit' | exact Hn].
      * intros h Hh'. apply Hkeep, set_add_keeps, Hh'.
      * intros hit' h [<- | Hhit'] Hn.
        -- rewrite Hname in Hn. injection Hn as <-.
           destruct (set_add_has h0 srcs0) as (h' & Hh' & Heq).
           exists h'. split; [apply Hkeep, Hh' | exact Heq].
        -- eapply Hall; eauto.
      * intros Hd. apply Hdist, set_add_distinct, Hd.
    + (* no such key *)
      assert (document_name_of W hit = None) as Hnone.
      { rewrite Hname. destruct metadata as [| | | | | d]; try reflexivity.
        simpl in Hin. destruct (dict_get "document_name" d); [discriminate | reflexivity]. }
      intros H. apply IH in H as (Hc & Hfrom & Hkeep & Hall & Hdist).
      split; [rewrite Hc, <- app_assoc; reflexivity |].
      split; [| split; [| split]]; auto.
      * intros h Hh'. apply Hfrom in Hh' as [Hh' | (hit' & Hhit' & Hn)];
          [left; exact Hh' |].
        right. exists hit'. split; [right; exact Hhit' | exact Hn].
      * intros hit' h [<- | Hhit'] Hn; [congruence | eapply Hall; eauto].
Qed.

Lemma py_join_all_spec parts :
  forall i contents, py_join_all i parts = Ok contents -> parts = map Some contents.
Proof.
  induction parts as [| [p |] rest IH]; simpl; intros i contents H.
  - injection H as <-. reflexivity.
  - destruct (py_join_all (S i) rest) as [ps | e] eqn:E; [| discriminate].
    injection H as <-. simpl. rewrite (IH _ ps E). reflexivity.
  - discriminate.
Qed.

Lemma py_join_spec sep parts context :
  py_join sep parts = Ok context ->
  exists contents, parts = map Some contents /\ context = join sep contents.
Proof.
  unfold py_join. destruct (py_join_all 0 parts) as [ps | e] eqn:E; [| discriminate].
  intros H. injection H as <-. exists ps.
  split; [eapply py_join_all_spec, E | reflexivity].
Qed.

Lemma call_llm_spec context prompt s :
  exists ans, (call_llm W context prompt s).1 = Ok ans /\
              In (EvChat (chat_request prompt)) (trace (call_llm W context prompt s).2).
Proof.
  unfold call_llm, try_except, bind, call.
  destruct (chat_completions_create W (chat_request prompt) (outside s))
    as [[[[| content others]] | e] x]; simpl; eexists;
    (split; [reflexivity |]); rewrite ?in_app_iff; simpl; tauto.
Qed.

(** C8.  When a request succeeds on the matches [hits] (the first
    result list of the store, in the store's order), the context put in
    the prompt is the contents of [hits], in that order, joined by an
    empty line; [context_chunks] is their number; and [sources] is the
    set of the [document_name] values of [hits]: no two members equal,
    every member is the name of a match, every name of a match is (equal
    to) a member. *)
Theorem ask_question_context_and_sources request s m data c s3 hits more x response s' :
  reaches_search W request s m data c s3 ->
  search W c (search_request W request data) (outside s3) = (Ok (hits :: more), x) ->
  ask_question W request s = (Ok response, s') ->
  exists contents,
    map (dict_get "content") hits = map Some contents /\
    In (EvChat (chat_request
                  (build_prompt (join (nl +:+ nl) contents) (question request))))
       (trace s') /\
    context_chunks response = length hits /\
    py_distinct (sources response) /\
    (forall h, In h (sources response) ->
       exists hit, In hit hits /\ document_name_of W hit = Some h) /\
    (forall hit h, In hit hits -> document_name_of W hit = Some h ->
       exists h', In h' (sources response) /\ py_eqb h h' = true).
Proof.
  intros Hreach Hsearch. rewrite (ask_question_from_search _ _ _ _ _ _ _ Hreach).
  unfold try_except, bind, run_search, call. rewrite Hsearch.
  unfold after_search.
  destruct hits as [| hit hits]; [unfold as_500, bind, log, raise; discriminate |].
  unfold bind, lift.
  destruct (collect_hits W (hit :: hits) [] []) as [[chunks srcs] | e] eqn:Hcollect;
    [| unfold as_500, bind, log, raise; discriminate].
  destruct (py_join (nl +:+ nl) chunks) as [context | e] eqn:Hjoin;
    [| unfold as_500, bind, log, raise; discriminate].
  apply collect_hits_spec in Hcollect as (Hc & Hfrom & _ & Hall & Hdist).
  apply py_join_spec in Hjoin as (contents & Hparts & ->).
  simpl in Hc. subst chunks.
  match goal with
  | |- context [call_llm W ?ctx ?p ?st] =>
      destruct (call_llm_spec ctx p st) as (ans & Hans & Hev);
      destruct (call_llm W ctx p st) as [r s4]
  end.
  simpl in Hans, Hev. subst r. unfold ret. intros H. injection H as <- <-.
  exists contents. simpl.
  split; [exact Hparts |].
  split; [exact Hev |].
  split; [rewrite length_map; reflexivity |].
  split; [apply list_of_set_distinct, Hdist; exact I |].
  split.
  - intros h Hh. apply list_of_set_In, Hfrom in Hh as [[] | Hh]. exact Hh.
  - intros hit' h Hhit Hname. destruct (Hall hit' h Hhit Hname) as (h' & Hh' & Heq).
    exists h'. split; [apply list_of_set_In, Hh' | exact Heq].
Qed.
End ContextAndSources.

(** ** Deleting a document (lines 371-387) *)

Section Deletion.
Context (W : World).

(** C10.  For every [document_id], ingested or not: when the collection
    is reached and the store's [delete] returns, the answer is the
    success response; the handler reads nothing back from the store
    (no search, no query); and when it fails it answers HTTP 500, never
    "not found". *)
Theorem delete_document_never_checks (document_id : string) (s : State W) :
  (forall c s1 x,
     connect_milvus W MILVUS_HOST MILVUS_PORT s = (Ok c, s1) ->
     delete W c (delete_expr document_id) (outside s1) = (Ok tt, x) ->
     (delete_document W document_id s).1
     = Ok {| dr_status := "success";
             dr_message := "Documento " +:+ document_id +:+ " eliminado" |}) /\
  (forall ev, In ev (trace (delete_document W document_id s).2) ->
              In ev (trace s) \/ ~ is_lookup W ev) /\
  (forall e, (delete_document W document_id s).1 = Raise e ->
             exists cause, e = HTTPException 500 (DELETE_ERROR +:+ str_exn W cause)).
Proof.
  split; [| split].
  - intros c s1 x Hconnect Hdelete.
    unfold delete_document, try_except, bind, call. rewrite Hconnect, Hdelete.
    reflexivity.
  - intros ev Hev.
    destruct (evolves_event _ _ _ _ (delete_document_runs W document_id s) Hev)
      as [Hold | Hnew]; [left; exact Hold | right].
    eapply delete_event_no_lookup, Hnew.
  - intros e H. apply (try_as_500 DELETE_ERROR) in H as (cause & _ & ->).
    exists cause. reflexivity.
Qed.
End Deletion.

(** ** Listing the documents (lines 337-369) *)

Section Listing.
Context (W : World).

Lemma dict_get_set_eq {V} k (v : V) d : dict_get k (dict_set k v d) = Some v.
Proof.
  induction d as [| [k' v'] d IH]; simpl.
  - rewrite String.eqb_refl. reflexivity.
  - destruct (String.eqb k k') eqn:E; simpl; rewrite E; [reflexivity | exact IH].
Qed.

Lemma dict_get_set_ne {V} k k0 (v : V) d :
  k0 <> k -> dict_get k0 (dict_set k v d) = dict_get k0 d.
Proof.
  intros Hne. induction d as [| [k' v'] d IH]; simpl.
  - apply String.eqb_neq in Hne. rewrite Hne. reflexivity.
  - destruct (String.eqb k k') eqn:E; simpl.
    + apply String.eqb_eq in E as <-.
      apply String.eqb_neq in Hne. rewrite Hne. reflexivity.
    + rewrite IH. reflexivity.
Qed.

Lemma dict_get_In {V} k (v : V) d : dict_get k d = Some v -> In (k, v) d.
Proof.
  induction d as [| [k' v'] d IH]; simpl; [discriminate |].
  destruct (String.eqb k k') eqn:E.
  - apply String.eqb_eq in E as <-. intros H. injection H as <-. left. reflexivity.
  - intros H. right. apply IH, H.
Qed.

Lemma dict_get_None {V} k (d : list (string * V)) :
  dict_get k d = None -> ~ In k (map fst d).
Proof.
  induction d as [| [k' v'] d IH]; simpl; [tauto |].
  destruct (String.eqb k k') eqn:E; [discriminate |].
  apply String.eqb_neq in E. intros H [Heq | Hin]; [congruence | exact (IH H Hin)].
Qed.

Lemma In_dict_get {V} k (v : V) d :
  NoDup (map fst d) -> In (k, v) d -> dict_get k d = Some v.
Proof.
  induction d as [| [k' v'] d IH]; simpl; [tauto |].
  intros Hnd Hin. apply NoDup_cons in Hnd as [Hnotin Hnd].
  destruct Hin as [Heq | Hin].
  - injection Heq as -> ->. rewrite String.eqb_refl. reflexivity.
  - destruct (String.eqb k k') eqn:E; [| apply IH; assumption].
    apply String.eqb_eq in E as <-. exfalso. apply Hnotin.
    apply list_elem_of_In, in_map_iff. exists (k, v). split; [reflexivity | exact Hin].
Qed.

Lemma dict_set_keys_present {V} k (v v0 : V) d :
  dict_get k d = Some v0 -> map fst (dict_set k v d) = map fst d.
Proof.
  induction d as [| [k' v'] d IH]; simpl; [discriminate |].
  destruct (String.eqb k k') eqn:E; simpl; [reflexivity |].
  intros H. rewrite IH; [reflexivity | exact H].
Qed.

Lemma dict_set_absent {V} k (v : V) d :
  dict_get k d = None -> dict_set k v d = d ++ [(k, v)].
Proof.
  induction d as [| [k' v'] d IH]; simpl; [reflexivity |].
  destruct (String.eqb k k') eqn:E; [discriminate |].
  intros H. rewrite IH; [reflexivity | exact H].
Qed.

Lemma dict_set_In {V} k (v : V) d k0 v0 :
  In (k0, v0) (dict_set k v d) -> (k0 = k /\ v0 = v) \/ In (k0, v0) d.
Proof.
  induction d as [| [k' v'] d IH]; simpl.
  - intros [H | []]. injection H as <- <-. left. split; reflexivity.
  - destruct (String.eqb k k') eqn:E; simpl.
    + apply String.eqb_eq in E as <-.
      intros [H | H]; [injection H as <- <-; left; split; reflexivity | right; right; exact H].
    + intros [H | H]; [right; left; exact H |].
      apply IH in H as [H | H]; [left; exact H | right; right; exact H].
Qed.

Lemma dict_set_keyed k v docs :
  di_id v = k -> keyed docs -> keyed (dict_set k v docs).
Proof.
  intros Hid [Hnd Hkeys]. split.
  - destruct (dict_get k docs) as [v0 |] eqn:E.
    + rewrite (dict_set_keys_present _ _ _ _ E). exact Hnd.
    + rewrite (dict_set_absent _ _ _ E), map_app. simpl.
      apply NoDup_app. split; [exact Hnd |]. split.
      * intros k0 Hk0 Hk0'. apply list_elem_of_In in Hk0, Hk0'.
        destruct Hk0' as [<- | []]. exact (dict_get_None _ _ E Hk0).
      * apply NoDup_singleton.
  - intros k0 d Hin. apply dict_set_In in Hin as [[-> ->] | Hin];
      [exact Hid | apply Hkeys, Hin].
Qed.

Lemma total_dict_set k v (docs : list (string * DocumentInfo)) :
  total_chunks (map snd (dict_set k v docs)) + chunks_of k docs
  = total_chunks (map snd docs) + di_chunks v.
Proof.
  unfold total_chunks, chunks_of.
  induction docs as [| [k' v'] docs IH]; simpl; [lia |].
  destruct (String.eqb k k') eqn:E; simpl; [lia |]. lia.
Qed.

Lemma chunks_of_set k0 v docs k :
  chunks_of k (dict_set k0 v docs)
  = if String.eqb k0 k then di_chunks v else chunks_of k docs.
Proof.
  unfold chunks_of. destruct (String.eqb k0 k) eqn:E.
  - apply String.eqb_eq in E as <-. rewrite dict_get_set_eq. reflexivity.
  - apply String.eqb_neq in E. rewrite dict_get_set_ne; [reflexivity | congruence].
Qed.

Lemma bump_spec k0 d docs :
  keyed docs -> dict_get k0 docs = Some d ->
  keyed (dict_set k0 (bump d) docs) /\
  total_chunks (map snd (dict_set k0 (bump d) docs)) = total_chunks (map snd docs) + 1 /\
  (forall k, chunks_of k (dict_set k0 (bump d) docs)
             = chunks_of k docs + if String.eqb k0 k then 1 else 0) /\
  map fst (dict_set k0 (bump d) docs) = map fst docs.
Proof.
  intros Hkeyed Hget.
  assert (di_id d = k0) as Hid by (apply (proj2 Hkeyed), dict_get_In, Hget).
  split; [apply dict_set_keyed; [exact Hid | exact Hkeyed] |].
  split; [| split].
  - pose proof (total_dict_set k0 (bump d) docs) as H.
    unfold chunks_of in H. rewrite Hget in H. simpl in H. lia.
  - intros k. rewrite chunks_of_set. destruct (String.eqb k0 k) eqn:E; [| lia].
    apply String.eqb_eq in E as <-. unfold chunks_of. rewrite Hget. reflexivity.
  - eapply dict_set_keys_present, Hget.
Qed.

Lemma add_spec k0 dnew docs :
  keyed docs -> dict_get k0 docs = None -> di_id dnew = k0 -> di_chunks dnew = 0 ->
  keyed (dict_set k0 dnew docs) /\
  total_chunks (map snd (dict_set k0 dnew docs)) = total_chunks (map snd docs) /\
  (forall k, chunks_of k (dict_set k0 dnew docs) = chunks_of k docs) /\
  map fst (dict_set k0 dnew docs) = map fst docs ++ [k0].
Proof.
  intros Hkeyed Hget Hid Hzero.
  split; [apply dict_set_keyed; assumption |].
  split; [| split].
  - pose proof (total_dict_set k0 dnew docs) as H.
    unfold chunks_of in H. rewrite Hget in H. lia.
  - intros k. rewrite chunks_of_set. destruct (String.eqb k0 k) eqn:E; [| reflexivity].
    apply String.eqb_eq in E as <-. unfold chunks_of. rewrite Hget. exact Hzero.
  - rewrite (dict_set_absent _ _ _ Hget), map_app. reflexivity.
Qed.

Lemma group_documents_spec results :
  forall docs0 docs,
    keyed docs0 ->
    group_documents W results docs0 = Ok docs ->
    keyed docs /\
    total_chunks (map snd docs) = total_chunks (map snd docs0) + length results /\
    (forall k, chunks_of k docs = chunks_of k docs0 + rows_with k results) /\
    (forall k, In k (map fst docs) -> In k (map fst docs0) \/ 0 < rows_with k results).
Proof.
  induction results as [| row rest IH]; intros docs0 docs Hkeyed; simpl.
  - intros H. injection H as <-. repeat split; try apply Hkeyed; auto; lia.
  - destruct (dict_get "document_id" row) as [k0 |]; [| discriminate].
    assert (forall docs1,
              keyed docs1 ->
              total_chunks (map snd docs1) = total_chunks (map snd docs0) + 1 ->
              (forall k, chunks_of k docs1
                         = chunks_of k docs0 + if String.eqb k0 k then 1 else 0) ->
              (forall k, In k (map fst docs1) -> In k (map fst docs0) \/ k = k0) ->
              group_documents W rest docs1 = Ok docs ->
              keyed docs /\
              total_chunks (map snd docs)
              = total_chunks (map snd docs0) + S (length rest) /\
              (forall k, chunks_of k docs
                         = chunks_of k docs0
                           + (if String.eqb k0 k then S (rows_with k rest)
                              else rows_with k rest)) /\
              (forall k, In k (map fst docs) ->
                         In k (map fst docs0)
                         \/ 0 < (if String.eqb k0 k then S (rows_with k rest)
                                 else rows_with k rest))) as Hnext.
    { intros docs1 Hk1 Ht1 Hc1 Hd1 Hrest.
      apply IH in Hrest as (Hk & Ht & Hc & Hd); [| exact Hk1].
      split; [exact Hk |]. split; [lia |]. split.
      - intros k. rewrite Hc, Hc1. destruct (String.eqb k0 k); lia.
      - intros k Hin. apply Hd in Hin as [Hin | Hin].
        + apply Hd1 in Hin as [Hin | ->]; [left; exact Hin | right].
          rewrite String.eqb_refl. lia.
        + right. destruct (String.eqb k0 k); lia. }
    destruct (dict_get k0 docs0) as [d0 |] eqn:Hget.
    + rewrite Hget. fold (bump d0).
      destruct (bump_spec k0 d0 docs0 Hkeyed Hget) as (Hk1 & Ht1 & Hc1 & Hd1).
      apply Hnext; try assumption.
      intros k Hin. rewrite Hd1 in Hin. left. exact Hin.
    + destruct (json_loads W (default "{}" (dict_get "metadata" row)))
        as [metadata | e]; [| discriminate].
      destruct (py_get metadata "document_name" (JStr "Documento desconocido"))
        as [name | e]; [| discriminate].
      destruct (py_get metadata "upload_date" (JStr "")) as [date | e];
        [| discriminate].
      rewrite dict_get_set_eq.
      set (dnew := {| di_id := k0; di_name := name;
                      di_upload_date := date; di_chunks := 0 |}).
      fold (bump dnew).
      destruct (add_spec k0 dnew docs0 Hkeyed Hget eq_refl eq_refl)
        as (HkA & HtA & HcA & HdA).
      destruct (bump_spec k0 dnew (dict_set k0 dnew docs0) HkA (dict_get_set_eq _ _ _))
        as (Hk1 & Ht1 & Hc1 & Hd1).
      apply Hnext; try assumption.
      * lia.
      * intros k. rewrite Hc1, HcA. reflexivity.
      * intros k Hin. rewrite Hd1, HdA in Hin.
        apply in_app_or in Hin as [Hin | [<- | []]]; [left; exact Hin | right; reflexivity].
Qed.

Lemma length_le_total (docs : list DocumentInfo) :
  (forall d, In d docs -> 0 < di_chunks d) -> length docs <= total_chunks docs.
Proof.
  unfold total_chunks. induction docs as [| d docs IH]; simpl; intros H; [lia |].
  pose proof (H d (or_introl eq_refl)).
  assert (length docs <= sum_list (map di_chunks docs)) by (apply IH; auto). lia.
Qed.

(** C9.  [list_documents] asks the store for the rows with a non-empty
    [document_id] with [limit = 1000], once, and lists exactly the rows
    it gets back: the counts add up to the number of returned rows, and
    a document is listed with the number of returned rows that carry
    its identifier, at least one.  With a store that honours the limit
    the listing therefore accounts for at most 1000 chunks, however
    many are indexed. *)
Theorem list_documents_reads_at_most_1000_rows s c s1 results x docs s' :
  connect_milvus W MILVUS_HOST MILVUS_PORT s = (Ok c, s1) ->
  query W c LIST_EXPR LIST_FIELDS 1000 (outside s1) = (Ok results, x) ->
  list_documents W s = (Ok docs, s') ->
  In (EvQuery c LIST_EXPR LIST_FIELDS 1000) (trace s') /\
  total_chunks docs = length results /\
  (forall d, In d docs ->
             di_chunks d = rows_with (di_id d) results /\ 0 < di_chunks d) /\
  (length results <= 1000 -> total_chunks docs <= 1000 /\ length docs <= 1000).
Proof.
  intros Hconnect Hquery.
  unfold list_documents, try_except, bind, call. rewrite Hconnect.
  change (query W c LIST_EXPR ["document_id"; "metadata"] LIST_LIMIT (outside s1))
    with (query W c LIST_EXPR LIST_FIELDS 1000 (outside s1)).
  rewrite Hquery. unfold lift, ret.
  destruct (group_documents W results []) as [grouped | e] eqn:Hgroup;
    [| unfold bind, log, raise; discriminate].
  intros H. injection H as <- <-. simpl.
  assert (keyed []) as Hnil by (split; [constructor | intros k d []]).
  destruct (group_documents_spec _ _ _ Hnil Hgroup) as (Hkeyed & Htotal & Hchunks & Hkeys).
  assert (Hper : forall d, In d (map snd grouped) ->
                   di_chunks d = rows_with (di_id d) results /\ 0 < di_chunks d).
  { intros d Hd. apply in_map_iff in Hd as ([k d'] & Heq & Hin). simpl in Heq. subst d'.
    pose proof (proj2 Hkeyed _ _ Hin) as Hid.
    pose proof (In_dict_get _ _ _ (proj1 Hkeyed) Hin) as Hget.
    pose proof (Hchunks k) as Hck. unfold chunks_of in Hck. rewrite Hget in Hck.
    simpl in Hck. rewrite Hid. split; [exact Hck |].
    assert (In k (map fst grouped)) as Hk
      by (apply in_map_iff; exists (k, d); split; [reflexivity | exact Hin]).
    apply Hkeys in Hk as [[] | Hk]. lia. }
  split; [apply in_or_app; right; left; reflexivity |].
  split; [rewrite Htotal; unfold total_chunks; simpl; lia |].
  split; [exact Hper |].
  intros Hlimit.
  assert (total_chunks (map snd grouped) = length results) as Ht
    by (rewrite Htotal; unfold total_chunks; simpl; lia).
  split; [lia |].
  pose proof (length_le_total (map snd grouped) (fun d Hd => proj2 (Hper d Hd))). lia.
Qed.
End Listing.

(** ** Ingestion (lines 160-250) *)

Section Ingestion.
Context (W : World).

Lemma upload_document_supported file model s :
  extension_of file ∈ SUPPORTED_EXTENSIONS ->
  upload_document W file model s =
  bind (try_except (write_upload W file) (as_500 UPLOAD_ERROR))
       (fun path =>
          try_except
            (process_upload W file model path (extension_of file))
            (fun e =>
               log ERROR (UPLOAD_ERROR +:+ str_exn W e) ;;;
               try_except (call (EvUnlink path) (os_unlink W path)) (fun _ => ret tt) ;;;
               raise (HTTPException 500 (UPLOAD_ERROR +:+ str_exn W e)))) s.
Proof.
  intros Hext. unfold upload_document. fold (extension_of file).
  rewrite (bool_decide_eq_true_2 _ Hext). reflexivity.
Qed.

(** After the extension check, every failure of [upload_document] is
    HTTP 500. *)
Lemma upload_document_raises_500 file model s e :
  extension_of file ∈ SUPPORTED_EXTENSIONS ->
  (upload_document W file model s).1 = Raise e ->
  exists cause, e = HTTPException 500 (UPLOAD_ERROR +:+ str_exn W cause).
Proof.
  intros Hext. rewrite (upload_document_supported _ _ _ Hext).
  unfold bind at 1.
  destruct (try_except (write_upload W file) (as_500 UPLOAD_ERROR) s)
    as [[path | e0] s1] eqn:Hwrite.
  - unfold try_except at 1.
    destruct (process_upload W file model path (extension_of file) s1)
      as [[response | cause] s2]; simpl; [discriminate |].
    unfold bind, log, try_except, call, raise, ret. simpl.
    destruct (os_unlink W path (outside s2)) as [[[] | e1] x]; simpl;
      intros H; injection H as <-; exists cause; reflexivity.
  - simpl. intros H. injection H as ->.
    assert ((try_except (write_upload W file) (as_500 UPLOAD_ERROR) s).1 = Raise e) as H
      by (rewrite Hwrite; reflexivity).
    apply try_as_500 in H as (cause & _ & ->). exists cause. reflexivity.
Qed.

Lemma upload_document_ok file model s response s' :
  extension_of file ∈ SUPPORTED_EXTENSIONS ->
  upload_document W file model s = (Ok response, s') ->
  exists path s1,
    write_upload W file s = (Ok path, s1) /\
    process_upload W file model path (extension_of file) s1 = (Ok response, s').
Proof.
  intros Hext. rewrite (upload_document_supported _ _ _ Hext).
  unfold bind at 1, try_except at 1.
  destruct (write_upload W file s) as [[path | e0] s1] eqn:Hwrite.
  - unfold try_except.
    destruct (process_upload W file model path (extension_of file) s1)
      as [[r | cause] s2] eqn:Hprocess.
    + intros H. injection H as <- <-. exists path, s1.
      split; [reflexivity | exact Hprocess].
    + unfold bind, log, call, raise, ret. simpl.
      destruct (os_unlink W path (outside s2)) as [[[] | e1] x]; discriminate.
  - unfold as_500, bind, log, raise. discriminate.
Qed.



(** C3, what the code does.  Whatever the file and whatever the model
    named in the request, a collection created during [upload_document]
    is "documents" with a vector field of dimension 384. *)
Theorem upload_document_creates_dimension_384 file model s name schema :
  In (EvCreateCollection name schema) (trace (upload_document W file model s).2) ->
  In (EvCreateCollection name schema) (trace s) \/
  (name = COLLECTION_NAME /\ schema_dim schema = Some 384).
Proof.
  intros Hev.
  destruct (evolves_event _ _ _ _ (upload_document_runs W file model s) Hev)
    as [Hold | [-> ->]]; [left; exact Hold | right].
  split; reflexivity.
Qed.
End Ingestion.

(** ** The handlers run in the reference world *)

(** ** Reading a run backwards *)

Section Inversion.
Context {W : World}.

Lemma bind_ok {A B} (m : M W A) (k : A -> M W B) s b s' :
  bind m k s = (Ok b, s') ->
  exists a s1, m s = (Ok a, s1) /\ k a s1 = (Ok b, s').
Proof.
  unfold bind. destruct (m s) as [[a | e] s1]; [| discriminate].
  intros H. exists a, s1. split; [reflexivity | exact H].
Qed.

Lemma bind_raise {A B} (m : M W A) (k : A -> M W B) s e s' :
  bind m k s = (Raise e, s') ->
  m s = (Raise e, s') \/ exists a s1, m s = (Ok a, s1) /\ k a s1 = (Raise e, s').
Proof.
  unfold bind. destruct (m s) as [[a | e0] s1].
  - intros H. right. exists a, s1. split; [reflexivity | exact H].
  - intros H. injection H as <- <-. left. reflexivity.
Qed.

Lemma call_ok {A} ev (f : ext W -> result A * ext W) s a s' :
  call ev f s = (Ok a, s') ->
  trace s' = trace s ++ [ev] /\
  embedding_models s' = embedding_models s /\ next_id s' = next_id s /\
  f (outside s) = (Ok a, outside s').
Proof.
  unfold call. destruct (f (outside s)) as [r x]. intros H. injection H as -> <-.
  repeat split; reflexivity.
Qed.

Lemma log_run level msg (s : State W) :
  log level msg s
  = (Ok tt, {| embedding_models := embedding_models s; next_id := next_id s;
               outside := outside s; trace := trace s ++ [EvLog level msg] |}).
Proof. reflexivity. Qed.

End Inversion.

(** Case analysis on the outcome of every call left in the goal. *)
Ltac each_call :=
  repeat match goal with
         | |- context [if negb ?b then _ else _] => destruct b; simpl
         | |- context [match ?f ?a with _ => _ end] =>
             match type of (f a) with
             | (result _ * ext _)%type => destruct (f a) as [[? | ?] ?]; simpl
             end
         end.

(** ** Ensuring the collection (lines 78-118) *)

Section Connection.
Context (W : World).

(** X1.  [connect_milvus] either returns the handle of "documents",
    after having loaded it, or raises HTTP 500 whose detail is the text
    of what went wrong; it never lets another exception through.  When
    [has_collection] answers yes it creates no collection (the existing
    one is opened as it is), and when it answers no it creates it with
    the schema of the module. *)
Theorem connect_milvus_outcome host port (s : State W) :
  (forall c s', connect_milvus W host port s = (Ok c, s') ->
     c = COLLECTION_NAME /\ In (EvLoadCollection COLLECTION_NAME) (trace s')) /\
  (forall e, (connect_milvus W host port s).1 = Raise e ->
     exists cause, e = HTTPException 500 (CONNECT_ERROR +:+ str_exn W cause)) /\
  (forall x1 x2 present,
     milvus_connect W "default" host port (outside s) = (Ok tt, x1) ->
     has_collection W COLLECTION_NAME x1 = (Ok present, x2) ->
     if present
     then forall ev, In ev (trace (connect_milvus W host port s).2) ->
                     In ev (trace s) \/ ~ is_create W ev
     else In (EvCreateCollection COLLECTION_NAME collection_schema)
             (trace (connect_milvus W host port s).2)).
Proof.
  split; [| split].
  - intros c s'. unfold connect_milvus, try_except, bind, call, log, ret, raise.
    each_call;
      intros H; try discriminate; injection H as <- <-; simpl;
      (split; [reflexivity |]); rewrite ?in_app_iff; simpl; tauto.
  - intros e H. apply (try_as_500 CONNECT_ERROR) in H as (cause & _ & ->).
    exists cause. reflexivity.
  - intros x1 x2 present Hconnect Hhas.
    unfold connect_milvus, try_except, bind, call, log, ret, raise.
    rewrite Hconnect. simpl. rewrite Hhas. simpl.
    destruct present; simpl.
    + intros ev. each_call; rewrite ?in_app_iff; simpl;
        intros Hin; decompose [or] Hin; subst; simpl; tauto.
    + each_call; rewrite ?in_app_iff; simpl; tauto.
Qed.

(** X2.  When the collection cannot be ensured, [list_documents] and
    [delete_document] answer HTTP 500 whose detail wraps the text of the
    error of [connect_milvus], and they send the store no query and no
    deletion. *)
Theorem store_unreachable (document_id : string) (s : State W) e s1 :
  connect_milvus W MILVUS_HOST MILVUS_PORT s = (Raise e, s1) ->
  (list_documents W s).1 = Raise (HTTPException 500 (LIST_ERROR +:+ str_exn W e)) /\
  (delete_document W document_id s).1
  = Raise (HTTPException 500 (DELETE_ERROR +:+ str_exn W e)) /\
  (exists cause, e = HTTPException 500 (CONNECT_ERROR +:+ str_exn W cause)) /\
  (forall ev, In ev (trace (list_documents W s).2) -> In ev (trace s) \/ ~ data_event W ev) /\
  (forall ev, In ev (trace (delete_document W document_id s).2) ->
              In ev (trace s) \/ ~ data_event W ev).
Proof.
  intros Hconnect.
  pose proof (connect_milvus_runs W MILVUS_HOST MILVUS_PORT s) as Hruns.
  rewrite Hconnect in Hruns. simpl in Hruns.
  split; [| split; [| split; [| split]]].
  - unfold list_documents, try_except, bind. rewrite Hconnect. reflexivity.
  - unfold delete_document, try_except, bind. rewrite Hconnect. reflexivity.
  - assert (H : (connect_milvus W MILVUS_HOST MILVUS_PORT s).1 = Raise e)
      by (rewrite Hconnect; reflexivity).
    apply (try_as_500 CONNECT_ERROR) in H as (cause & _ & H).
    exists cause. exact H.
  - intros ev. unfold list_documents, try_except, bind. rewrite Hconnect.
    unfold log, raise. simpl. rewrite in_app_iff. intros [Hin | [<- | []]].
    + destruct (evolves_event _ _ _ _ Hruns Hin) as [Hold | Hnew];
        [left; exact Hold | right].
      destruct ev; simpl in *; tauto.
    + right. simpl. tauto.
  - intros ev. unfold delete_document, try_except, bind. rewrite Hconnect.
    unfold log, raise. simpl. rewrite in_app_iff. intros [Hin | [<- | []]].
    + destruct (evolves_event _ _ _ _ Hruns Hin) as [Hold | Hnew];
        [left; exact Hold | right].
      destruct ev; simpl in *; tauto.
    + right. simpl. tauto.
Qed.

End Connection.

(** ** What the handlers keep of the process (cache and identities) *)

Section Preservation.
Context {W : World}.
Variable I : State W -> Prop.
Hypothesis I_process_only : process_only I.

Lemma preserves_ret {A} (a : A) : preserves I (@ret W A a).
Proof. intros s H. exact H. Qed.

Lemma preserves_raise {A} (e : exn) : preserves I (@raise W A e).
Proof. intros s H. exact H. Qed.

Lemma preserves_lift {A} (r : result A) : preserves I (@lift W A r).
Proof. intros s H. exact H. Qed.

Lemma preserves_bind {A B} (m : M W A) (k : A -> M W B) :
  preserves I m -> (forall a, preserves I (k a)) -> preserves I (bind m k).
Proof.
  intros Hm Hk s H. unfold bind. specialize (Hm s H).
  destruct (m s) as [[a | e] s1]; simpl in *; [apply Hk, Hm | exact Hm].
Qed.

Lemma preserves_try {A} (body : M W A) (handler : exn -> M W A) :
  preserves I body -> (forall e, preserves I (handler e)) ->
  preserves I (try_except body handler).
Proof.
  intros Hm Hk s H. unfold try_except. specialize (Hm s H).
  destruct (body s) as [[a | e] s1]; simpl in *; [exact Hm | apply Hk, Hm].
Qed.

Lemma preserves_call {A} ev (f : ext W -> result A * ext W) : preserves I (call ev f).
Proof.
  intros s H. unfold call. destruct (f (outside s)) as [r x]. simpl.
  apply I_process_only, H.
Qed.

Lemma preserves_call_total {A} ev (f : ext W -> A * ext W) : preserves I (call_total ev f).
Proof. apply preserves_call. Qed.

Lemma preserves_log level msg : preserves I (@log W level msg).
Proof. intros s H. unfold log. simpl. apply I_process_only, H. Qed.

End Preservation.

Ltac keeps_step :=
  first
    [ apply preserves_ret | apply preserves_raise | apply preserves_lift
    | apply preserves_log; assumption | apply preserves_call_total; assumption
    | apply preserves_call; assumption
    | apply preserves_bind; [| intros ?] | apply preserves_try; [| intros ?]
    | match goal with
      | |- preserves _ (if ?b then _ else _) => destruct b
      | |- preserves _ (match ?x with _ => _ end) => destruct x
      | |- preserves _ (let '(_, _) := ?x in _) => destruct x
      end ].

Ltac keeps_all := repeat keeps_step.

Section Process.
Context (W : World).
Variable I : State W -> Prop.
Hypothesis I_process_only : process_only I.

Lemma connect_milvus_preserves host port : preserves I (connect_milvus W host port).
Proof. unfold connect_milvus. keeps_all. Qed.

Lemma extract_text_from_file_preserves path ty :
  preserves I (extract_text_from_file W path ty).
Proof. unfold extract_text_from_file. keeps_all. Qed.

Lemma prepare_chunks_preserves document_id name pairs :
  forall i cols, preserves I (prepare_chunks W document_id name i pairs cols).
Proof.
  induction pairs as [| [chunk embedding] rest IH]; intros i cols; simpl.
  - apply preserves_ret.
  - apply preserves_bind; [apply preserves_call_total; assumption | intros d; apply IH].
Qed.

Lemma call_llm_preserves context prompt : preserves I (call_llm W context prompt).
Proof. unfold call_llm. keeps_all. Qed.

Lemma list_documents_preserves : preserves I (list_documents W).
Proof.
  unfold list_documents.
  apply preserves_try; [| intros e; keeps_all].
  apply preserves_bind; [apply connect_milvus_preserves | intros c]. keeps_all.
Qed.

Lemma delete_document_preserves document_id : preserves I (delete_document W document_id).
Proof.
  unfold delete_document.
  apply preserves_try; [| intros e; keeps_all].
  apply preserves_bind; [apply connect_milvus_preserves | intros c]. keeps_all.
Qed.

(** The other handlers touch the cache through [get_embedding_model]
    only. *)
Hypothesis get_preserves : forall name, preserves I (get_embedding_model W name).

Lemma process_upload_preserves file model path extension :
  preserves I (process_upload W file model path extension).
Proof.
  unfold process_upload.
  apply preserves_bind; [apply extract_text_from_file_preserves | intros text].
  apply preserves_bind; [apply preserves_lift | intros documents].
  apply preserves_bind; [apply get_preserves | intros m].
  apply preserves_bind; [apply preserves_call; assumption | intros embeddings].
  apply preserves_bind; [apply connect_milvus_preserves | intros c].
  apply preserves_bind; [apply preserves_call_total; assumption | intros document_id].
  apply preserves_bind; [apply prepare_chunks_preserves | intros cols].
  keeps_all.
Qed.

Lemma upload_document_preserves file model : preserves I (upload_document W file model).
Proof.
  unfold upload_document.
  destruct (negb _); [apply preserves_raise |].
  apply preserves_bind; [keeps_all | intros path].
  apply preserves_try; [apply process_upload_preserves | intros e; keeps_all].
Qed.

Lemma ask_question_preserves request : preserves I (ask_question W request).
Proof.
  unfold ask_question.
  apply preserves_try; [| intros e; keeps_all].
  apply preserves_bind; [apply get_preserves | intros m].
  apply preserves_bind; [apply preserves_call; assumption | intros embedding].
  apply preserves_bind; [apply connect_milvus_preserves | intros c].
  apply preserves_bind; [apply preserves_call; assumption | intros results].
  destruct results as [| [| hit hits] more]; try apply preserves_raise.
  apply preserves_bind; [apply preserves_lift | intros [chunks srcs]].
  apply preserves_bind; [apply preserves_lift | intros context].
  apply preserves_bind; [apply call_llm_preserves | intros ans]. apply preserves_ret.
Qed.

Lemma step_preserves s s' : step W s s' -> I s -> I s'.
Proof.
  intros Hstep. destruct Hstep.
  - apply get_preserves.
  - apply upload_document_preserves.
  - apply ask_question_preserves.
  - apply list_documents_preserves.
  - apply delete_document_preserves.
  - unfold set_outside. apply I_process_only.
Qed.

Lemma steps_preserve s s' : rtc (step W) s s' -> I s -> I s'.
Proof.
  induction 1 as [s | s1 s2 s3 H12 _ IH]; [auto |].
  intros H. apply IH. eapply step_preserves; eauto.
Qed.

End Process.

(** ** The embedding cache, continued (lines 57 and 71-76) *)

Section CacheInvariant.
Context (W : World).

Lemma cache_inv_process_only : process_only (cache_inv W).
Proof. intros s x t H. exact H. Qed.

Lemma get_embedding_model_cache_inv name :
  preserves (cache_inv W) (get_embedding_model W name).
Proof.
  intros s [Hkeyed Hinj].
  destruct (embedding_models s !! name) as [m0 |] eqn:E.
  - rewrite (get_embedding_model_hit _ _ _ _ E). split; assumption.
  - rewrite (get_embedding_model_miss _ _ _ E).
    destruct (load_model W name (outside s)) as [[[] | e] x]; simpl;
      [| split; assumption].
    split.
    + intros k m. simpl. rewrite lookup_insert.
      destruct (decide (name = k)) as [<- | Hne].
      * intros H. injection H as <-. simpl. split; [reflexivity | lia].
      * intros H. destruct (Hkeyed k m H) as [Hname Hid]. split; [exact Hname | lia].
    + intros k1 k2 m1 m2. simpl. rewrite !lookup_insert.
      destruct (decide (name = k1)) as [<- | Hne1];
        destruct (decide (name = k2)) as [<- | Hne2]; try reflexivity.
      * intros H1 H2. injection H1 as <-. simpl.
        destruct (Hkeyed k2 m2 H2) as [_ Hid]. lia.
      * intros H1 H2. injection H2 as <-. simpl.
        destruct (Hkeyed k1 m1 H1) as [_ Hid]. lia.
      * apply Hinj.
Qed.

(** X3.  In a process started with an empty cache, after any sequence of
    model look-ups, uploads, questions, listings and deletions, whatever
    happens outside in between: every cached model is the one built for
    the name it is cached under, and two names never share an object. *)
Theorem cache_entries_are_their_own (s0 s : State W) :
  embedding_models s0 = ∅ ->
  rtc (step W) s0 s ->
  (forall name m, embedding_models s !! name = Some m -> model_name m = name) /\
  (forall name1 name2 m1 m2,
     name1 <> name2 ->
     embedding_models s !! name1 = Some m1 ->
     embedding_models s !! name2 = Some m2 ->
     model_id m1 <> model_id m2).
Proof.
  intros Hempty Hsteps.
  assert (cache_inv W s0) as H0.
  { split.
    - intros k m. rewrite Hempty, lookup_empty. discriminate.
    - intros k1 k2 m1 m2. rewrite Hempty, lookup_empty. discriminate. }
  destruct (steps_preserve W (cache_inv W) cache_inv_process_only
              get_embedding_model_cache_inv _ _ Hsteps H0) as [Hkeyed Hinj].
  split.
  - intros name m H. apply (Hkeyed name m H).
  - intros name1 name2 m1 m2 Hne H1 H2 Hid. apply Hne. eapply Hinj; eauto.
Qed.

(** X4.  A load that fails is not remembered: the exception of the
    loader comes out as it is, the cache and the counter of identities
    are unchanged, and the next call for the same name loads again.
    Through [ask_question] the failure is HTTP 500 with the text of the
    loader. *)
Theorem failed_load_is_not_cached name (s : State W) e x :
  embedding_models s !! name = None ->
  load_model W name (outside s) = (Raise e, x) ->
  let s' := (get_embedding_model W name s).2 in
  (get_embedding_model W name s).1 = Raise e /\
  embedding_models s' = embedding_models s /\
  next_id s' = next_id s /\
  In (EvLoadModel name) (skipn (length (trace s')) (trace (get_embedding_model W name s').2)) /\
  (forall request,
     embedding_model request = name ->
     (ask_question W request s).1
     = Raise (HTTPException 500 (ASK_ERROR +:+ str_exn W e))).
Proof.
  intros Hmiss Hload. cbv zeta.
  rewrite (get_embedding_model_miss _ _ _ Hmiss), Hload. simpl.
  split; [reflexivity |]. split; [reflexivity |]. split; [reflexivity |]. split.
  - set (s' := after_load W name x s (embedding_models s) (next_id s)).
    assert (embedding_models s' !! name = None) as Hmiss' by exact Hmiss.
    rewrite (get_embedding_model_miss _ _ _ Hmiss').
    destruct (load_model W name (outside s')) as [[[] | e'] x']; simpl;
      rewrite drop_app_length; simpl; tauto.
  - intros request Hname. apply (try_as_500_raise ASK_ERROR).
    unfold bind. rewrite Hname, (get_embedding_model_miss _ _ _ Hmiss), Hload.
    reflexivity.
Qed.

End CacheInvariant.

(** ** The health endpoint (lines 394-412) *)

Section Health.
Context (W : World).

Lemma connect_milvus_keeps_cache host port (s : State W) :
  embedding_models (connect_milvus W host port s).2 = embedding_models s.
Proof.
  apply (connect_milvus_preserves W (fun s' => embedding_models s' = embedding_models s));
    [intros s1 x t H; exact H | reflexivity].
Qed.

(** X5.  [health_check] never fails and never answers "unhealthy": its
    status is "healthy" whatever the store does.  The [milvus] field is
    "connected" exactly when [connect_milvus] succeeded, "disconnected"
    otherwise, and the models listed are exactly the names in the cache;
    a model obtained before is listed. *)
Theorem health_check_is_always_healthy (s : State W) :
  exists milvus models,
    (health_check W s).1 = Ok (Healthy milvus models) /\
    (milvus = "connected" \/ milvus = "disconnected") /\
    (milvus = "connected" <->
     exists c s1, connect_milvus W MILVUS_HOST MILVUS_PORT s = (Ok c, s1)) /\
    (forall name, In name models <-> is_Some (embedding_models s !! name)) /\
    (forall name m s0, get_embedding_model W name s0 = (Ok m, s) -> In name models).
Proof.
  pose proof (connect_milvus_keeps_cache MILVUS_HOST MILVUS_PORT s) as Hcache.
  assert (Hmodels : forall name (c : gmap string Model),
            In name (map fst (map_to_list c)) <-> is_Some (c !! name)).
  { intros name c. rewrite in_map_iff. split.
    - intros ([k m] & <- & Hin). apply list_elem_of_In, elem_of_map_to_list in Hin.
      exists m. exact Hin.
    - intros [m Hm]. exists (name, m). split; [reflexivity |].
      apply list_elem_of_In, elem_of_map_to_list, Hm. }
  unfold health_check, try_except, bind, get_cache, ret.
  destruct (connect_milvus W MILVUS_HOST MILVUS_PORT s) as [[c | e] s1] eqn:Hconnect;
    simpl in *; eexists _, _; (split; [reflexivity |]).
  - split; [left; reflexivity |]. split; [| split].
    + split; [intros _; exists c, s1; reflexivity | reflexivity].
    + intros name. rewrite Hcache. apply Hmodels.
    + intros name m s0 Hget. apply Hmodels. rewrite Hcache.
      exists m. eapply get_embedding_model_ok, Hget.
  - split; [right; reflexivity |]. split; [| split].
    + split; [discriminate | intros (c & s2 & H); discriminate].
    + intros name. rewrite Hcache. apply Hmodels.
    + intros name m s0 Hget. apply Hmodels. rewrite Hcache.
      exists m. eapply get_embedding_model_ok, Hget.
Qed.

End Health.

(** ** Testing an address (lines 149-158) *)

Section TestConnection.
Context (W : World).
Variable milvus_disconnect : string -> ext W -> result unit * ext W.

Lemma split_on_length sep s : length (split_on sep s) = S (count_char sep s).
Proof.
  induction s as [| ch rest IH]; simpl; [reflexivity |].
  destruct (Ascii.eqb ch sep); simpl; [rewrite IH; reflexivity |].
  destruct (split_on sep rest) as [| part parts]; simpl in *; [discriminate | exact IH].
Qed.

Lemma split_on_join sep s : join (String sep EmptyString) (split_on sep s) = s.
Proof.
  induction s as [| ch rest IH]; simpl; [reflexivity |].
  destruct (Ascii.eqb ch sep) eqn:E; simpl.
  - apply Ascii.eqb_eq in E. subst ch.
    pose proof (split_on_length sep rest) as Hlen.
    destruct (split_on sep rest) as [| part parts]; [discriminate |].
    simpl in *. rewrite IH. reflexivity.
  - pose proof (split_on_length sep rest) as Hlen.
    destruct (split_on sep rest) as [| part parts]; [discriminate |].
    destruct parts as [| part' parts']; simpl in *; rewrite <- IH; reflexivity.
Qed.

(** X6.  An address is accepted only with exactly one colon.  Without a
    colon, or with more than one, [test_milvus_connection] answers HTTP
    500 with the text of the failed unpacking and makes no connection at
    all; with one colon it connects as "test" to the host before the
    colon and the port after it.  Every failure is HTTP 500. *)
Theorem test_milvus_connection_address request (x : ext W) :
  let run := test_milvus_connection W milvus_disconnect request x in
  (count_char ":"%char (milvus_host request) = 0 ->
   run = (Raise (HTTPException 500
                   (TEST_ERROR +:+ "not enough values to unpack (expected 2, got 1)")),
          x, [])) /\
  (1 < count_char ":"%char (milvus_host request) ->
   run = (Raise (HTTPException 500
                   (TEST_ERROR +:+ "too many values to unpack (expected 2)")),
          x, [])) /\
  (count_char ":"%char (milvus_host request) = 1 ->
   exists host port calls,
     milvus_host request = host +:+ ":" +:+ port /\
     run.2 = CallConnect "test" host port :: calls) /\
  (forall e, run.1.1 = Raise e ->
             exists cause, e = HTTPException 500 (TEST_ERROR +:+ str_exn W cause)).
Proof.
  cbv zeta. unfold test_milvus_connection.
  pose proof (split_on_length ":"%char (milvus_host request)) as Hlen.
  pose proof (split_on_join ":"%char (milvus_host request)) as Hjoin.
  destruct (split_on ":"%char (milvus_host request)) as [| a [| b [| c rest]]];
    simpl in Hlen; [discriminate | | |];
    (split; [| split; [| split]]); try (intros Hcount; exfalso; lia).
  - intros _. reflexivity.
  - simpl. intros e H. injection H as <-. eexists (PyException "ValueError" _). reflexivity.
  - intros _. simpl in Hjoin. simpl.
    destruct (milvus_connect W "test" a b x) as [[[] | e] x1];
      [destruct (milvus_disconnect "test" x1) as [[[] | e] x2] |];
      exists a, b; eexists; (split; [symmetry; exact Hjoin | reflexivity]).
  - simpl.
    destruct (milvus_connect W "test" a b x) as [[[] | e] x1];
      [destruct (milvus_disconnect "test" x1) as [[[] | e] x2] |];
      simpl; intros e' H; try discriminate; injection H as <-;
      exists e; reflexivity.
  - intros _. reflexivity.
  - simpl. intros e H. injection H as <-. eexists (PyException "ValueError" _). reflexivity.
Qed.

End TestConnection.

(** ** Text extraction (lines 120-147) *)

Section Extraction.
Context (W : World).

Lemma append_cons ch (a b : string) : String ch a +:+ b = String ch (a +:+ b).
Proof. reflexivity. Qed.

Lemma append_assoc_3 (a b c : string) : (a +:+ b) +:+ c = a +:+ b +:+ c.
Proof.
  induction a as [| ch a IH]; [reflexivity |].
  rewrite !append_cons, IH. reflexivity.
Qed.

Lemma append_nil_r (a : string) : a +:+ "" = a.
Proof.
  induction a as [| ch a IH]; [reflexivity |].
  rewrite append_cons, IH. reflexivity.
Qed.

(** The loops [text += piece] of lines 126-128 and 137-139 in closed form. *)
Lemma accumulate_text (piece : string -> string) (parts : list string) :
  forall text,
    fold_left (fun text part => text +:+ piece part) parts text
    = text +:+ join "" (map piece parts).
Proof.
  induction parts as [| p rest IH]; intros text.
  - simpl. rewrite append_nil_r. reflexivity.
  - cbn [fold_left map]. rewrite IH, append_assoc_3.
    destruct rest as [| q rest]; [simpl; rewrite append_nil_r |]; reflexivity.
Qed.

Lemma unsupported_type ty :
  ty ∉ SUPPORTED_TYPES ->
  String.eqb ty "pdf" = false /\ String.eqb ty "txt" = false /\ String.eqb ty "docx" = false.
Proof.
  intros Hnot. repeat split; apply String.eqb_neq; intros ->; apply Hnot;
    unfold SUPPORTED_TYPES; set_solver.
Qed.

Lemma extract_text_from_file_raises_400 path ty (s : State W) e :
  (extract_text_from_file W path ty s).1 = Raise e ->
  exists cause, e = HTTPException 400 (EXTRACT_ERROR +:+ str_exn W cause).
Proof.
  unfold extract_text_from_file, try_except.
  match goal with
  | |- (match ?body s with _ => _ end).1 = _ -> _ =>
      destruct (body s) as [[text | cause] s1]
  end; simpl; intros H; [discriminate |].
  injection H as <-. exists cause. reflexivity.
Qed.

(** X7.  [extract_text_from_file] fails with HTTP 400 only, whose detail
    is "Error extrayendo texto: " and the text of the cause.  A type
    other than "pdf", "txt" and "docx" (in these exact letters; "md" is
    not one of them) is refused without any file being read. *)
Theorem extract_text_from_file_failure path ty (s : State W) :
  (forall e, (extract_text_from_file W path ty s).1 = Raise e ->
     exists cause, e = HTTPException 400 (EXTRACT_ERROR +:+ str_exn W cause)) /\
  (ty ∉ SUPPORTED_TYPES ->
   let detail := EXTRACT_ERROR +:+ "Tipo de archivo no soportado: " +:+ ty in
   (extract_text_from_file W path ty s).1 = Raise (HTTPException 400 detail) /\
   trace (extract_text_from_file W path ty s).2 = trace s ++ [EvLog ERROR detail] /\
   outside (extract_text_from_file W path ty s).2 = outside s).
Proof.
  split.
  - intros e. apply extract_text_from_file_raises_400.
  - intros Hnot. destruct (unsupported_type ty Hnot) as (Hpdf & Htxt & Hdocx).
    unfold extract_text_from_file, try_except. rewrite Hpdf, Htxt, Hdocx.
    cbv zeta. simpl. repeat split; reflexivity.
Qed.

(** X8.  What a successful extraction returns: for "txt" the text read
    from the file; for "pdf" the texts of the pages, in order, one after
    the other with nothing between; for "docx" the paragraphs, in order,
    each followed by a line feed.  A document without page or paragraph
    gives the empty text. *)
Theorem extract_text_from_file_text path (s : State W) :
  (forall content x,
     read_text_utf8 W path (outside s) = (Ok content, x) ->
     (extract_text_from_file W path "txt" s).1 = Ok content) /\
  (forall pages x,
     pdf_page_texts W path (outside s) = (Ok pages, x) ->
     (extract_text_from_file W path "pdf" s).1 = Ok (join "" pages)) /\
  (forall paragraphs x,
     docx_paragraph_texts W path (outside s) = (Ok paragraphs, x) ->
     (extract_text_from_file W path "docx" s).1
     = Ok (join "" (map (fun paragraph => paragraph +:+ nl) paragraphs))).
Proof.
  split; [| split].
  - intros content x H. unfold extract_text_from_file, try_except, call. simpl.
    rewrite H. reflexivity.
  - intros pages x H. unfold extract_text_from_file, try_except, bind, call, ret. simpl.
    rewrite H. simpl.
    rewrite (accumulate_text (fun page => page) pages ""), map_id. reflexivity.
  - intros paragraphs x H.
    unfold extract_text_from_file, try_except, bind, call, ret. simpl.
    rewrite H. simpl.
    rewrite (accumulate_text (fun paragraph => paragraph +:+ nl) paragraphs "").
    reflexivity.
Qed.

End Extraction.

(** ** Ingestion, continued (lines 160-250) *)

Section Upload.
Context (W : World).

(** X9.  A file whose extension (what follows the last dot of its name,
    in lower case) is not pdf, txt, docx or md is refused with HTTP 400
    before anything is done: no temporary file, no call, no log, the
    state is as it was.  This is the only client fault of the endpoint:
    with a supported extension every failure is HTTP 500. *)
Theorem upload_document_extension file model (s : State W) :
  (extension_of file ∉ SUPPORTED_EXTENSIONS ->
   upload_document W file model s
   = (Raise (HTTPException 400 "Tipo de archivo no soportado"), s)) /\
  (extension_of file ∈ SUPPORTED_EXTENSIONS ->
   forall e, (upload_document W file model s).1 = Raise e ->
             exists cause, e = HTTPException 500 (UPLOAD_ERROR +:+ str_exn W cause)).
Proof.
  split.
  - intros Hnot. unfold upload_document. fold (extension_of file).
    rewrite (bool_decide_eq_false_2 _ Hnot). reflexivity.
  - intros Hext e. apply upload_document_raises_500, Hext.
Qed.

(** X10.  When the extraction fails, its HTTP 400 does not reach the
    caller: [upload_document] answers HTTP 500 whose detail wraps the text
    of the 400, after having logged the error and removed the temporary
    file; nothing else is called (no model, no store). *)
Theorem upload_document_extraction_failure file model (s : State W) path s1 e s2 :
  extension_of file ∈ SUPPORTED_EXTENSIONS ->
  write_upload W file s = (Ok path, s1) ->
  extract_text_from_file W path (extraction_type (extension_of file)) s1 = (Raise e, s2) ->
  (exists cause, e = HTTPException 400 (EXTRACT_ERROR +:+ str_exn W cause)) /\
  (upload_document W file model s).1
  = Raise (HTTPException 500 (UPLOAD_ERROR +:+ str_exn W e)) /\
  trace (upload_document W file model s).2
  = trace s2 ++ [EvLog ERROR (UPLOAD_ERROR +:+ str_exn W e); EvUnlink path].
Proof.
  intros Hext Hwrite Hextract. split.
  - apply (extract_text_from_file_raises_400 W path
             (extraction_type (extension_of file)) s1).
    rewrite Hextract. reflexivity.
  - destruct (upload_document W file model s) as [r st] eqn:Hrun.
    rewrite (upload_document_supported W file model s Hext) in Hrun.
    unfold bind at 1, try_except at 1 in Hrun. rewrite Hwrite in Hrun.
    unfold try_except at 1, process_upload in Hrun.
    fold (extraction_type (extension_of file)) in Hrun.
    unfold bind at 1 in Hrun. rewrite Hextract in Hrun.
    unfold bind, log, try_except, call, raise, ret in Hrun. simpl in Hrun.
    destruct (os_unlink W path (outside s2)) as [[[] | e1] x];
      injection Hrun as <- <-; simpl; rewrite <- ?app_assoc; split; reflexivity.
Qed.

Lemma append_inj_l (p a b : string) : p +:+ a = p +:+ b -> a = b.
Proof.
  induction p as [| ch p IH]; intros H; [exact H |].
  rewrite !append_cons in H. injection H as H. apply IH, H.
Qed.

Lemma chunk_id_of_inj document_id i j :
  chunk_id_of document_id i = chunk_id_of document_id j -> i = j.
Proof.
  unfold chunk_id_of. intros H.
  apply append_inj_l, append_inj_l in H. apply (inj pretty), H.
Qed.

Lemma chunk_ids_distinct document_id i n :
  NoDup (map (chunk_id_of document_id) (seq i n)).
Proof.
  apply NoDup_ListNoDup, Finite.Injective_map_NoDup; [| apply List.seq_NoDup].
  intros a b. apply chunk_id_of_inj.
Qed.

Lemma firsts_of_zip {A B} (l : list A) (k : list B) :
  map fst (zip l k) = take (length k) l.
Proof.
  revert k. induction l as [| a l IH]; intros [| b k]; simpl; try reflexivity.
  rewrite IH. reflexivity.
Qed.

Lemma length_zip {A B} (l : list A) (k : list B) :
  length (zip l k) = Nat.min (length l) (length k).
Proof.
  revert k. induction l as [| a l IH]; intros [| b k]; simpl; try reflexivity.
  rewrite IH. reflexivity.
Qed.

Lemma take_min {A} (l : list A) n : take (Nat.min (length l) n) l = take n l.
Proof.
  destruct (Nat.min_spec (length l) n) as [[Hlt ->] | [Hle ->]]; [| reflexivity].
  rewrite !take_ge; [reflexivity | lia | lia].
Qed.

(** The loop of lines 204-215 always ends, and fills the four lists in
    step: chunk [j] of the pairs is written at index [j], under the
    identifier of that index, with the metadata of that index. *)
Lemma prepare_chunks_spec document_id name pairs :
  forall i cols0 (s : State W),
  exists cols dates,
    (prepare_chunks W document_id name i pairs cols0 s).1 = Ok cols /\
    length dates = length pairs /\
    chunk_ids W cols
    = chunk_ids W cols0 ++ map (chunk_id_of document_id) (seq i (length pairs)) /\
    chunk_contents W cols = chunk_contents W cols0 ++ map fst pairs /\
    chunk_embeddings W cols = chunk_embeddings W cols0 ++ map snd pairs /\
    chunk_metadata W cols
    = chunk_metadata W cols0
      ++ zip_with (fun j date => json_dumps W (chunk_metadata_of name j date))
           (seq i (length pairs)) dates.
Proof.
  induction pairs as [| [chunk embedding] rest IH]; intros i cols0 s.
  - exists cols0, []. simpl. rewrite !app_nil_r. repeat split; reflexivity.
  - simpl. unfold bind, call_total, call.
    destruct (now_isoformat W (outside s)) as [date x]. simpl.
    match goal with
    | |- context [prepare_chunks W document_id name (S i) rest ?c ?st] =>
        destruct (IH (S i) c st) as (cols & dates & Hrun & Hlen & Hids & Hcs & Hes & Hms)
    end.
    exists cols, (date :: dates). simpl in *.
    rewrite Hrun, Hlen, Hids, Hcs, Hes, Hms, <- !app_assoc.
    repeat split; reflexivity.
Qed.

(** What a successful [process_upload] has done, read backwards. *)
Lemma process_upload_ok file model path extension (s1 : State W) response s' :
  process_upload W file model path extension s1 = (Ok response, s') ->
  exists text documents embeddings c document_id cols s6,
    split_text W CHUNK_SIZE CHUNK_OVERLAP text = Ok documents /\
    (prepare_chunks W document_id (filename file) 0 (zip documents embeddings)
       (no_columns W) s6).1 = Ok cols /\
    In (EvInsert c (entities_of W document_id cols)) (trace s') /\
    In (EvFlush c) (trace s') /\
    In (EvUnlink path) (trace s') /\
    response = {| ur_status := "success";
                  ur_document_id := document_id;
                  ur_filename := filename file;
                  chunks_count := length documents;
                  ur_message := "Documento procesado e indexado con "
                                +:+ pretty (length documents) +:+ " chunks" |}.
Proof.
  unfold process_upload. intros H.
  apply bind_ok in H as (text & s2 & _ & H).
  apply bind_ok in H as (documents & s3 & Hsplit & H).
  unfold lift in Hsplit. injection Hsplit as Hsplit _.
  apply bind_ok in H as (m & s4 & _ & H).
  apply bind_ok in H as (embeddings & s5 & _ & H).
  apply bind_ok in H as (c & s6 & _ & H).
  apply bind_ok in H as (document_id & s7 & _ & H).
  apply bind_ok in H as (cols & s8 & Hcols & H).
  apply bind_ok in H as ([] & s9 & Hinsert & H).
  apply bind_ok in H as ([] & s10 & Hflush & H).
  apply bind_ok in H as ([] & s11 & Hunlink & H).
  apply bind_ok in H as ([] & s12 & Hlog & H).
  unfold ret in H. injection H as <- <-.
  rewrite log_run in Hlog. injection Hlog as <-.
  apply call_ok in Hinsert as (Hi & _). apply call_ok in Hflush as (Hf & _).
  apply call_ok in Hunlink as (Hu & _).
  exists text, documents, embeddings, c, document_id, cols, s7.
  split; [exact Hsplit |]. split; [unfold no_columns; rewrite Hcols; reflexivity |].
  simpl. rewrite Hu, Hf, Hi, !in_app_iff. simpl.
  repeat split; tauto.
Qed.

(** X11.  Once the temporary file is written, [upload_document] asks for
    its removal before it answers, whether the request succeeds or
    fails. *)
Theorem upload_document_removes_temporary_file file model (s : State W) path s1 :
  extension_of file ∈ SUPPORTED_EXTENSIONS ->
  write_upload W file s = (Ok path, s1) ->
  In (EvUnlink path) (trace (upload_document W file model s).2).
Proof.
  intros Hext Hwrite. rewrite (upload_document_supported W file model s Hext).
  unfold bind at 1, try_except at 1. rewrite Hwrite. unfold try_except at 1.
  destruct (process_upload W file model path (extension_of file) s1)
    as [[response | e] s2] eqn:Hprocess.
  - apply process_upload_ok in Hprocess as (? & ? & ? & ? & ? & ? & ? & _ & _ & _ & _ & H & _).
    exact H.
  - unfold bind, log, try_except, call, raise, ret. simpl.
    destruct (os_unlink W path (outside s2)) as [[[] | e1] x]; simpl;
      rewrite !in_app_iff; simpl; tauto.
Qed.

(** What a successful run has added to the trace. *)
Lemma runs_ok (P : Event W -> Prop) {A} (m : M W A) s a s' :
  runs P m -> m s = (Ok a, s') ->
  kept_cache s s' /\ exists t, trace s' = trace s ++ t /\ Forall P t.
Proof. intros Hm H. specialize (Hm s). rewrite H in Hm. exact Hm. Qed.

Lemma extract_text_from_file_no_data path ty :
  runs (fun ev => ~ data_event W ev) (extract_text_from_file W path ty).
Proof. unfold extract_text_from_file. runs_all. Qed.

Lemma get_embedding_model_no_data name :
  runs (fun ev => ~ data_event W ev) (get_embedding_model W name).
Proof.
  eapply runs_weaken; [| apply get_embedding_model_runs].
  intros ev [-> | ->]; simpl; tauto.
Qed.

Lemma connect_milvus_no_data host port :
  runs (fun ev => ~ data_event W ev) (connect_milvus W host port).
Proof.
  eapply runs_weaken; [| apply connect_milvus_runs].
  intros ev; destruct ev; simpl; tauto.
Qed.

Lemma prepare_chunks_no_data document_id name pairs :
  forall i cols,
    runs (fun ev => ~ data_event W ev) (prepare_chunks W document_id name i pairs cols).
Proof.
  induction pairs as [| [chunk embedding] rest IH]; intros i cols; simpl.
  - apply runs_ret.
  - apply runs_bind; [apply runs_call_total; simpl; tauto | intros upload_date; apply IH].
Qed.

Lemma connect_milvus_handle host port (s : State W) c s' :
  connect_milvus W host port s = (Ok c, s') -> c = COLLECTION_NAME.
Proof.
  unfold connect_milvus, try_except, bind, call, log, ret, raise.
  each_call; intros H; try discriminate; injection H as <- <-; reflexivity.
Qed.

Lemma seconds_of_zip {A B} (l : list A) (k : list B) :
  map snd (zip l k) = take (length l) k.
Proof.
  revert k. induction l as [| a l IH]; intros [| b k]; simpl; try reflexivity.
  rewrite IH. reflexivity.
Qed.

Lemma take_min_l {A} (l : list A) n : take (Nat.min n (length l)) l = take n l.
Proof. rewrite Nat.min_comm. apply take_min. Qed.

(** A successful [process_upload], step by step. *)
Lemma process_upload_done file model path extension (s1 : State W) response s' :
  process_upload W file model path extension s1 = (Ok response, s') ->
  exists text s2 documents m embeddings document_id cols s7 before,
    extract_text_from_file W path (extraction_type extension) s1 = (Ok text, s2) /\
    split_text W CHUNK_SIZE CHUNK_OVERLAP text = Ok documents /\
    embedding_models s' !! model = Some m /\
    (exists x x', model_encode W m documents x = (Ok embeddings, x')) /\
    (prepare_chunks W document_id (filename file) 0 (zip documents embeddings)
       (no_columns W) s7).1 = Ok cols /\
    trace s'
    = trace s1 ++ before
      ++ [EvInsert COLLECTION_NAME (entities_of W document_id cols);
          EvFlush COLLECTION_NAME;
          EvUnlink path;
          EvLog INFO ("Documento " +:+ filename file +:+ " procesado: "
                      +:+ pretty (length documents) +:+ " chunks")] /\
    In (EvEncode m documents) before /\
    Forall (fun ev => ~ data_event W ev) before /\
    response = {| ur_status := "success";
                  ur_document_id := document_id;
                  ur_filename := filename file;
                  chunks_count := length documents;
                  ur_message := "Documento procesado e indexado con "
                                +:+ pretty (length documents) +:+ " chunks" |}.
Proof.
  unfold process_upload. fold (extraction_type extension). intros H.
  apply bind_ok in H as (text & s2 & Hextract & H).
  apply bind_ok in H as (documents & s3 & Hsplit & H).
  unfold lift in Hsplit. injection Hsplit as Hsplit <-.
  apply bind_ok in H as (m & s4 & Hget & H).
  apply bind_ok in H as (embeddings & s5 & Hencode & H).
  apply bind_ok in H as (c & s6 & Hconnect & H).
  apply bind_ok in H as (document_id & s7 & Huuid & H).
  apply bind_ok in H as (cols & s8 & Hcols & H).
  apply bind_ok in H as ([] & s9 & Hinsert & H).
  apply bind_ok in H as ([] & s10 & Hflush & H).
  apply bind_ok in H as ([] & s11 & Hunlink & H).
  apply bind_ok in H as ([] & s12 & Hlog & H).
  unfold ret in H. injection H as <- <-.
  rewrite log_run in Hlog. injection Hlog as <-.
  pose proof (connect_milvus_handle _ _ _ _ _ Hconnect) as ->.
  pose proof (get_embedding_model_ok _ _ _ _ _ Hget) as Hcached.
  destruct (runs_ok _ _ _ _ _ (extract_text_from_file_no_data _ _) Hextract)
    as (_ & t1 & Ht1 & Hq1).
  destruct (runs_ok _ _ _ _ _ (get_embedding_model_no_data _) Hget)
    as (_ & t2 & Ht2 & Hq2).
  apply call_ok in Hencode as (Ht5 & Hc5 & _ & Hencoded).
  destruct (runs_ok _ _ _ _ _ (connect_milvus_no_data _ _) Hconnect)
    as (Hk6 & t3 & Ht6 & Hq3).
  unfold call_total in Huuid. apply call_ok in Huuid as (Ht7 & Hc7 & _ & _).
  destruct (runs_ok _ _ _ _ _ (prepare_chunks_no_data _ _ _ _ _) Hcols)
    as (Hk8 & t4 & Ht8 & Hq4).
  apply call_ok in Hinsert as (Ht9 & Hc9 & _ & _).
  apply call_ok in Hflush as (Ht10 & Hc10 & _ & _).
  apply call_ok in Hunlink as (Ht11 & Hc11 & _ & _).
  exists text, s2, documents, m, embeddings, document_id, cols, s7,
    (t1 ++ t2 ++ [EvEncode m documents] ++ t3 ++ [EvUuid4] ++ t4).
  split; [exact Hextract |]. split; [exact Hsplit |].
  split.
  { simpl. rewrite Hc11, Hc10, Hc9. apply Hk8. rewrite Hc7. apply Hk6.
    rewrite Hc5. exact Hcached. }
  split; [eexists _, _; exact Hencoded |].
  split; [unfold no_columns; rewrite Hcols; reflexivity |].
  split.
  { simpl. rewrite Ht11, Ht10, Ht9, Ht8, Ht7, Ht6, Ht5, Ht2, Ht1.
    repeat (rewrite <- app_assoc || rewrite <- app_comm_cons); simpl.
    repeat (rewrite <- app_assoc || rewrite <- app_comm_cons); reflexivity. }
  split; [rewrite !in_app_iff; simpl; tauto |].
  split; [| reflexivity].
  repeat (apply Forall_app; split); try assumption;
    repeat constructor; simpl; tauto.
Qed.

(** X12.  A successful upload has read the text of the uploaded file,
    split it, had the model of the request encode the chunks, and then
    given the collection "documents" exactly one batch, flushed right
    after it: from the start of the request to the insertion nothing is
    written to the store or read from it, and after the flush only the
    temporary file is removed.  The batch has one row per pair of a chunk
    and a vector: row [i] has the identifier "<document_id>_chunk_<i>"
    (all distinct), the document identifier of the response, the [i]-th
    chunk, the [i]-th vector and the metadata of the file name and of
    index [i].  The response counts the chunks of the splitter, which is
    the number of rows only if the encoder gave a vector for each. *)
Theorem upload_document_batch file model (s : State W) response s' :
  extension_of file ∈ SUPPORTED_EXTENSIONS ->
  upload_document W file model s = (Ok response, s') ->
  exists path s1 text s2 documents m embeddings entities dates before,
    write_upload W file s = (Ok path, s1) /\
    extract_text_from_file W path (extraction_type (extension_of file)) s1 = (Ok text, s2) /\
    split_text W CHUNK_SIZE CHUNK_OVERLAP text = Ok documents /\
    embedding_models s' !! model = Some m /\
    (exists x x', model_encode W m documents x = (Ok embeddings, x')) /\
    trace s'
    = trace s ++ before
      ++ [EvInsert COLLECTION_NAME entities;
          EvFlush COLLECTION_NAME;
          EvUnlink path;
          EvLog INFO ("Documento " +:+ filename file +:+ " procesado: "
                      +:+ pretty (length documents) +:+ " chunks")] /\
    In (EvEncode m documents) before /\
    Forall (fun ev => ~ data_event W ev) before /\
    ur_status response = "success" /\
    ur_filename response = filename file /\
    chunks_count response = length documents /\
    length (en_ids entities) = Nat.min (length documents) (length embeddings) /\
    length dates = length (en_ids entities) /\
    en_ids entities
    = map (chunk_id_of (ur_document_id response)) (seq 0 (length (en_ids entities))) /\
    NoDup (en_ids entities) /\
    en_document_ids entities
    = replicate (length (en_ids entities)) (ur_document_id response) /\
    en_contents entities = take (length (en_ids entities)) documents /\
    en_embeddings entities = take (length (en_ids entities)) embeddings /\
    en_metadata entities
    = zip_with (fun i date => json_dumps W (chunk_metadata_of (filename file) i date))
        (seq 0 (length (en_ids entities))) dates.
Proof.
  intros Hext Hrun.
  destruct (upload_document_ok _ _ _ _ _ _ Hext Hrun) as (path & s1 & Hwrite & Hprocess).
  apply process_upload_done in Hprocess
    as (text & s2 & documents & m & embeddings & document_id & cols & s7 & before
        & Hextract & Hsplit & Hcached & Hencoded & Hcols & Htrace & Hin & Hquiet & ->).
  destruct (prepare_chunks_spec document_id (filename file) (zip documents embeddings)
              0 (no_columns W) s7) as (cols' & dates & Hrun' & Hlen & Hids & Hcs & Hes & Hms).
  rewrite Hcols in Hrun'. injection Hrun' as <-. simpl in Hids, Hcs, Hes, Hms.
  assert (length (chunk_ids W cols) = length (zip documents embeddings)) as Hn
    by (rewrite Hids, length_map, length_seq; reflexivity).
  pose proof Hwrite as Hw. unfold write_upload in Hw.
  apply call_ok in Hw as (Ht1 & _).
  exists path, s1, text, s2, documents, m, embeddings, (entities_of W document_id cols),
    dates, (EvWriteTemp ("." +:+ extension_of file) (file_content file) :: before).
  simpl. rewrite Hn.
  split; [exact Hwrite |]. split; [exact Hextract |]. split; [exact Hsplit |].
  split; [exact Hcached |]. split; [exact Hencoded |].
  split; [rewrite Htrace, Ht1, <- app_assoc; reflexivity |].
  split; [right; exact Hin |].
  split; [constructor; [simpl; tauto | exact Hquiet] |].
  split; [reflexivity |]. split; [reflexivity |]. split; [reflexivity |].
  split; [apply length_zip |]. split; [exact Hlen |].
  split; [exact Hids |]. split; [rewrite Hids; apply chunk_ids_distinct |].
  split; [reflexivity |].
  split; [rewrite Hcs, firsts_of_zip, length_zip; symmetry; apply take_min |].
  split; [rewrite Hes, seconds_of_zip, length_zip; symmetry; apply take_min_l | exact Hms].
Qed.

End Upload.

(** ** Retrieval, continued (lines 252-335) *)

Section Answer.
Context (W : World).

(** X13.  When the generation call succeeds, the answer is the content of
    its first choice as it is (the other choices are not looked at, nor
    are the result lists after the first); the response repeats the
    question and counts the matches, and its sources are the names
    collected from the matches, each once, in whatever order the set
    gives them. *)
Theorem ask_question_answer_verbatim
    request (s : State W) m data c s3 hit hits more x chunks srcs context content others x' :
  reaches_search W request s m data c s3 ->
  search W c (search_request W request data) (outside s3)
  = (Ok ((hit :: hits) :: more), x) ->
  collect_hits W (hit :: hits) [] [] = Ok (chunks, srcs) ->
  py_join (nl +:+ nl) chunks = Ok context ->
  chat_completions_create W (chat_request (build_prompt context (question request))) x
  = (Ok {| choices := content :: others |}, x') ->
  exists response,
    (ask_question W request s).1 = Ok response /\
    answer response = content /\
    context_chunks response = S (length hits) /\
    ar_question response = question request /\
    sources response ≡ₚ srcs.
Proof.
  intros Hreach Hsearch Hcollect Hjoin Hchat.
  rewrite (ask_question_from_search _ _ _ _ _ _ _ Hreach).
  unfold try_except, bind, run_search, call. rewrite Hsearch.
  unfold after_search, bind, lift. rewrite Hcollect, Hjoin.
  unfold call_llm, try_except, bind, call. simpl. rewrite Hchat. simpl.
  apply collect_hits_spec in Hcollect as (-> & _). simpl.
  eexists. split; [reflexivity |]. simpl.
  split; [reflexivity |]. split; [rewrite length_map; reflexivity |].
  split; [reflexivity | apply list_of_set_perm].
Qed.

Lemma collect_hits_unreadable hits hit e0 :
  In hit hits ->
  json_loads W (default "{}" (dict_get "metadata" hit)) = Raise e0 ->
  forall chunks0 srcs0, exists e, collect_hits W hits chunks0 srcs0 = Raise e.
Proof.
  induction hits as [| h rest IH]; intros Hin Hbad chunks0 srcs0; [destruct Hin |].
  simpl.
  destruct (json_loads W (default "{}" (dict_get "metadata" h))) as [md | e] eqn:Hload.
  - destruct Hin as [-> | Hin]; [congruence |].
    destruct (py_contains "document_name" md) as [[|] | e]; [| | eexists; reflexivity].
    + destruct (py_getitem md "document_name") as [v | e]; [| eexists; reflexivity].
      destruct (as_hashable v); [| eexists; reflexivity]. apply IH; assumption.
    + apply IH; assumption.
  - eexists. reflexivity.
Qed.

Lemma py_join_all_none parts :
  In None parts -> forall i, exists e, py_join_all i parts = Raise e.
Proof.
  induction parts as [| [p |] rest IH]; intros Hin i; [destruct Hin | |].
  - destruct Hin as [Hin | Hin]; [discriminate |].
    simpl. destruct (IH Hin (S i)) as [e ->]. eexists. reflexivity.
  - simpl. eexists. reflexivity.
Qed.

(** X14.  One unusable match fails the whole request, whatever the other
    matches are: the response is HTTP 500, and the LLM is not called
    (after the search only the error is logged). *)
Theorem ask_question_unusable_match
    request (s : State W) m data c s3 hits more x hit :
  reaches_search W request s m data c s3 ->
  search W c (search_request W request data) (outside s3) = (Ok (hits :: more), x) ->
  In hit hits ->
  unusable W hit ->
  exists cause,
    (ask_question W request s).1
    = Raise (HTTPException 500 (ASK_ERROR +:+ str_exn W cause)) /\
    trace (ask_question W request s).2
    = trace s3 ++ [EvSearch c (search_request W request data);
                   EvLog ERROR (ASK_ERROR +:+ str_exn W cause)].
Proof.
  intros Hreach Hsearch Hin Hbad.
  rewrite (ask_question_from_search _ _ _ _ _ _ _ Hreach).
  unfold try_except, bind, run_search, call. rewrite Hsearch.
  unfold after_search.
  destruct hits as [| h rest]; [destruct Hin |].
  unfold bind, lift.
  destruct (collect_hits W (h :: rest) [] []) as [[chunks srcs] | e] eqn:Hcollect.
  - destruct Hbad as [[e0 Hjson] | Hcontent].
    + destruct (collect_hits_unreadable _ _ _ Hin Hjson [] []) as [e He]. congruence.
    + apply collect_hits_spec in Hcollect as (-> & _).
      assert (In None (map (dict_get "content") (h :: rest))) as Hnone
        by (apply in_map_iff; exists hit; split; assumption).
      unfold py_join. destruct (py_join_all_none _ Hnone 0) as [e He].
      change ([] ++ map (dict_get "content") (h :: rest))
        with (map (dict_get "content") (h :: rest)).
      rewrite He. exists e. unfold as_500, bind, log, raise. simpl.
      rewrite <- app_assoc. split; reflexivity.
  - exists e. unfold as_500, bind, log, raise. simpl.
    rewrite <- app_assoc. split; reflexivity.
Qed.

End Answer.

(** ** Listing, continued (lines 337-369) *)

Section ListingMore.
Context (W : World).

Lemma ids_of_keyed (docs : list (string * DocumentInfo)) :
  (forall k d, In (k, d) docs -> di_id d = k) ->
  map di_id (map snd docs) = map fst docs.
Proof.
  induction docs as [| [k d] docs IH]; intros H; simpl; [reflexivity |].
  rewrite (H k d (or_introl eq_refl)), IH; [reflexivity |].
  intros k' d' Hin. apply H. right. exact Hin.
Qed.

(** Where the name and the date of an entry come from: from the entry
    that was there before the loop, or from the first row of its
    document. *)
Lemma group_documents_origin results :
  forall docs0 docs,
    group_documents W results docs0 = Ok docs ->
    forall k d,
      dict_get k docs = Some d ->
      (exists d0, dict_get k docs0 = Some d0 /\
                  di_name d = di_name d0 /\ di_upload_date d = di_upload_date d0) \/
      (dict_get k docs0 = None /\
       exists row, first_row_with k results = Some row /\
                   listed_as W (default "{}" (dict_get "metadata" row)) d).
Proof.
  induction results as [| row rest IH]; intros docs0 docs; simpl.
  - intros H. injection H as <-. intros k d Hd. left. exists d. auto.
  - destruct (dict_get "document_id" row) as [k0 |] eqn:Hid; [| discriminate].
    destruct (dict_get k0 docs0) as [d0 |] eqn:Hget.
    + rewrite Hget. fold (bump d0). intros Hrest k d Hd.
      destruct (IH _ _ Hrest k d Hd) as [(d1 & Hd1 & Hn & Hu) | (Hnone & row' & Hrow & Hl)].
      * left. destruct (String.eqb k0 k) eqn:E.
        -- apply String.eqb_eq in E as <-. rewrite dict_get_set_eq in Hd1.
           injection Hd1 as <-. exists d0. auto.
        -- apply String.eqb_neq in E. rewrite dict_get_set_ne in Hd1 by congruence.
           exists d1. auto.
      * right. destruct (String.eqb k0 k) eqn:E.
        -- apply String.eqb_eq in E as <-. rewrite dict_get_set_eq in Hnone. discriminate.
        -- apply String.eqb_neq in E as E'. rewrite dict_get_set_ne in Hnone by congruence.
           split; [exact Hnone |]. exists row'. split; [| exact Hl]. exact Hrow.
    + destruct (json_loads W (default "{}" (dict_get "metadata" row)))
        as [md | e] eqn:Hload; [| discriminate].
      destruct (py_get md "document_name" (JStr "Documento desconocido"))
        as [name | e] eqn:Hname; [| discriminate].
      destruct (py_get md "upload_date" (JStr "")) as [date | e] eqn:Hdate;
        [| discriminate].
      rewrite dict_get_set_eq.
      set (dnew := {| di_id := k0; di_name := name;
                      di_upload_date := date; di_chunks := 0 |}).
      fold (bump dnew). intros Hrest k d Hd.
      destruct (IH _ _ Hrest k d Hd) as [(d1 & Hd1 & Hn & Hu) | (Hnone & row' & Hrow & Hl)].
      * destruct (String.eqb k0 k) eqn:E.
        -- apply String.eqb_eq in E as <-. rewrite dict_get_set_eq in Hd1.
           injection Hd1 as <-. right. split; [exact Hget |].
           exists row. split; [reflexivity |].
           exists md. simpl in Hn, Hu. rewrite Hn, Hu. auto.
        -- apply String.eqb_neq in E. rewrite !dict_get_set_ne in Hd1 by congruence.
           left. exists d1. auto.
      * right. destruct (String.eqb k0 k) eqn:E.
        -- apply String.eqb_eq in E as <-. rewrite dict_get_set_eq in Hnone. discriminate.
        -- apply String.eqb_neq in E as E'. rewrite !dict_get_set_ne in Hnone by congruence.
           split; [exact Hnone |]. exists row'. split; [| exact Hl]. exact Hrow.
Qed.

(** X15.  The listing has one entry per document identifier found in the
    returned rows, and no other: the identifiers listed are distinct and
    are exactly those of the rows.  The name and the upload date of an
    entry are read in the metadata of the first returned row of the
    document, with "Documento desconocido" and the empty text for a
    missing key. *)
Theorem list_documents_entries (s : State W) c s1 results x docs s' :
  connect_milvus W MILVUS_HOST MILVUS_PORT s = (Ok c, s1) ->
  query W c LIST_EXPR LIST_FIELDS 1000 (outside s1) = (Ok results, x) ->
  list_documents W s = (Ok docs, s') ->
  NoDup (map di_id docs) /\
  (forall k, In k (map di_id docs) <-> 0 < rows_with k results) /\
  (forall d, In d docs ->
     exists row, first_row_with (di_id d) results = Some row /\
                 listed_as W (default "{}" (dict_get "metadata" row)) d).
Proof.
  intros Hconnect Hquery.
  unfold list_documents, try_except, bind, call. rewrite Hconnect.
  change (query W c LIST_EXPR ["document_id"; "metadata"] LIST_LIMIT (outside s1))
    with (query W c LIST_EXPR LIST_FIELDS 1000 (outside s1)).
  rewrite Hquery. unfold lift, ret.
  destruct (group_documents W results []) as [grouped | e] eqn:Hgroup;
    [| unfold bind, log, raise; discriminate].
  intros H. injection H as <- <-.
  assert (keyed []) as Hnil by (split; [constructor | intros k d []]).
  destruct (group_documents_spec _ _ _ _ Hnil Hgroup) as ([Hnd Hids] & _ & Hchunks & Hkeys).
  rewrite (ids_of_keyed _ Hids).
  split; [exact Hnd |]. split.
  - intros k. split.
    + intros Hk. destruct (Hkeys k Hk) as [[] | Hpos]. exact Hpos.
    + intros Hpos. specialize (Hchunks k). unfold chunks_of in Hchunks.
      destruct (dict_get k grouped) as [d |] eqn:Hget; [| simpl in Hchunks; lia].
      apply dict_get_In in Hget. apply in_map_iff. exists (k, d). split; [reflexivity | exact Hget].
  - intros d Hd. apply in_map_iff in Hd as ([k d'] & Heq & Hin). simpl in Heq. subst d'.
    pose proof (Hids _ _ Hin) as Hid. rewrite Hid.
    pose proof (In_dict_get _ _ _ Hnd Hin) as Hget.
    destruct (group_documents_origin _ _ _ Hgroup k d Hget)
      as [(d0 & Hd0 & _) | (_ & row & Hrow & Hl)]; [discriminate |].
    exists row. split; assumption.
Qed.

Lemma group_documents_missing_id results row :
  In row results ->
  dict_get "document_id" row = None ->
  forall docs0, exists e, group_documents W results docs0 = Raise e.
Proof.
  induction results as [| r rest IH]; intros Hin Hnone docs0; [destruct Hin |].
  simpl. destruct (dict_get "document_id" r) as [k0 |] eqn:Hid;
    [| eexists; reflexivity].
  destruct Hin as [-> | Hin]; [congruence |].
  destruct (dict_get k0 docs0) as [d0 |] eqn:Hget.
  - rewrite Hget. apply IH; assumption.
  - destruct (json_loads W _) as [md | e]; [| eexists; reflexivity].
    destruct (py_get md "document_name" _) as [name | e]; [| eexists; reflexivity].
    destruct (py_get md "upload_date" _) as [date | e]; [| eexists; reflexivity].
    rewrite dict_get_set_eq. apply IH; assumption.
Qed.

(** X16.  An empty collection is listed as the empty list, with success
    (it is not an error, unlike an empty search).  A returned row
    without [document_id] fails the whole listing with HTTP 500. *)
Theorem list_documents_edges (s : State W) c s1 results x :
  connect_milvus W MILVUS_HOST MILVUS_PORT s = (Ok c, s1) ->
  query W c LIST_EXPR LIST_FIELDS 1000 (outside s1) = (Ok results, x) ->
  (results = [] -> (list_documents W s).1 = Ok []) /\
  ((exists row, In row results /\ dict_get "document_id" row = None) ->
   exists cause,
     (list_documents W s).1 = Raise (HTTPException 500 (LIST_ERROR +:+ str_exn W cause))).
Proof.
  intros Hconnect Hquery.
  assert (Hrun : forall r,
            group_documents W results [] = r ->
            (list_documents W s).1
            = match r with
              | Ok grouped => Ok (map snd grouped)
              | Raise e => Raise (HTTPException 500 (LIST_ERROR +:+ str_exn W e))
              end).
  { intros r <-. unfold list_documents, try_except, bind, call. rewrite Hconnect.
    change (query W c LIST_EXPR ["document_id"; "metadata"] LIST_LIMIT (outside s1))
      with (query W c LIST_EXPR LIST_FIELDS 1000 (outside s1)).
    rewrite Hquery. unfold lift, ret.
    destruct (group_documents W results []); reflexivity. }
  split.
  - intros ->. apply (Hrun (Ok [])). reflexivity.
  - intros (row & Hin & Hnone).
    destruct (group_documents_missing_id _ _ Hin Hnone []) as [e He].
    exists e. apply (Hrun (Raise e)), He.
Qed.

End ListingMore.

Ltac in_trace := vm_compute; repeat (first [left; reflexivity | right]).

Ltac reached :=
  unfold reaches_search; eexists _, _;
  split; [vm_compute; reflexivity | split; vm_compute; reflexivity].

Module Examples.
Import Mem Scenario.

(** *** The pure helpers on small inputs *)

Example extension_of_mixed_case :
  extension_of {| filename := "Informe.Final.PDF"; file_content := "" |} = "pdf".
Proof. reflexivity. Qed.

Example extension_of_no_dot :
  extension_of {| filename := "README"; file_content := "" |} = "readme".
Proof. reflexivity. Qed.

Example join_two : join (nl +:+ nl) ["uno"; "dos"] = "uno" +:+ nl +:+ nl +:+ "dos".
Proof. reflexivity. Qed.

Example str_take_short : str_take 500 "abc" = "abc".
Proof. reflexivity. Qed.

Example str_take_long : str_take 3 "abcdef" = "abc".
Proof. reflexivity. Qed.

Example set_add_true_is_one : set_add (HInt 1) [HBool true; HStr "a"] = [HBool true; HStr "a"].
Proof. reflexivity. Qed.

Example set_add_new : set_add (HStr "b") [HStr "a"] = [HStr "a"; HStr "b"].
Proof. reflexivity. Qed.

Example loads_dumps_metadata :
  loads (dumps (chunk_metadata_of "a.txt" 3 "2024-01-01T00:00:00"))
  = Ok (chunk_metadata_of "a.txt" 3 "2024-01-01T00:00:00").
Proof. vm_compute. reflexivity. Qed.

Example loads_empty_object : loads "{}" = Ok (JDict []).
Proof. reflexivity. Qed.

Example loads_garbage :
  loads "no json" = Raise (PyException "JSONDecodeError" "Expecting value").
Proof. reflexivity. Qed.

(** The splitter of the reference world on the scenario of the
    specification: 2500 characters give three chunks of at most 1000,
    each starting 800 characters after the previous one. *)
Example split_2500 :
  match split CHUNK_SIZE CHUNK_OVERLAP (string_of_list_ascii (repeat "x"%char 2500)) with
  | Ok chunks => map py_len chunks = [1000; 1000; 900]
  | Raise _ => False
  end.
Proof. vm_compute. reflexivity. Qed.

Example split_empty : split CHUNK_SIZE CHUNK_OVERLAP "" = Ok [].
Proof. reflexivity. Qed.

(** The scenario of the specification: "facts.txt" is ingested, then asked
    about with [top_k = 2]; the sources are the one file. *)
Example ask_after_upload :
  (ask_question world default_question uploaded).1
  = Ok {| answer := Some "Respuesta generada";
          sources := [HStr "facts.txt"];
          context_chunks := 1;
          ar_question := "What is X?" |}.
Proof. vm_compute. reflexivity. Qed.

(** *** Ingestion *)



(** The request names a model of dimension 768; the collection is
    created with dimension 384 and receives a vector of length 768. *)
Lemma upload_document_creates_dimension_384_witness :
  dim_of MPNET_MODEL = 768 /\
  map (fun r => length (r_embedding r)) (rows (outside mpnet_upload.2)) = [768] /\
  In (EvCreateCollection COLLECTION_NAME collection_schema) (trace mpnet_upload.2) /\
  (In (EvCreateCollection COLLECTION_NAME collection_schema) (trace (boot fresh)) \/
   (COLLECTION_NAME = COLLECTION_NAME /\ schema_dim collection_schema = Some 384)).
Proof.
  split; [reflexivity |]. split; [vm_compute; reflexivity |].
  assert (In (EvCreateCollection COLLECTION_NAME collection_schema) (trace mpnet_upload.2))
    as Hcreated by in_trace.
  split; [exact Hcreated |].
  exact (upload_document_creates_dimension_384 world facts_file MPNET_MODEL (boot fresh)
           COLLECTION_NAME collection_schema Hcreated).
Defined.

(** *** Retrieval *)

(** C2 fails on the code.  The collection has dimension 384 and the
    model of the request has dimension 2.  The store is searched with
    the vector of length 2: a store that checks nothing answers and the
    request succeeds; a store that checks raises, and its message comes
    back as a plain HTTP 500. *)
Lemma ask_question_searches_despite_dimension :
  collection_dim (holding one_row) = Some 384 /\
  dim_of TINY_MODEL = 2 /\
  In (EvSearch COLLECTION_NAME tiny_search) (trace (ask_tiny (holding one_row)).2) /\
  (ask_tiny (holding one_row)).1
  = Ok {| answer := Some "Respuesta generada";
          sources := [HStr "facts.txt"];
          context_chunks := 1;
          ar_question := "What is X?" |} /\
  In (EvSearch COLLECTION_NAME tiny_search) (trace (ask_tiny (strict (holding one_row))).2) /\
  (ask_tiny (strict (holding one_row))).1
  = Raise (HTTPException 500 "Error procesando pregunta: vector dimension mismatch").
Proof.
  split; [reflexivity |]. split; [reflexivity |].
  split; [in_trace |]. split; [vm_compute; reflexivity |].
  split; [in_trace | vm_compute; reflexivity].
Qed.

(** The theorem of C2 on that request, with the store that checks. *)
Lemma ask_question_searches_whatever_the_dimension_witness :
  In (EvSearch COLLECTION_NAME tiny_search) (trace (ask_tiny (strict (holding one_row))).2) /\
  sr_data tiny_search = [[0; 0]] /\
  (forall cause x,
     search world COLLECTION_NAME tiny_search
       (outside (at_search tiny_question (strict (holding one_row)))) = (Raise cause, x) ->
     (ask_tiny (strict (holding one_row))).1
     = Raise (HTTPException 500 (ASK_ERROR +:+ str_exn world cause))).
Proof.
  apply (ask_question_searches_whatever_the_dimension world tiny_question
           (boot (strict (holding one_row))) (first_model TINY_MODEL) [[0; 0]]
           COLLECTION_NAME (at_search tiny_question (strict (holding one_row))) 384).
  - reached.
  - apply Exists_cons_hd. simpl. lia.
Defined.

(** C4 fails on the code.  With [top_k = 0] the request is not turned
    away at the door: the question is encoded and the store is searched,
    with [limit = 0]. *)
Lemma ask_question_top_k_zero_not_rejected :
  top_k zero_question = 0%Z /\
  In (EvEncode default_model ["What is X?"]) (trace ask_zero.2) /\
  In (EvSearch COLLECTION_NAME zero_search) (trace ask_zero.2) /\
  sr_limit zero_search = 0%Z.
Proof.
  split; [reflexivity |]. split; [in_trace |]. split; [in_trace | reflexivity].
Qed.

(** The theorem of C4 on a request with a negative [top_k]. *)
Lemma ask_question_nonpositive_top_k_witness :
  In (EvEncode default_model ["What is X?"]) (trace ask_negative.2) /\
  In (EvSearch COLLECTION_NAME negative_search) (trace ask_negative.2) /\
  sr_limit negative_search = (-3)%Z.
Proof.
  apply (ask_question_nonpositive_top_k world negative_question (boot (holding one_row))
           default_model default_vector COLLECTION_NAME
           (at_search negative_question (holding one_row))).
  - simpl. lia.
  - reached.
Defined.

(** C5 fails on the code as stated.  The context is shorter than 500
    characters; the answer is the prefix, the context and three dots,
    which is not the prefix followed by the context. *)
Lemma ask_question_fallback_ends_with_dots :
  str_take 500 "X es la respuesta." = "X es la respuesta." /\
  exists response,
    ask_without_llm.1 = Ok response /\
    answer response = Some (FALLBACK_PREFIX +:+ "X es la respuesta." +:+ "...") /\
    answer response <> Some (FALLBACK_PREFIX +:+ str_take 500 "X es la respuesta.").
Proof.
  split; [reflexivity |]. eexists.
  split; [vm_compute; reflexivity |]. split; [reflexivity |].
  vm_compute. intros H. discriminate H.
Qed.

(** A context of 600 characters is cut at 500 before the dots. *)
Example fallback_answer_of_long_context :
  py_len (fallback_answer (string_of_list_ascii (repeat "x"%char 600)))
  = py_len FALLBACK_PREFIX + 500 + 3.
Proof. vm_compute. reflexivity. Qed.

(** The cut counts characters: of 300 accented letters, two bytes each,
    an empty line and 300 plain letters, it keeps the accented letters,
    the empty line and 198 plain letters, which are 500 characters in 800
    bytes. *)
Example str_take_accented :
  py_len accented_chunk = 300 /\
  str_take 500 accented_chunk = accented_chunk /\
  py_len accented_context = 602 /\
  String.length accented_context = 902 /\
  str_take 500 accented_context = accented_cut /\
  py_len accented_cut = 500 /\
  String.length accented_cut = 800.
Proof. repeat split; vm_compute; reflexivity. Qed.

(** The theorem of C5 on a context longer than 500 characters, with
    accented letters before the cut. *)
Lemma ask_question_fallback_witness :
  (exists response,
     ask_accented.1 = Ok response /\
     answer response
     = Some (FALLBACK_PREFIX +:+ str_take 500 accented_context +:+ "...")) /\
  py_len (str_take 500 accented_context) = Nat.min 500 (py_len accented_context) /\
  (exists rest,
     accented_context = str_take 500 accented_context +:+ rest /\ at_boundary rest) /\
  (py_len accented_context <= 500 -> str_take 500 accented_context = accented_context).
Proof.
  apply (ask_question_fallback world default_question
           (boot (llm_down (holding accented_rows)))
           default_model default_vector COLLECTION_NAME
           (at_search default_question (llm_down (holding accented_rows)))
           (row_of (chunk_row "doc-0" "acentos.txt" 0 accented_chunk 384))
           [row_of (chunk_row "doc-0" "acentos.txt" 1 plain_chunk 384)] []
           (llm_down (holding accented_rows))
           [Some accented_chunk; Some plain_chunk] [HStr "acentos.txt"]).
  - reached.
  - vm_compute. reflexivity.
  - vm_compute. reflexivity.
  - vm_compute. reflexivity.
  - vm_compute. exact I.
Defined.

(** The failing input of C6: a question put to an empty collection. *)
Lemma ask_question_no_match_is_500_witness :
  (ask_default (holding [])).1
  = Raise (HTTPException 500 (ASK_ERROR +:+ http_exception_str world 404 NO_MATCH)).
Proof.
  apply (ask_question_no_match_is_500 world default_question (boot (holding []))
           default_model default_vector COLLECTION_NAME
           (at_search default_question (holding [])) [[]] (holding [])).
  - reached.
  - vm_compute. reflexivity.
  - right. exists []. reflexivity.
Defined.

(** Three matches from two documents: the context is the three
    contents in the order of the store, the sources are the two names,
    in one order or the other. *)
Lemma ask_question_context_and_sources_witness :
  exists response,
    ask_wide.1 = Ok response /\
    sources response ≡ₚ [HStr "a.txt"; HStr "b.txt"] /\
    exists contents,
      map (dict_get "content") (map row_of three_rows) = map Some contents /\
      In (EvChat (chat_request
                    (build_prompt (join (nl +:+ nl) contents) (question wide_question))))
         (trace ask_wide.2) /\
      context_chunks response = length (map row_of three_rows) /\
      py_distinct (sources response) /\
      (forall h, In h (sources response) ->
         exists hit, In hit (map row_of three_rows) /\ document_name_of world hit = Some h) /\
      (forall hit h, In hit (map row_of three_rows) ->
         document_name_of world hit = Some h ->
         exists h', In h' (sources response) /\ py_eqb h h' = true).
Proof.
  exists wide_response.
  split; [vm_compute; reflexivity |]. split; [reflexivity |].
  apply (ask_question_context_and_sources world wide_question (boot (holding three_rows))
           default_model default_vector COLLECTION_NAME
           (at_search wide_question (holding three_rows))
           (map row_of three_rows) [] (holding three_rows) wide_response ask_wide.2).
  - reached.
  - vm_compute. reflexivity.
  - vm_compute. reflexivity.
Defined.

(** *** The cache *)

(** A first call, an upload and a question later, the same object is
    returned and the state does not move. *)
Lemma get_embedding_model_same_instance_witness :
  embedding_models asked !! DEFAULT_EMBEDDING_MODEL = Some (default_model) /\
  get_embedding_model world DEFAULT_EMBEDDING_MODEL asked = (Ok (default_model), asked).
Proof.
  apply (get_embedding_model_same_instance world DEFAULT_EMBEDDING_MODEL (boot fresh) loaded asked).
  - vm_compute. reflexivity.
  - apply (rtc_l _ _ uploaded); [apply step_upload |].
    apply (rtc_l _ _ asked); [apply step_ask | apply rtc_refl].
Defined.

(** *** Listing and deleting *)

(** 1002 chunks are indexed.  The listing counts 1000 of them: the
    second document, which has two chunks, is listed with one, and the
    third document is not listed. *)
Lemma list_documents_reads_at_most_1000_rows_witness :
  length (rows (holding many_rows)) = 1002 /\
  stored_chunks "doc-B" (holding many_rows) = 2 /\
  stored_chunks "doc-C" (holding many_rows) = 1 /\
  listing.1 = Ok listed /\
  In (EvQuery COLLECTION_NAME LIST_EXPR LIST_FIELDS 1000) (trace listing.2) /\
  total_chunks listed = length returned_rows /\
  (forall d, In d listed ->
             di_chunks d = rows_with (di_id d) returned_rows /\ 0 < di_chunks d) /\
  (length returned_rows <= 1000 -> total_chunks listed <= 1000 /\ length listed <= 1000).
Proof.
  split; [vm_compute; reflexivity |].
  split; [vm_compute; reflexivity |].
  split; [vm_compute; reflexivity |].
  split; [vm_compute; reflexivity |].
  apply (list_documents_reads_at_most_1000_rows world (boot (holding many_rows))
           COLLECTION_NAME
           (connect_milvus world MILVUS_HOST MILVUS_PORT (boot (holding many_rows))).2
           returned_rows (holding many_rows) listed listing.2).
  - vm_compute. reflexivity.
  - vm_compute. reflexivity.
  - vm_compute. reflexivity.
Defined.

(** An identifier that no ingestion produced is deleted "with success",
    and the store still holds what it held. *)
Lemma delete_document_never_checks_witness :
  delete_unknown.1
  = Ok {| dr_status := "success"; dr_message := "Documento never-ingested eliminado" |} /\
  rows (outside delete_unknown.2) = one_row.
Proof.
  split; [| vm_compute; reflexivity].
  apply (proj1 (delete_document_never_checks world "never-ingested"
                  (boot (holding one_row)))
           COLLECTION_NAME
           (connect_milvus world MILVUS_HOST MILVUS_PORT (boot (holding one_row))).2
           (holding one_row)).
  - vm_compute. reflexivity.
  - vm_compute. reflexivity.
Defined.
End Examples.

Module MoreExamples.
Import Mem Scenario MoreScenario.

(** *** The collection *)

(** On an empty store the collection is created with the schema of the
    module; on a store that holds one it is not created again. *)
Lemma connect_milvus_outcome_witness :
  In (EvCreateCollection COLLECTION_NAME collection_schema) (trace (connected fresh)) /\
  (forall ev, In ev (trace (connected (holding one_row))) ->
              In ev (trace (boot (holding one_row))) \/ ~ is_create world ev).
Proof.
  split.
  - apply (proj2 (proj2 (connect_milvus_outcome world MILVUS_HOST MILVUS_PORT (boot fresh)))
             fresh fresh false); vm_compute; reflexivity.
  - apply (proj2 (proj2 (connect_milvus_outcome world MILVUS_HOST MILVUS_PORT
                           (boot (holding one_row))))
             (holding one_row) (holding one_row) true); vm_compute; reflexivity.
Defined.

(** With a store that refuses the connection, the two endpoints answer
    the nested message. *)
Lemma store_unreachable_witness :
  (list_documents (Faulty.world Faulty.store_down) (Faulty.boot Faulty.store_down fresh)).1
  = Raise (HTTPException 500
             "Error listando documentos: 500: Error conectando a Milvus: Fail connecting to server") /\
  (delete_document (Faulty.world Faulty.store_down) "doc-0"
     (Faulty.boot Faulty.store_down fresh)).1
  = Raise (HTTPException 500
             "Error eliminando documento: 500: Error conectando a Milvus: Fail connecting to server").
Proof.
  destruct (store_unreachable (Faulty.world Faulty.store_down) "doc-0"
              (Faulty.boot Faulty.store_down fresh) connect_error after_refusal)
    as (Hlist & Hdelete & _).
  - vm_compute. reflexivity.
  - split; [exact Hlist | exact Hdelete].
Defined.

(** *** The cache *)

Example two_models_cached :
  embedding_models two_models !! DEFAULT_EMBEDDING_MODEL
  = Some {| model_id := 0; model_name := DEFAULT_EMBEDDING_MODEL |} /\
  embedding_models two_models !! TINY_MODEL
  = Some {| model_id := 1; model_name := TINY_MODEL |}.
Proof. split; vm_compute; reflexivity. Qed.

(** After two models were obtained, each is under its own name. *)
Lemma cache_entries_are_their_own_witness :
  (forall name m, embedding_models two_models !! name = Some m -> model_name m = name) /\
  (forall name1 name2 m1 m2,
     name1 <> name2 ->
     embedding_models two_models !! name1 = Some m1 ->
     embedding_models two_models !! name2 = Some m2 ->
     model_id m1 <> model_id m2).
Proof.
  apply (cache_entries_are_their_own world (boot fresh) two_models).
  - reflexivity.
  - apply (rtc_l _ _ one_model); [apply step_get |].
    apply (rtc_l _ _ two_models); [apply step_get | apply rtc_refl].
Defined.

(** The loader does not know the model: nothing is cached and the
    question is answered with HTTP 500. *)
Lemma failed_load_is_not_cached_witness :
  (get_embedding_model (Faulty.world Faulty.no_model) DEFAULT_EMBEDDING_MODEL
     (Faulty.boot Faulty.no_model fresh)).1 = Raise loader_error /\
  embedding_models
    (get_embedding_model (Faulty.world Faulty.no_model) DEFAULT_EMBEDDING_MODEL
       (Faulty.boot Faulty.no_model fresh)).2 = ∅ /\
  (ask_question (Faulty.world Faulty.no_model) default_question
     (Faulty.boot Faulty.no_model fresh)).1
  = Raise (HTTPException 500
             ("Error procesando pregunta: " +:+ DEFAULT_EMBEDDING_MODEL
              +:+ " is not a valid model identifier")).
Proof.
  destruct (failed_load_is_not_cached (Faulty.world Faulty.no_model)
              DEFAULT_EMBEDDING_MODEL (Faulty.boot Faulty.no_model fresh)
              loader_error fresh)
    as (Hraise & Hcache & _ & _ & Hask).
  - reflexivity.
  - vm_compute. reflexivity.
  - split; [exact Hraise |]. split; [exact Hcache |].
    apply (Hask default_question). reflexivity.
Defined.

(** *** The other endpoints *)

(** The store refuses the connection and the service is "healthy". *)
Example health_check_store_down :
  (health_check (Faulty.world Faulty.store_down) (Faulty.boot Faulty.store_down fresh)).1
  = Ok (Healthy "disconnected" []).
Proof. vm_compute. reflexivity. Qed.

Example health_check_lists_models :
  exists models,
    (health_check world two_models).1 = Ok (Healthy "connected" models) /\
    In DEFAULT_EMBEDDING_MODEL models /\ In TINY_MODEL models /\ length models = 2.
Proof. eexists. split; [vm_compute; reflexivity |]. simpl. tauto. Qed.

(** An address without port, an IPv6 address, and the usual one. *)
Lemma test_milvus_connection_address_witness :
  test_address "localhost"
  = (Raise (HTTPException 500
              "Error conectando a Milvus: not enough values to unpack (expected 2, got 1)"),
     fresh, []) /\
  test_address "::1:19530"
  = (Raise (HTTPException 500
              "Error conectando a Milvus: too many values to unpack (expected 2)"),
     fresh, []) /\
  exists host port calls,
    "localhost:19530" = host +:+ ":" +:+ port /\
    (test_address "localhost:19530").2 = CallConnect "test" host port :: calls.
Proof.
  split; [| split].
  - apply (proj1 (test_milvus_connection_address world disconnect_ok
                    {| milvus_host := "localhost" |} fresh)).
    reflexivity.
  - apply (proj1 (proj2 (test_milvus_connection_address world disconnect_ok
                           {| milvus_host := "::1:19530" |} fresh))).
    vm_compute. lia.
  - apply (proj1 (proj2 (proj2 (test_milvus_connection_address world disconnect_ok
                                  {| milvus_host := "localhost:19530" |} fresh)))).
    reflexivity.
Defined.

Example test_milvus_connection_success :
  test_address "localhost:19530"
  = (Ok {| tr_status := "success"; tr_message := "Conexión a Milvus exitosa" |}, fresh,
     [CallConnect "test" "localhost" "19530"; CallDisconnect "test"]).
Proof. reflexivity. Qed.

(** *** Extraction *)

(** "md" is accepted by the upload and refused by the extraction. *)
Lemma extract_text_from_file_failure_witness :
  "md" ∈ SUPPORTED_EXTENSIONS /\
  (extract_text_from_file world "/tmp/upload.md" "md" (boot fresh)).1
  = Raise (HTTPException 400 "Error extrayendo texto: Tipo de archivo no soportado: md") /\
  outside (extract_text_from_file world "/tmp/upload.md" "md" (boot fresh)).2 = fresh.
Proof.
  split; [apply (bool_decide_unpack _); vm_compute; exact I |].
  destruct (proj2 (extract_text_from_file_failure world "/tmp/upload.md" "md" (boot fresh)))
    as (Hraise & _ & Hout).
  - apply (bool_decide_unpack _). vm_compute. exact I.
  - split; [exact Hraise | exact Hout].
Defined.

(** The text of a file of one part. *)
Lemma extract_text_from_file_text_witness :
  (extract_text_from_file world "/tmp/upload.txt" "txt" facts_written).1
  = Ok "X es la respuesta." /\
  (extract_text_from_file world "/tmp/upload.txt" "pdf" facts_written).1
  = Ok "X es la respuesta." /\
  (extract_text_from_file world "/tmp/upload.txt" "docx" facts_written).1
  = Ok ("X es la respuesta." +:+ nl).
Proof.
  destruct (extract_text_from_file_text world "/tmp/upload.txt" facts_written)
    as (Htxt & Hpdf & Hdocx).
  split; [| split].
  - apply (Htxt "X es la respuesta." (outside facts_written)). vm_compute. reflexivity.
  - apply (Hpdf ["X es la respuesta."] (outside facts_written)). vm_compute. reflexivity.
  - apply (Hdocx ["X es la respuesta."] (outside facts_written)). vm_compute. reflexivity.
Defined.

(** *** Ingestion *)

(** A program is refused and nothing has happened. *)
Lemma upload_document_extension_witness :
  extension_of program_file = "exe" /\
  upload_document world program_file DEFAULT_EMBEDDING_MODEL (boot fresh)
  = (Raise (HTTPException 400 "Tipo de archivo no soportado"), boot fresh).
Proof.
  split; [reflexivity |].
  apply (proj1 (upload_document_extension world program_file DEFAULT_EMBEDDING_MODEL
                  (boot fresh))).
  apply (bool_decide_unpack _). vm_compute. exact I.
Defined.

(** A PDF that cannot be read: the caller sees a 500 that quotes the
    400. *)
Lemma upload_document_extraction_failure_witness :
  (upload_document (Faulty.world Faulty.bad_pdf) report_file DEFAULT_EMBEDDING_MODEL
     (Faulty.boot Faulty.bad_pdf fresh)).1
  = Raise (HTTPException 500
             "Error procesando documento: 400: Error extrayendo texto: EOF marker not found") /\
  trace (upload_document (Faulty.world Faulty.bad_pdf) report_file DEFAULT_EMBEDDING_MODEL
           (Faulty.boot Faulty.bad_pdf fresh)).2
  = trace report_extracted
    ++ [EvLog ERROR
          "Error procesando documento: 400: Error extrayendo texto: EOF marker not found";
        EvUnlink "/tmp/upload.pdf"].
Proof.
  destruct (upload_document_extraction_failure (Faulty.world Faulty.bad_pdf) report_file
              DEFAULT_EMBEDDING_MODEL (Faulty.boot Faulty.bad_pdf fresh)
              "/tmp/upload.pdf" report_written pdf_error report_extracted)
    as (_ & Hraise & Htrace).
  - apply (bool_decide_unpack _). vm_compute. exact I.
  - vm_compute. reflexivity.
  - vm_compute. reflexivity.
  - split; [exact Hraise | exact Htrace].
Defined.

(** The temporary file of a successful upload is removed. *)
Lemma upload_document_removes_temporary_file_witness :
  In (EvUnlink "/tmp/upload.txt") (trace facts_upload.2) /\
  files (outside facts_upload.2) = [].
Proof.
  split; [| vm_compute; reflexivity].
  apply (upload_document_removes_temporary_file world facts_file DEFAULT_EMBEDDING_MODEL
           (boot fresh) "/tmp/upload.txt" facts_written).
  - apply (bool_decide_unpack _). vm_compute. exact I.
  - vm_compute. reflexivity.
Defined.

(** The batch of a file of three chunks: three rows are stored, of
    1000, 1000 and 900 characters. *)
Lemma upload_document_batch_witness :
  long_upload.1 = Ok long_response /\
  map r_id (rows (outside long_upload.2))
  = ["doc-0_chunk_0"; "doc-0_chunk_1"; "doc-0_chunk_2"] /\
  map (fun r => py_len (r_content r)) (rows (outside long_upload.2)) = [1000; 1000; 900] /\
  exists path s1 text s2 documents m embeddings entities dates before,
    write_upload world long_file (boot fresh) = (Ok path, s1) /\
    extract_text_from_file world path (extraction_type (extension_of long_file)) s1
    = (Ok text, s2) /\
    split_text world CHUNK_SIZE CHUNK_OVERLAP text = Ok documents /\
    embedding_models long_upload.2 !! DEFAULT_EMBEDDING_MODEL = Some m /\
    (exists x x', model_encode world m documents x = (Ok embeddings, x')) /\
    trace long_upload.2
    = trace (boot fresh) ++ before
      ++ [EvInsert COLLECTION_NAME entities;
          EvFlush COLLECTION_NAME;
          EvUnlink path;
          EvLog INFO ("Documento " +:+ filename long_file +:+ " procesado: "
                      +:+ pretty (length documents) +:+ " chunks")] /\
    In (EvEncode m documents) before /\
    Forall (fun ev => ~ data_event world ev) before /\
    ur_status long_response = "success" /\
    ur_filename long_response = filename long_file /\
    chunks_count long_response = length documents /\
    length (en_ids entities) = Nat.min (length documents) (length embeddings) /\
    length dates = length (en_ids entities) /\
    en_ids entities
    = map (chunk_id_of (ur_document_id long_response)) (seq 0 (length (en_ids entities))) /\
    NoDup (en_ids entities) /\
    en_document_ids entities
    = replicate (length (en_ids entities)) (ur_document_id long_response) /\
    en_contents entities = take (length (en_ids entities)) documents /\
    en_embeddings entities = take (length (en_ids entities)) embeddings /\
    en_metadata entities
    = zip_with (fun i date => json_dumps world (chunk_metadata_of (filename long_file) i date))
        (seq 0 (length (en_ids entities))) dates.
Proof.
  split; [vm_compute; reflexivity |].
  split; [vm_compute; reflexivity |].
  split; [vm_compute; reflexivity |].
  apply (upload_document_batch world long_file DEFAULT_EMBEDDING_MODEL (boot fresh)
           long_response long_upload.2).
  - apply (bool_decide_unpack _). vm_compute. exact I.
  - vm_compute. reflexivity.
Defined.

(** *** Retrieval *)

(** Three matches and two choices: the first choice is the answer, and
    the sources are the two names. *)
Lemma ask_question_answer_verbatim_witness :
  exists response,
    ask_varied.1 = Ok response /\
    answer response = Some "Respuesta generada" /\
    context_chunks response = 3 /\
    ar_question response = "What is X?" /\
    sources response ≡ₚ [HStr "a.txt"; HStr "notas.txt"].
Proof.
  apply (ask_question_answer_verbatim (Faulty.world Faulty.verbose) wide_question
           (Faulty.boot Faulty.verbose (holding varied_rows))
           default_model default_vector COLLECTION_NAME varied_at_search
           (row_of (chunk_row "doc-0" "a.txt" 0 "uno" 384))
           [row_of (chunk_row "doc-1" "notas.txt" 0 "dos" 384);
            row_of (chunk_row "doc-0" "a.txt" 1 "tres" 384)] []
           (holding varied_rows) [Some "uno"; Some "dos"; Some "tres"]
           [HStr "a.txt"; HStr "notas.txt"]
           ("uno" +:+ nl +:+ nl +:+ "dos" +:+ nl +:+ nl +:+ "tres")
           (Some "Respuesta generada") [Some "Otra respuesta"] (holding varied_rows)).
  - reached.
  - vm_compute. reflexivity.
  - vm_compute. reflexivity.
  - vm_compute. reflexivity.
  - vm_compute. reflexivity.
Defined.

(** In the reference world the names come out in the order of their
    slots, which is not the order in which the matches gave them. *)
Example sources_in_table_order :
  exists response,
    ask_varied.1 = Ok response /\
    sources response = [HStr "notas.txt"; HStr "a.txt"].
Proof. eexists. split; [vm_compute; reflexivity | reflexivity]. Qed.

(** The second of two matches has a metadata text that is not JSON. *)
Lemma ask_question_unusable_match_witness :
  exists cause,
    (ask_question world wide_question (boot (holding mixed_rows))).1
    = Raise (HTTPException 500 (ASK_ERROR +:+ str_exn world cause)) /\
    trace (ask_question world wide_question (boot (holding mixed_rows))).2
    = trace (at_search wide_question (holding mixed_rows))
      ++ [EvSearch COLLECTION_NAME (search_request world wide_question default_vector);
          EvLog ERROR (ASK_ERROR +:+ str_exn world cause)].
Proof.
  apply (ask_question_unusable_match world wide_question (boot (holding mixed_rows))
           default_model default_vector COLLECTION_NAME
           (at_search wide_question (holding mixed_rows))
           (map row_of mixed_rows) [] (holding mixed_rows) bad_row).
  - reached.
  - vm_compute. reflexivity.
  - vm_compute. right. left. reflexivity.
  - left. eexists. vm_compute. reflexivity.
Defined.

Example ask_question_unusable_match_message :
  (ask_question world wide_question (boot (holding mixed_rows))).1
  = Raise (HTTPException 500 "Error procesando pregunta: Expecting value").
Proof. vm_compute. reflexivity. Qed.

(** *** Listing *)

(** Three rows of two documents. *)
Lemma list_documents_entries_witness :
  (list_documents world (boot (holding three_rows))).1 = Ok three_listed /\
  NoDup (map di_id three_listed) /\
  (forall k, In k (map di_id three_listed) <-> 0 < rows_with k (map row_of three_rows)) /\
  (forall d, In d three_listed ->
     exists row, first_row_with (di_id d) (map row_of three_rows) = Some row /\
                 listed_as world (default "{}" (dict_get "metadata" row)) d).
Proof.
  split; [vm_compute; reflexivity |].
  apply (list_documents_entries world (boot (holding three_rows)) COLLECTION_NAME
           (connected (holding three_rows)) (map row_of three_rows) (holding three_rows)
           three_listed (list_documents world (boot (holding three_rows))).2).
  - vm_compute. reflexivity.
  - vm_compute. reflexivity.
  - vm_compute. reflexivity.
Defined.

(** An empty collection, and a row without identifier. *)
Lemma list_documents_edges_witness :
  (list_documents world (boot (holding []))).1 = Ok [] /\
  exists cause,
    (list_documents (Faulty.world Faulty.odd_rows) (Faulty.boot Faulty.odd_rows (holding []))).1
    = Raise (HTTPException 500 (LIST_ERROR +:+ str_exn (Faulty.world Faulty.odd_rows) cause)).
Proof.
  split.
  - apply (proj1 (list_documents_edges world (boot (holding [])) COLLECTION_NAME
                    (connected (holding [])) [] (holding [])
                    ltac:(vm_compute; reflexivity) ltac:(vm_compute; reflexivity))).
    reflexivity.
  - apply (proj2 (list_documents_edges (Faulty.world Faulty.odd_rows)
                    (Faulty.boot Faulty.odd_rows (holding [])) COLLECTION_NAME
                    (connect_milvus (Faulty.world Faulty.odd_rows) MILVUS_HOST MILVUS_PORT
                       (Faulty.boot Faulty.odd_rows (holding []))).2
                    [[("metadata", "{}")]] (holding [])
                    ltac:(vm_compute; reflexivity) ltac:(vm_compute; reflexivity))).
    exists [("metadata", "{}")]. split; [left; reflexivity | reflexivity].
Defined.

Example list_documents_missing_id_message :
  (list_documents (Faulty.world Faulty.odd_rows) (Faulty.boot Faulty.odd_rows (holding []))).1
  = Raise (HTTPException 500 "Error listando documentos: 'document_id'").
Proof. vm_compute. reflexivity. Qed.

End MoreExamples.
